(** * Smart BI platform: the analytical queries of [api/main.py] and
      [scripts/run_analytics.py], [api/utils.py]'s [execute_query], the
      display of [run_query] and the client of [dashboard/utils.py].

    The analyses of this repository are SQL texts handed to PostgreSQL.
    They are embedded here as list programs: a table is a [list] of
    records, a common table expression is a function from tables to a list
    of rows, and every SQL operator the queries use ([JOIN], [LEFT JOIN],
    [GROUP BY], [ORDER BY], [LIMIT], [NTILE], [PERCENT_RANK], [LAG],
    [AVG ... ROWS BETWEEN], [DENSE_RANK], [COALESCE], [NULLIF], [ROUND])
    is a definition of module [Sql].

    Conventions of the embedding:
    - [NUMERIC] columns are exact rationals ([Q]) and their division is
      exact (PostgreSQL keeps at least 16 significant digits of a
      quotient); SQL [NULL] is [None];
    - a date is a civil date; [CURRENT_DATE] is a parameter [today];
    - [TO_CHAR(x, '$999,999.99')] and the trailing [|| '%'] only render a
      number as text: output rows keep the number itself;
    - [PERCENT_RANK] is [double precision] in PostgreSQL; its value is kept
      exact here, and its type is tracked where the queries round it:
      [ROUND(x, d)] exists for [numeric] only, which is why
      [run_analytics.py] casts to numeric first;
    - SQL leaves the relative order of rows with equal sort keys open; the
      executable [order_by] is the stable choice (first-seen order), and the
      lemmas on window functions are stated for every window order. *)

From Stdlib Require Import String.
From Stdlib Require Import List ZArith QArith Qround Qreduction Bool Arith.
From Stdlib Require Import Lia Lqa.
From Stdlib Require Import Sorting.Sorted Sorting.Permutation.
Import ListNotations.

Set Implicit Arguments.
Close Scope Q_scope.
Open Scope nat_scope.

(* ================================================================== *)
(** * SQL operators *)
(* ================================================================== *)

Module Sql.

Section Ordering.
Variable A : Type.
(** [leb a b]: row [a] may come before row [b] in the requested order. *)
Variable leb : A -> A -> bool.

Fixpoint insert_row (x : A) (l : list A) : list A :=
  match l with
  | [] => [x]
  | y :: t => if leb x y then x :: y :: t else y :: insert_row x t
  end.

(** [ORDER BY]: one of the orders the database may return.  PostgreSQL
    leaves the order of rows with equal keys open; here they keep their
    input order. *)
Fixpoint order_by (l : list A) : list A :=
  match l with
  | [] => []
  | x :: t => insert_row x (order_by t)
  end.
End Ordering.

(** [LIMIT n]. *)
Definition limit {A} (n : nat) (l : list A) : list A := firstn n l.

(** What a sort key gives: any two rows compare, and comparisons chain. *)
Definition total {A} (leb : A -> A -> bool) : Prop :=
  forall a b, leb a b = true \/ leb b a = true.

Definition transitive {A} (leb : A -> A -> bool) : Prop :=
  forall a b c, leb a b = true -> leb b c = true -> leb a c = true.

(** ** NTILE *)

(** Number of rows of bucket [b] (numbered from 1) when [n] rows are
    spread over [k] buckets: the first [n mod k] buckets take one row
    more than the others. *)
Definition bucket_size (k n b : nat) : nat :=
  n / k + (if b <=? n mod k then 1 else 0).

(** The bucket numbers of the [n] rows of a window, in window order. *)
Definition ntile_blocks (k n first count : nat) : list nat :=
  flat_map (fun b => repeat b (bucket_size k n b)) (seq first count).

Definition ntile_numbers (k n : nat) : list nat := ntile_blocks k n 1 k.

(** [NTILE(k) OVER (ORDER BY ...)] on a window already in its order. *)
Definition ntile {A} (k : nat) (window : list A) : list (A * nat) :=
  combine window (ntile_numbers k (length window)).

(** [NTILE(k) OVER (ORDER BY key)] on the rows of a query. *)
Definition ntile_over {A} (k : nat) (leb : A -> A -> bool) (rows : list A)
  : list (A * nat) :=
  ntile k (order_by leb rows).

(** ** Joins and grouping *)

(** [l JOIN r ON on]. *)
Definition inner_join {A B} (on : A -> B -> bool) (l : list A) (r : list B)
  : list (A * B) :=
  flat_map (fun a => map (pair a) (filter (on a) r)) l.

(** [l LEFT JOIN r ON on]: a row of [l] with no match is kept once, its
    right-hand columns [NULL]. *)
Definition left_join {A B} (on : A -> B -> bool) (l : list A) (r : list B)
  : list (A * option B) :=
  flat_map (fun a => match filter (on a) r with
                     | [] => [(a, None)]
                     | ms => map (fun b => (a, Some b)) ms
                     end) l.

(** The right-hand rows of a left join that are not [NULL]. *)
Definition matched {A B} (rows : list (A * option B)) : list B :=
  flat_map (fun ab => match snd ab with Some b => [b] | None => [] end) rows.

(** [GROUP BY key]: one group per distinct key, with the rows of that key
    in input order. *)
Definition group_by {A K} (eq_dec : forall x y : K, {x = y} + {x <> y})
           (key : A -> K) (rows : list A) : list (K * list A) :=
  map (fun k =>
         (k, filter (fun x => if eq_dec (key x) k then true else false) rows))
      (nodup eq_dec (map key rows)).

(** ** Scalar functions *)

(** [NULLIF(x, 0)]. *)
Definition nullif_zero (x : Q) : option Q :=
  if Qeq_bool x 0 then None else Some x.

(** [COALESCE(x, d)]. *)
Definition coalesce {A} (x : option A) (d : A) : A :=
  match x with Some v => v | None => d end.

(** Nearest integer, halves away from zero (numeric [ROUND]). *)
Definition round_half_away (x : Q) : Z :=
  if Qle_bool 0 x then Qfloor (x + (1 # 2)) else Qceiling (x - (1 # 2)).

(** [ROUND(x, d)] on a numeric. *)
Definition round (x : Q) (d : nat) : Q :=
  let m := Z.to_pos (10 ^ Z.of_nat d) in
  Qred (round_half_away (x * (Zpos m # 1)) # m).

(** ** Numeric types *)

Inductive sql_type := Numeric | Float8.

(** The answer to a statement: its rows, or the refusal of a function call
    no function matches. *)
Inductive checked (A : Type) :=
| Accepted (rows : A)
| UndefinedFunction (signature : string).
Arguments Accepted {A} rows.
Arguments UndefinedFunction {A} signature.

(** A statement whose select list calls [ROUND(x, 2)]: there is a
    [round(numeric, integer)] and no [round(double precision, integer)],
    and double precision is not cast to numeric implicitly. *)
Definition round_checked {A} (argument : sql_type) (rows : A) : checked A :=
  match argument with
  | Numeric => Accepted rows
  | Float8 => UndefinedFunction "round(double precision, integer)"
  end.

(** The rows a caller sees when refusals are answered with no row. *)
Definition rows_of {A} (answer : checked (list A)) : list A :=
  match answer with
  | Accepted rows => rows
  | UndefinedFunction _ => []
  end.

(** ** Aggregates *)

Definition sum_q (l : list Q) : Q := fold_left Qplus l 0%Q.

(** [SUM(col)]: [NULL] when no row contributes. *)
Definition sum_agg (l : list Q) : option Q :=
  match l with [] => None | _ => Some (sum_q l) end.

(** [AVG(col)]. *)
Definition avg_agg (l : list Q) : option Q :=
  match l with
  | [] => None
  | _ => Some (sum_q l / inject_Z (Z.of_nat (length l)))%Q
  end.

(** [COUNT(DISTINCT col)] on an integer column. *)
Definition count_distinct (l : list Z) : nat := length (nodup Z.eq_dec l).

(** ** Window functions over a window already in its order *)

(** [LAG(col, 1)]: the value of the preceding row of the window. *)
Definition lag {A B} (col : A -> B) (window : list A) : list (A * option B) :=
  combine window (None :: map (fun x => Some (col x)) window).

(** The value [LAG(col, 1)] shows on row [i] of the window. *)
Definition lagged {A B} (col : A -> B) (window : list A) (i : nat)
  : option B :=
  match i with
  | 0 => None
  | S j => option_map col (nth_error window j)
  end.

(** The frame [ROWS BETWEEN w PRECEDING AND CURRENT ROW] of row [i]. *)
Definition frame {A} (w : nat) (window : list A) (i : nat) : list A :=
  skipn (i - w) (firstn (S i) window).

Definition rows_preceding {A} (w : nat) (window : list A)
  : list (A * list A) :=
  combine window (map (frame w window) (seq 0 (length window))).

(** [RANK() - 1]: the rows of the window that sort strictly before [x]. *)
Definition rows_before {A} (ltb : A -> A -> bool) (window : list A) (x : A)
  : nat :=
  length (filter (fun y => ltb y x) window).

(** [PERCENT_RANK()]: [(rank - 1) / (rows - 1)], and 0 on a window of one
    row. *)
Definition percent_rank {A} (ltb : A -> A -> bool) (window : list A) (x : A)
  : Q :=
  if length window <=? 1 then 0%Q
  else (inject_Z (Z.of_nat (rows_before ltb window x))
        / inject_Z (Z.of_nat (length window - 1)))%Q.

(** [DENSE_RANK()]: the rank goes up by one each time the key changes. *)
Fixpoint dense_rank_from {A} (same : A -> A -> bool) (prev : A) (r : nat)
         (l : list A) : list (A * nat) :=
  match l with
  | [] => []
  | x :: t => let r' := if same prev x then r else S r in
              (x, r') :: dense_rank_from same x r' t
  end.

Definition dense_rank {A} (same : A -> A -> bool) (window : list A)
  : list (A * nat) :=
  match window with
  | [] => []
  | x :: t => (x, 1) :: dense_rank_from same x 1 t
  end.

(** [ROW_NUMBER()]: the rows of the window are numbered from 1. *)
Definition row_number {A} (window : list A) : list (A * nat) :=
  combine window (seq 1 (length window)).

(** ** Dates *)

Record date := Date { year : Z; month : Z; day : Z }.

Definition date_eq_dec (a b : date) : {a = b} + {a <> b}.
Proof. decide equality; apply Z.eq_dec. Defined.

(** Day number of a civil date (days since 1970-01-01). *)
Definition day_number (d : date) : Z :=
  let y := if (month d <=? 2)%Z then (year d - 1)%Z else year d in
  let era := (y / 400)%Z in
  let yoe := (y - era * 400)%Z in
  let mp := ((month d + 9) mod 12)%Z in
  let doy := ((153 * mp + 2) / 5 + day d - 1)%Z in
  let doe := (yoe * 365 + yoe / 4 - yoe / 100 + doy)%Z in
  (era * 146097 + doe - 719468)%Z.

(** [a - b] on dates: a number of days. *)
Definition date_diff (a b : date) : Z := (day_number a - day_number b)%Z.

Definition date_leb (a b : date) : bool := (day_number a <=? day_number b)%Z.

(** [DATE_TRUNC('month', d)]. *)
Definition date_trunc_month (d : date) : date :=
  {| year := year d; month := month d; day := 1 |}.

(** [MAX(col)] on a date column. *)
Definition max_date (l : list date) : option date :=
  match l with
  | [] => None
  | d :: t => Some (fold_left (fun m x => if date_leb m x then x else m) t d)
  end.

End Sql.

(* ================================================================== *)
(** * The tables *)
(* ================================================================== *)

(** The columns the queries read, under the names the queries use. *)

Module Employee.
Record t := Make {
  emp_id : Z; first_name : string; last_name : string; position : string;
  dept_id : Z; salary : Q; is_active : bool }.
End Employee.

Module Department.
Record t := Make { dept_id : Z; dept_name : string; location : string }.
End Department.

Module Sale.
Record t := Make {
  sale_id : Z; customer_id : Z; emp_id : Z; product_id : Z;
  quantity : Z; total_amount : Q; sale_date : Sql.date; status : string }.

(** [status = 'completed']. *)
Definition completed (s : t) : bool := String.eqb (status s) "completed".
End Sale.

Module Customer.
Record t := Make { customer_id : Z; first_name : string; last_name : string }.
End Customer.

Module Product.
Record t := Make { product_id : Z; product_name : string; category : string }.
End Product.

Record Database := {
  employees : list Employee.t;
  departments : list Department.t;
  sales : list Sale.t;
  customers : list Customer.t;
  products : list Product.t }.

(** The database with another [sales] table. *)
Definition with_sales (ss : list Sale.t) (db : Database) : Database :=
  {| employees := employees db; departments := departments db;
     sales := ss; customers := customers db; products := products db |}.

(** [first_name || ' ' || last_name]. *)
Definition full_name (first last : string) : string :=
  (first ++ " " ++ last)%string.

(* ================================================================== *)
(** * api/main.py: the queries of the endpoints *)
(* ================================================================== *)

Module Main.
Import Sql.

(** ** /analytics/employees/salary *)

Module SalaryStats.
Record t := Make {
  employee_name : string; position : string; dept_name : string;
  salary : Q; salary_quartile : nat; salary_percentile : Q }.
End SalaryStats.

Module EmployeeSummary.
Record t := Make {
  employee_name : string; position : string; dept_name : string;
  salary : Q; salary_quartile : nat; percentile_rank : Q }.
End EmployeeSummary.

Definition joined_salary (r : Employee.t * Department.t) : Q :=
  Employee.salary (fst r).

(** [FROM employees e JOIN departments d ON e.dept_id = d.dept_id
     WHERE e.is_active = TRUE]. *)
Definition active_employees (db : Database)
  : list (Employee.t * Department.t) :=
  filter (fun r => Employee.is_active (fst r))
         (inner_join (fun e d => (Employee.dept_id e =? Department.dept_id d)%Z)
                     (employees db) (departments db)).

(** The window [OVER (ORDER BY e.salary)]. *)
Definition salary_window (db : Database) : list (Employee.t * Department.t) :=
  order_by (fun a b => Qle_bool (joined_salary a) (joined_salary b))
           (active_employees db).

Definition salary_below (a b : Employee.t * Department.t) : bool :=
  negb (Qle_bool (joined_salary b) (joined_salary a)).

(** A row of the CTE, from a joined row and its quartile. *)
Definition salary_stat (window : list (Employee.t * Department.t))
           (rq : Employee.t * Department.t * nat) : SalaryStats.t :=
  let e := fst (fst rq) in
  let d := snd (fst rq) in
  {| SalaryStats.employee_name :=
       full_name (Employee.first_name e) (Employee.last_name e);
     SalaryStats.position := Employee.position e;
     SalaryStats.dept_name := Department.dept_name d;
     SalaryStats.salary := Employee.salary e;
     SalaryStats.salary_quartile := snd rq;
     SalaryStats.salary_percentile :=
       percent_rank salary_below window (fst rq) |}.

Definition salary_stats (db : Database) : list SalaryStats.t :=
  map (salary_stat (salary_window db)) (ntile 4 (salary_window db)).

Definition employee_summary (s : SalaryStats.t) : EmployeeSummary.t :=
  {| EmployeeSummary.employee_name := SalaryStats.employee_name s;
     EmployeeSummary.position := SalaryStats.position s;
     EmployeeSummary.dept_name := SalaryStats.dept_name s;
     EmployeeSummary.salary := SalaryStats.salary s;
     EmployeeSummary.salary_quartile := SalaryStats.salary_quartile s;
     EmployeeSummary.percentile_rank :=
       round (SalaryStats.salary_percentile s * 100) 2 |}.

(** [ORDER BY salary DESC]. *)
Definition salary_desc (a b : SalaryStats.t) : bool :=
  Qle_bool (SalaryStats.salary b) (SalaryStats.salary a).

(** The select list rounds [salary_percentile * 100], a double precision
    value, with [ROUND(..., 2)] and no cast: the statement is refused,
    whatever the tables hold. *)
Definition get_employee_salary_analysis (limit_ : nat) (db : Database)
  : checked (list EmployeeSummary.t) :=
  round_checked Float8
    (map employee_summary
         (limit limit_ (order_by salary_desc (salary_stats db)))).

(** ** /analytics/sales/monthly *)

Module MonthlySales.
Record t := Make { month : date; transaction_count : nat; revenue : Q }.
End MonthlySales.

Module SalesTrend.
Record t := Make {
  month : date; transaction_count : nat; revenue : Q;
  growth_rate : option Q }.
End SalesTrend.

(** [SELECT DATE_TRUNC('month', sale_date), COUNT( * ), SUM(total_amount)
     FROM sales WHERE status = 'completed'
     GROUP BY DATE_TRUNC('month', sale_date)]. *)
Definition sales_by_month (db : Database) : list MonthlySales.t :=
  map (fun g =>
         {| MonthlySales.month := fst g;
            MonthlySales.transaction_count := length (snd g);
            MonthlySales.revenue := sum_q (map Sale.total_amount (snd g)) |})
      (group_by date_eq_dec (fun s => date_trunc_month (Sale.sale_date s))
                (filter Sale.completed (sales db))).

(** [ORDER BY month DESC]: [a] comes before [b]. *)
Definition month_desc (a b : MonthlySales.t) : bool :=
  date_leb (MonthlySales.month b) (MonthlySales.month a).

(** The CTE [monthly_sales], with its [ORDER BY month DESC LIMIT {months}]. *)
Definition monthly_sales (months : nat) (db : Database) : list MonthlySales.t :=
  limit months (order_by month_desc (sales_by_month db)).

(** [ROUND(((revenue - lag) / NULLIF(lag, 0)) * 100, 2)]. *)
Definition growth (revenue : Q) (lag_revenue : option Q) : option Q :=
  match lag_revenue with
  | None => None
  | Some prev =>
      match nullif_zero prev with
      | None => None
      | Some d => Some (round (((revenue - prev) / d) * 100) 2)
      end
  end.

(** The window [OVER (ORDER BY month DESC)] on the rows of the CTE. *)
Definition trend_window (months : nat) (db : Database)
  : list MonthlySales.t :=
  order_by month_desc (monthly_sales months db).

(** A row of the [SELECT], from a row of the CTE and its lagged revenue. *)
Definition sales_trend (r : MonthlySales.t * option Q) : SalesTrend.t :=
  {| SalesTrend.month := MonthlySales.month (fst r);
     SalesTrend.transaction_count := MonthlySales.transaction_count (fst r);
     SalesTrend.revenue := MonthlySales.revenue (fst r);
     SalesTrend.growth_rate := growth (MonthlySales.revenue (fst r)) (snd r) |}.

Definition get_monthly_sales_trend (months : nat) (db : Database)
  : list SalesTrend.t :=
  order_by (fun a b => date_leb (SalesTrend.month b) (SalesTrend.month a))
           (map sales_trend
                (lag MonthlySales.revenue (trend_window months db))).

(** ** /analytics/customers/rfm *)

Module CustomerMetrics.
Record t := Make {
  customer_id : Z; customer_name : string;
  recency_days : Z; frequency : nat; monetary_value : Q }.
End CustomerMetrics.

Module RfmScores.
Record t := Make {
  metrics : CustomerMetrics.t; r_score : nat; f_score : nat; m_score : nat }.
End RfmScores.

(** The labels of the [CASE] (each carries a pictogram in the source). *)
Inductive Segment := Champions | Loyal | New | AtRisk | Potential.

Module CustomerRFM.
Record t := Make {
  customer_name : string; recency_days : Z; frequency : nat;
  lifetime_value : Q; r_score : nat; f_score : nat; m_score : nat;
  segment : Segment }.
End CustomerRFM.

Definition customer_key_eq_dec (a b : Z * string) : {a = b} + {a <> b}.
Proof. decide equality; [apply string_dec|apply Z.eq_dec]. Defined.

(** [FROM customers c LEFT JOIN sales s
     ON c.customer_id = s.customer_id AND s.status = 'completed']. *)
Definition customer_sales (db : Database)
  : list (Customer.t * option Sale.t) :=
  left_join (fun c s => (Customer.customer_id c =? Sale.customer_id s)%Z
                        && Sale.completed s)
            (customers db) (sales db).

(** [GROUP BY c.customer_id, customer_name]. *)
Definition customer_groups (db : Database)
  : list ((Z * string) * list (Customer.t * option Sale.t)) :=
  group_by customer_key_eq_dec
           (fun r => (Customer.customer_id (fst r),
                      full_name (Customer.first_name (fst r))
                                (Customer.last_name (fst r))))
           (customer_sales db).

(** [COALESCE(CURRENT_DATE - MAX(s.sale_date), 999)]. *)
Definition recency (today : date) (group_sales : list Sale.t) : Z :=
  coalesce (option_map (date_diff today)
                       (max_date (map Sale.sale_date group_sales)))
           999%Z.

Definition customer_metrics (today : date) (db : Database)
  : list CustomerMetrics.t :=
  map (fun g =>
         let ss := matched (snd g) in
         {| CustomerMetrics.customer_id := fst (fst g);
            CustomerMetrics.customer_name := snd (fst g);
            CustomerMetrics.recency_days := recency today ss;
            CustomerMetrics.frequency := count_distinct (map Sale.sale_id ss);
            CustomerMetrics.monetary_value :=
              coalesce (sum_agg (map Sale.total_amount ss)) 0%Q |})
      (filter (fun g => 0 <? length (matched (snd g))) (customer_groups db)).

(** [ORDER BY recency_days ASC]. *)
Definition recency_asc (a b : CustomerMetrics.t) : bool :=
  (CustomerMetrics.recency_days a <=? CustomerMetrics.recency_days b)%Z.

(** [ORDER BY frequency DESC]. *)
Definition frequency_desc (a b : CustomerMetrics.t) : bool :=
  CustomerMetrics.frequency b <=? CustomerMetrics.frequency a.

(** [ORDER BY monetary_value DESC]. *)
Definition monetary_desc (a b : CustomerMetrics.t) : bool :=
  Qle_bool (CustomerMetrics.monetary_value b)
           (CustomerMetrics.monetary_value a).

(** The CTE [rfm_scores]: three windows, one after the other. *)
Definition with_r_score (today : date) (db : Database)
  : list (CustomerMetrics.t * nat) :=
  ntile_over 5 recency_asc (customer_metrics today db).

Definition with_f_score (today : date) (db : Database)
  : list (CustomerMetrics.t * nat * nat) :=
  ntile_over 5 (fun a b => frequency_desc (fst a) (fst b))
             (with_r_score today db).

Definition with_m_score (today : date) (db : Database)
  : list (CustomerMetrics.t * nat * nat * nat) :=
  ntile_over 5 (fun a b => monetary_desc (fst (fst a)) (fst (fst b)))
             (with_f_score today db).

Definition rfm_scores (today : date) (db : Database) : list RfmScores.t :=
  map (fun x =>
         {| RfmScores.metrics := fst (fst (fst x));
            RfmScores.r_score := snd (fst (fst x));
            RfmScores.f_score := snd (fst x);
            RfmScores.m_score := snd x |})
      (with_m_score today db).

Definition segment_of (r f m : nat) : Segment :=
  if (4 <=? r) && (4 <=? f) && (4 <=? m) then Champions
  else if (3 <=? r) && (3 <=? f) then Loyal
  else if (4 <=? r) && (f <=? 2) then New
  else if r <=? 2 then AtRisk
  else Potential.

Definition customer_rfm (x : RfmScores.t) : CustomerRFM.t :=
  let c := RfmScores.metrics x in
  {| CustomerRFM.customer_name := CustomerMetrics.customer_name c;
     CustomerRFM.recency_days := CustomerMetrics.recency_days c;
     CustomerRFM.frequency := CustomerMetrics.frequency c;
     CustomerRFM.lifetime_value := CustomerMetrics.monetary_value c;
     CustomerRFM.r_score := RfmScores.r_score x;
     CustomerRFM.f_score := RfmScores.f_score x;
     CustomerRFM.m_score := RfmScores.m_score x;
     CustomerRFM.segment :=
       segment_of (RfmScores.r_score x) (RfmScores.f_score x)
                  (RfmScores.m_score x) |}.

Definition get_customer_rfm_analysis (limit_ : nat) (today : date)
           (db : Database) : list CustomerRFM.t :=
  map customer_rfm
      (limit limit_
         (order_by (fun a b => monetary_desc (RfmScores.metrics a)
                                             (RfmScores.metrics b))
                   (rfm_scores today db))).

(** ** /analytics/products/top *)

Module TopProduct.
Record t := Make {
  product_name : string; category : string; times_sold : nat;
  total_quantity : option Z; revenue : option Q; rank : nat }.
End TopProduct.

Definition product_key_eq_dec (a b : Z * string * string)
  : {a = b} + {a <> b}.
Proof. repeat decide equality. Defined.

(** [SUM(col)] on an integer column. *)
Definition sum_z (l : list Z) : option Z :=
  match l with [] => None | _ => Some (fold_left Z.add l 0%Z) end.

(** [FROM products p LEFT JOIN sales s
     ON p.product_id = s.product_id AND s.status = 'completed'
     GROUP BY p.product_id, p.product_name, p.category]. *)
Definition product_groups (db : Database)
  : list ((Z * string * string) * list (Product.t * option Sale.t)) :=
  group_by product_key_eq_dec
           (fun r => (Product.product_id (fst r), Product.product_name (fst r),
                      Product.category (fst r)))
           (left_join (fun p s => (Product.product_id p =? Sale.product_id s)%Z
                                  && Sale.completed s)
                      (products db) (sales db)).

Definition group_revenue {A} (g : A * list (Product.t * option Sale.t))
  : option Q :=
  sum_agg (map Sale.total_amount (matched (snd g))).

(** [x > 0] and [x DESC] on a nullable numeric: [NULL > 0] is not true, and
    [NULL] sorts first in descending order. *)
Definition positive (x : option Q) : bool :=
  match x with Some v => negb (Qle_bool v 0) | None => false end.

Definition nullable_desc (a b : option Q) : bool :=
  match a, b with
  | None, _ => true
  | Some _, None => false
  | Some x, Some y => Qle_bool y x
  end.

Definition nullable_same (a b : option Q) : bool :=
  match a, b with
  | None, None => true
  | Some x, Some y => Qeq_bool x y
  | _, _ => false
  end.

Definition get_top_products (limit_ : nat) (db : Database)
  : list TopProduct.t :=
  let groups :=
    filter (fun g => positive (group_revenue g)) (product_groups db) in
  let window :=
    order_by (fun a b => nullable_desc (group_revenue a) (group_revenue b))
             groups in
  limit limit_
    (order_by
       (fun a b => nullable_desc (TopProduct.revenue a) (TopProduct.revenue b))
       (map (fun gr =>
               let g := fst gr in
               {| TopProduct.product_name := snd (fst (fst g));
                  TopProduct.category := snd (fst g);
                  TopProduct.times_sold := length (matched (snd g));
                  TopProduct.total_quantity :=
                    sum_z (map Sale.quantity (matched (snd g)));
                  TopProduct.revenue := group_revenue g;
                  TopProduct.rank := snd gr |})
            (dense_rank
               (fun a b => nullable_same (group_revenue a) (group_revenue b))
               window))).

(** The parts of that query: its window, its select list and its ranked
    rows. *)

(** The groups that pass [HAVING SUM(s.total_amount) > 0], in the order of
    the window [OVER (ORDER BY SUM(s.total_amount) DESC)]. *)
Definition product_window (db : Database)
  : list ((Z * string * string) * list (Product.t * option Sale.t)) :=
  order_by (fun a b => nullable_desc (group_revenue a) (group_revenue b))
           (filter (fun g => positive (group_revenue g)) (product_groups db)).

Definition top_product
           (gr : (Z * string * string) * list (Product.t * option Sale.t) * nat)
  : TopProduct.t :=
  let g := fst gr in
  {| TopProduct.product_name := snd (fst (fst g));
     TopProduct.category := snd (fst g);
     TopProduct.times_sold := length (matched (snd g));
     TopProduct.total_quantity :=
       sum_z (map Sale.quantity (matched (snd g)));
     TopProduct.revenue := group_revenue g;
     TopProduct.rank := snd gr |}.

Definition ranked_products (db : Database)
  : list ((Z * string * string) * list (Product.t * option Sale.t) * nat) :=
  dense_rank (fun a b => nullable_same (group_revenue a) (group_revenue b))
             (product_window db).

(** ** /analytics/departments *)

Module DepartmentPerformance.
Record t := Make {
  dept_name : string; location : string; employee_count : nat;
  avg_salary : option Q; total_sales : nat; total_revenue : Q;
  revenue_per_employee : option Q }.
End DepartmentPerformance.

Definition DepartmentRow : Type :=
  (Department.t * option Employee.t) * option Sale.t.

(** [FROM departments d
     LEFT JOIN employees e ON d.dept_id = e.dept_id AND e.is_active = TRUE
     LEFT JOIN sales s ON e.emp_id = s.emp_id AND s.status = 'completed']. *)
Definition department_rows (db : Database) : list DepartmentRow :=
  left_join (fun de s =>
               match snd de with
               | Some e => (Employee.emp_id e =? Sale.emp_id s)%Z
                           && Sale.completed s
               | None => false
               end)
            (left_join (fun d e => (Department.dept_id d =? Employee.dept_id e)%Z
                                   && Employee.is_active e)
                       (departments db) (employees db))
            (sales db).

(** The columns of [GROUP BY d.dept_id, d.dept_name, d.location]. *)
Definition department_key (d : Department.t) : Z * string * string :=
  (Department.dept_id d, Department.dept_name d, Department.location d).

Definition department_groups (db : Database)
  : list ((Z * string * string) * list DepartmentRow) :=
  group_by product_key_eq_dec
           (fun r : DepartmentRow => department_key (fst (fst r)))
           (department_rows db).

(** The employees of the rows of a group ([e.*] is [NULL] on a department
    without active employee). *)
Definition group_employees (rows : list DepartmentRow) : list Employee.t :=
  matched (map fst rows).

(** [COUNT(DISTINCT e.emp_id)]. *)
Definition employee_count (rows : list DepartmentRow) : nat :=
  count_distinct (map Employee.emp_id (group_employees rows)).

(** [COALESCE(SUM(s.total_amount), 0)]. *)
Definition total_revenue (rows : list DepartmentRow) : Q :=
  coalesce (sum_agg (map Sale.total_amount (matched rows))) 0%Q.

(** [ROUND(COALESCE(SUM(s.total_amount), 0)
           / NULLIF(COUNT(DISTINCT e.emp_id), 0), 0)]. *)
Definition revenue_per_employee (rows : list DepartmentRow) : option Q :=
  match nullif_zero (inject_Z (Z.of_nat (employee_count rows))) with
  | None => None
  | Some c => Some (round (total_revenue rows / c) 0)
  end.

Definition department_performance
           (g : (Z * string * string) * list DepartmentRow)
  : DepartmentPerformance.t :=
  {| DepartmentPerformance.dept_name := snd (fst (fst g));
     DepartmentPerformance.location := snd (fst g);
     DepartmentPerformance.employee_count := employee_count (snd g);
     DepartmentPerformance.avg_salary :=
       avg_agg (map Employee.salary (group_employees (snd g)));
     DepartmentPerformance.total_sales := length (matched (snd g));
     DepartmentPerformance.total_revenue := total_revenue (snd g);
     DepartmentPerformance.revenue_per_employee :=
       revenue_per_employee (snd g) |}.

(** [ORDER BY COALESCE(SUM(s.total_amount), 0) DESC NULLS LAST]. *)
Definition get_department_performance (db : Database)
  : list DepartmentPerformance.t :=
  map department_performance
      (order_by (fun a b => Qle_bool (total_revenue (snd b))
                                     (total_revenue (snd a)))
                (department_groups db)).

(** ** /summary *)

(** The text column [value]: a [COUNT( * )::text], or the rendering of an
    amount. *)
Inductive SummaryValue := Count (n : nat) | Amount (q : Q).

Module Summary.
Record t := Make { metric : string; value : SummaryValue }.
End Summary.

(** The six [SELECT]s of the [UNION ALL], in the order of the text; the
    last one is [COALESCE(SUM(total_amount), 0) FROM sales], with no
    [WHERE]. *)
Definition summary_rows (db : Database) : list Summary.t :=
  [ Summary.Make "departments" (Count (length (departments db)));
    Summary.Make "employees" (Count (length (employees db)));
    Summary.Make "products" (Count (length (products db)));
    Summary.Make "customers" (Count (length (customers db)));
    Summary.Make "sales" (Count (length (sales db)));
    Summary.Make "total_revenue"
      (Amount (coalesce (sum_agg (map Sale.total_amount (sales db))) 0%Q)) ].

(** [ORDER BY metric]. *)
Definition database_summary (db : Database) : list Summary.t :=
  order_by (fun a b => String.leb (Summary.metric a) (Summary.metric b))
           (summary_rows db).

End Main.

(* ================================================================== *)
(** * scripts/run_analytics.py: the queries of [main] *)
(* ================================================================== *)

Module RunAnalytics.
Import Sql.

(** ** 1. Employee Salary Analysis with Percentiles *)

Module SalaryStats.
Record t := Make {
  emp_id : Z; stats : Main.SalaryStats.t;
  company_avg_salary : option Q; dept_avg_salary : option Q }.
End SalaryStats.

Module SalaryRow.
Record t := Make {
  employee_name : string; position : string; dept_name : string;
  salary : Q; salary_quartile : nat; percentile_rank : Q;
  company_avg : option Q; dept_avg : option Q }.
End SalaryRow.

(** The CTE [salary_stats]: the columns of the CTE of [api/main.py] over
    the same join and window, with [e.emp_id], [AVG(e.salary) OVER ()]
    and [AVG(e.salary) OVER (PARTITION BY d.dept_id)]. *)
Definition salary_stats (db : Database) : list SalaryStats.t :=
  let window := Main.salary_window db in
  map (fun rq =>
         {| SalaryStats.emp_id := Employee.emp_id (fst (fst rq));
            SalaryStats.stats := Main.salary_stat window rq;
            SalaryStats.company_avg_salary :=
              avg_agg (map Main.joined_salary window);
            SalaryStats.dept_avg_salary :=
              avg_agg
                (map Main.joined_salary
                     (filter (fun r => (Department.dept_id (snd r)
                                        =? Department.dept_id (snd (fst rq)))%Z)
                             window)) |})
      (ntile 4 window).

(** [ROUND((salary_percentile * 100)::numeric, 2)] and the other columns
    of the [SELECT]. *)
Definition salary_row (s : SalaryStats.t) : SalaryRow.t :=
  let st := SalaryStats.stats s in
  {| SalaryRow.employee_name := Main.SalaryStats.employee_name st;
     SalaryRow.position := Main.SalaryStats.position st;
     SalaryRow.dept_name := Main.SalaryStats.dept_name st;
     SalaryRow.salary := Main.SalaryStats.salary st;
     SalaryRow.salary_quartile := Main.SalaryStats.salary_quartile st;
     SalaryRow.percentile_rank :=
       round (Main.SalaryStats.salary_percentile st * 100) 2;
     SalaryRow.company_avg := SalaryStats.company_avg_salary s;
     SalaryRow.dept_avg := SalaryStats.dept_avg_salary s |}.

(** [ORDER BY salary DESC LIMIT 15]. *)
Definition employee_salary_analysis (db : Database)
  : checked (list SalaryRow.t) :=
  round_checked Numeric
    (map salary_row
         (limit 15
                (order_by (fun a b => Main.salary_desc (SalaryStats.stats a)
                                                       (SalaryStats.stats b))
                          (salary_stats db)))).

(** ** 2. Monthly Sales Trend with Moving Averages *)

Module TrendRow.
Record t := Make {
  month : date; transaction_count : nat; revenue : Q;
  prev_month : option Q; growth_rate : option Q;
  three_month_avg : option Q }.
End TrendRow.

(** The CTE [monthly_sales]: the same text as in [api/main.py], without
    [ORDER BY ... LIMIT]. *)
Definition monthly_sales (db : Database) : list Main.MonthlySales.t :=
  Main.sales_by_month db.

(** [ORDER BY month]: [a] comes before [b]. *)
Definition month_asc (a b : Main.MonthlySales.t) : bool :=
  date_leb (Main.MonthlySales.month a) (Main.MonthlySales.month b).

(** The window [OVER (ORDER BY month)]. *)
Definition trend_window (db : Database) : list Main.MonthlySales.t :=
  order_by month_asc (monthly_sales db).

Definition trend_row (m : Main.MonthlySales.t) (lag_revenue : option Q)
           (frame_rows : list Main.MonthlySales.t) : TrendRow.t :=
  {| TrendRow.month := Main.MonthlySales.month m;
     TrendRow.transaction_count := Main.MonthlySales.transaction_count m;
     TrendRow.revenue := Main.MonthlySales.revenue m;
     TrendRow.prev_month := lag_revenue;
     TrendRow.growth_rate :=
       Main.growth (Main.MonthlySales.revenue m) lag_revenue;
     TrendRow.three_month_avg :=
       avg_agg (map Main.MonthlySales.revenue frame_rows) |}.

(** The rows of the [SELECT], in window order: [LAG(revenue, 1)] and
    [AVG(revenue) ... ROWS BETWEEN 2 PRECEDING AND CURRENT ROW] over every
    month of [monthly_sales]. *)
Definition trend_rows (db : Database) : list TrendRow.t :=
  let window := trend_window db in
  map (fun x => trend_row (fst (fst x)) (snd (fst x)) (snd (snd x)))
      (combine (lag Main.MonthlySales.revenue window)
               (rows_preceding 2 window)).

(** [ORDER BY month DESC LIMIT 12]. *)
Definition monthly_sales_trend (db : Database) : list TrendRow.t :=
  limit 12
        (order_by (fun a b => date_leb (TrendRow.month b) (TrendRow.month a))
                  (trend_rows db)).

(** ** 3. Customer RFM Segments *)

Module CustomerMetrics.
Record t := Make {
  customer_id : Z; customer_name : string;
  recency_days : option Z; frequency : nat; monetary_value : Q }.
End CustomerMetrics.

Module RfmScores.
Record t := Make {
  metrics : CustomerMetrics.t; r_score : nat; f_score : nat; m_score : nat }.
End RfmScores.

Inductive Segment :=
  Champions | LoyalCustomers | NewCustomers | AtRisk | Lost | Potential.

Module RfmRow.
Record t := Make {
  customer_name : string; recency_days : option Z; frequency : nat;
  lifetime_value : Q; r_score : nat; f_score : nat; m_score : nat;
  segment : Segment }.
End RfmRow.

(** [CURRENT_DATE - MAX(s.sale_date)]. *)
Definition recency (today : date) (group_sales : list Sale.t) : option Z :=
  option_map (date_diff today) (max_date (map Sale.sale_date group_sales)).

Definition customer_metrics (today : date) (db : Database)
  : list CustomerMetrics.t :=
  map (fun g =>
         let ss := matched (snd g) in
         {| CustomerMetrics.customer_id := fst (fst g);
            CustomerMetrics.customer_name := snd (fst g);
            CustomerMetrics.recency_days := recency today ss;
            CustomerMetrics.frequency := count_distinct (map Sale.sale_id ss);
            CustomerMetrics.monetary_value :=
              coalesce (sum_agg (map Sale.total_amount ss)) 0%Q |})
      (filter (fun g => 0 <? length (matched (snd g)))
              (Main.customer_groups db)).

(** [ORDER BY recency_days DESC]: [NULL] sorts first. *)
Definition recency_desc (a b : CustomerMetrics.t) : bool :=
  match CustomerMetrics.recency_days a, CustomerMetrics.recency_days b with
  | None, _ => true
  | Some _, None => false
  | Some x, Some y => (y <=? x)%Z
  end.

(** [ORDER BY frequency]. *)
Definition frequency_asc (a b : CustomerMetrics.t) : bool :=
  CustomerMetrics.frequency a <=? CustomerMetrics.frequency b.

(** [ORDER BY monetary_value]. *)
Definition monetary_asc (a b : CustomerMetrics.t) : bool :=
  Qle_bool (CustomerMetrics.monetary_value a)
           (CustomerMetrics.monetary_value b).

Definition with_r_score (today : date) (db : Database)
  : list (CustomerMetrics.t * nat) :=
  ntile_over 5 recency_desc (customer_metrics today db).

Definition with_f_score (today : date) (db : Database)
  : list (CustomerMetrics.t * nat * nat) :=
  ntile_over 5 (fun a b => frequency_asc (fst a) (fst b))
             (with_r_score today db).

Definition with_m_score (today : date) (db : Database)
  : list (CustomerMetrics.t * nat * nat * nat) :=
  ntile_over 5 (fun a b => monetary_asc (fst (fst a)) (fst (fst b)))
             (with_f_score today db).

Definition rfm_scores (today : date) (db : Database) : list RfmScores.t :=
  map (fun x =>
         {| RfmScores.metrics := fst (fst (fst x));
            RfmScores.r_score := snd (fst (fst x));
            RfmScores.f_score := snd (fst x);
            RfmScores.m_score := snd x |})
      (with_m_score today db).

Definition segment_of (r f m : nat) : Segment :=
  if (4 <=? r) && (4 <=? f) && (4 <=? m) then Champions
  else if (3 <=? r) && (3 <=? f) && (3 <=? m) then LoyalCustomers
  else if (4 <=? r) && (f <=? 2) then NewCustomers
  else if (r <=? 2) && (3 <=? f) then AtRisk
  else if (r <=? 2) && (f <=? 2) then Lost
  else Potential.

Definition rfm_row (x : RfmScores.t) : RfmRow.t :=
  let c := RfmScores.metrics x in
  {| RfmRow.customer_name := CustomerMetrics.customer_name c;
     RfmRow.recency_days := CustomerMetrics.recency_days c;
     RfmRow.frequency := CustomerMetrics.frequency c;
     RfmRow.lifetime_value := CustomerMetrics.monetary_value c;
     RfmRow.r_score := RfmScores.r_score x;
     RfmRow.f_score := RfmScores.f_score x;
     RfmRow.m_score := RfmScores.m_score x;
     RfmRow.segment :=
       segment_of (RfmScores.r_score x) (RfmScores.f_score x)
                  (RfmScores.m_score x) |}.

(** [ORDER BY monetary_value DESC LIMIT 20]. *)
Definition customer_rfm_segments (today : date) (db : Database)
  : list RfmRow.t :=
  map rfm_row
      (limit 20
         (order_by (fun a b => monetary_asc (RfmScores.metrics b)
                                            (RfmScores.metrics a))
                   (rfm_scores today db))).

(** ** 7. Department Performance Comparison *)

Module DepartmentRow.
Record t := Make {
  dept_name : string; location : string; employee_count : nat;
  avg_salary : option Q; total_sales : nat; total_revenue : option Q;
  revenue_per_employee : option Q }.
End DepartmentRow.

(** [SUM(s.total_amount)]. *)
Definition total_revenue (rows : list Main.DepartmentRow) : option Q :=
  sum_agg (map Sale.total_amount (matched rows)).

(** [SUM(s.total_amount) / NULLIF(COUNT(DISTINCT e.emp_id), 0)]. *)
Definition revenue_per_employee (rows : list Main.DepartmentRow)
  : option Q :=
  match total_revenue rows,
        nullif_zero (inject_Z (Z.of_nat (Main.employee_count rows))) with
  | Some total, Some c => Some (total / c)%Q
  | _, _ => None
  end.

Definition department_row
           (g : (Z * string * string) * list Main.DepartmentRow)
  : DepartmentRow.t :=
  {| DepartmentRow.dept_name := snd (fst (fst g));
     DepartmentRow.location := snd (fst g);
     DepartmentRow.employee_count := Main.employee_count (snd g);
     DepartmentRow.avg_salary :=
       avg_agg (map Employee.salary (Main.group_employees (snd g)));
     DepartmentRow.total_sales := length (matched (snd g));
     DepartmentRow.total_revenue := total_revenue (snd g);
     DepartmentRow.revenue_per_employee := revenue_per_employee (snd g) |}.

(** [x DESC NULLS LAST]. *)
Definition desc_nulls_last (a b : option Q) : bool :=
  match a, b with
  | _, None => true
  | None, Some _ => false
  | Some x, Some y => Qle_bool y x
  end.

Definition department_performance (db : Database) : list DepartmentRow.t :=
  map department_row
      (order_by (fun a b => desc_nulls_last (total_revenue (snd a))
                                            (total_revenue (snd b)))
                (Main.department_groups db)).

(** ** 5. Sales Performance by Region *)

(** A row of [sales] with its [region], a column no other query reads. *)
Definition RegionSale : Type := string * Sale.t.

Module RegionRow.
Record t := Make {
  region : string; total_transactions : nat; completed : nat; pending : nat;
  cancelled : nat; total_revenue : Q; completion_rate : Q }.
End RegionRow.

(** [COUNT(CASE WHEN status = st THEN 1 END)]. *)
Definition count_status (st : string) (rows : list RegionSale) : nat :=
  length (filter (fun r => String.eqb (Sale.status (snd r)) st) rows).

(** [SUM(CASE WHEN status = 'completed' THEN total_amount ELSE 0 END)]. *)
Definition completed_revenue (rows : list RegionSale) : Q :=
  sum_q (map (fun r => if Sale.completed (snd r)
                       then Sale.total_amount (snd r) else 0%Q) rows).

(** [ROUND(completed::NUMERIC / COUNT( * ) * 100, 2)]. *)
Definition completion_rate (rows : list RegionSale) : Q :=
  round (inject_Z (Z.of_nat (count_status "completed" rows))
         / inject_Z (Z.of_nat (length rows)) * 100)%Q 2.

Definition region_row (g : string * list RegionSale) : RegionRow.t :=
  {| RegionRow.region := fst g;
     RegionRow.total_transactions := length (snd g);
     RegionRow.completed := count_status "completed" (snd g);
     RegionRow.pending := count_status "pending" (snd g);
     RegionRow.cancelled := count_status "cancelled" (snd g);
     RegionRow.total_revenue := completed_revenue (snd g);
     RegionRow.completion_rate := completion_rate (snd g) |}.

(** [FROM sales GROUP BY region ORDER BY SUM(CASE ...) DESC]. *)
Definition sales_by_region (rows : list RegionSale) : list RegionRow.t :=
  map region_row
      (order_by (fun a b => Qle_bool (completed_revenue (snd b))
                                     (completed_revenue (snd a)))
                (group_by string_dec fst rows)).

(** ** 6. Top 15 Performing Employees *)

Module EmployeeRank.
Record t := Make {
  rank : nat; employee_name : string; position : string; dept_name : string;
  total_sales : nat; revenue : option Q; avg_sale : option Q;
  unique_customers : nat }.
End EmployeeRank.

Definition EmployeeSale : Type :=
  (Employee.t * Department.t) * option Sale.t.

(** [FROM employees e JOIN departments d ON e.dept_id = d.dept_id
     LEFT JOIN sales s ON e.emp_id = s.emp_id AND s.status = 'completed'
     WHERE e.is_active = TRUE]. *)
Definition employee_sales (db : Database) : list EmployeeSale :=
  filter (fun r : EmployeeSale => Employee.is_active (fst (fst r)))
         (left_join
            (fun ed s => (Employee.emp_id (fst ed) =? Sale.emp_id s)%Z
                         && Sale.completed s)
            (inner_join
               (fun e d => (Employee.dept_id e =? Department.dept_id d)%Z)
               (employees db) (departments db))
            (sales db)).

Definition employee_key_eq_dec (a b : Z * string * string * string)
  : {a = b} + {a <> b}.
Proof. repeat decide equality. Defined.

(** The columns of [GROUP BY e.emp_id, employee_name, e.position,
    d.dept_name]. *)
Definition employee_key (r : EmployeeSale) : Z * string * string * string :=
  (Employee.emp_id (fst (fst r)),
   full_name (Employee.first_name (fst (fst r)))
             (Employee.last_name (fst (fst r))),
   Employee.position (fst (fst r)),
   Department.dept_name (snd (fst r))).

(** The CTE [emp_performance], with its [HAVING COUNT(s.sale_id) > 0]. *)
Definition emp_performance (db : Database)
  : list ((Z * string * string * string) * list EmployeeSale) :=
  filter (fun g => 0 <? length (matched (snd g)))
         (group_by employee_key_eq_dec employee_key (employee_sales db)).

(** [SUM(s.total_amount)] of a group. *)
Definition employee_revenue
           (g : (Z * string * string * string) * list EmployeeSale)
  : option Q :=
  sum_agg (map Sale.total_amount (matched (snd g))).

(** The window [OVER (ORDER BY total_revenue DESC)]. *)
Definition employee_window (db : Database)
  : list ((Z * string * string * string) * list EmployeeSale) :=
  order_by (fun a b => Main.nullable_desc (employee_revenue a)
                                          (employee_revenue b))
           (emp_performance db).

Definition employee_rank
           (gr : (Z * string * string * string) * list EmployeeSale * nat)
  : EmployeeRank.t :=
  let g := fst gr in
  {| EmployeeRank.rank := snd gr;
     EmployeeRank.employee_name := snd (fst (fst (fst g)));
     EmployeeRank.position := snd (fst (fst g));
     EmployeeRank.dept_name := snd (fst g);
     EmployeeRank.total_sales := length (matched (snd g));
     EmployeeRank.revenue := employee_revenue g;
     EmployeeRank.avg_sale :=
       avg_agg (map Sale.total_amount (matched (snd g)));
     EmployeeRank.unique_customers :=
       count_distinct (map Sale.customer_id (matched (snd g))) |}.

(** The rows of the [SELECT], in window order. *)
Definition ranked_employees (db : Database) : list EmployeeRank.t :=
  map employee_rank (row_number (employee_window db)).

(** [ORDER BY total_revenue DESC LIMIT 15]. *)
Definition top_employees (db : Database) : list EmployeeRank.t :=
  limit 15
        (order_by (fun a b => Main.nullable_desc (EmployeeRank.revenue a)
                                                 (EmployeeRank.revenue b))
                  (ranked_employees db)).

End RunAnalytics.

(* ================================================================== *)
(** * api/utils.py and the endpoints of api/main.py *)
(* ================================================================== *)

Module Utils.

(** An exception caught by [except Exception], with its message. *)
Inductive exception := Exception (message : string).

(** The outcome of a Python call: a value, or a raised exception. *)
Inductive outcome (A : Type) :=
| Returned (a : A)
| Raised (e : exception).
Arguments Returned {A} a.
Arguments Raised {A} e.

Definition bind {A B} (m : outcome A) (f : A -> outcome B) : outcome B :=
  match m with
  | Returned a => f a
  | Raised e => Raised e
  end.

Notation "x <- m ;; k" := (bind m (fun x => k))
  (at level 61, m at next level, right associativity).

(** [try: body except Exception as e: print(...); return handler]. *)
Definition try_except {A} (body : outcome A) (handler : exception -> A) : A :=
  match body with
  | Returned a => a
  | Raised e => handler e
  end.

(** What a call returns whose statement the database answers with
    [answer]: a refusal is raised as an exception. *)
Definition of_answer {A} (answer : Sql.checked A) : outcome A :=
  match answer with
  | Sql.Accepted rows => Returned rows
  | Sql.UndefinedFunction signature =>
      Raised (Exception ("function " ++ signature ++ " does not exist"))
  end.

Section ExecuteQuery.
(** The query text and the values of a result row. *)
Variables Query Value : Type.

(** What [session.execute(text(query))] returns. *)
Record Result := {
  fetchall : outcome (list (list Value));
  keys : outcome (list string) }.

Record Session := { execute : Query -> outcome Result }.

(** [dict(zip(columns, row))]. *)
Definition Row : Type := list (string * Value).

(** [row[key]] on such a dictionary: of the pairs of one key, the last one
    sets the value. *)
Definition dict_get (key : string) (row : Row) : option Value :=
  fold_left (fun found kv => if String.eqb (fst kv) key then Some (snd kv)
                             else found)
            row None.

Definition run (session : Session) (query : Query) : outcome (list Row) :=
  result <- execute session query ;;
  rows <- fetchall result ;;
  columns <- keys result ;;
  Returned (map (fun row => combine columns row) rows).

Definition execute_query (session : Session) (query : Query) : list Row :=
  try_except (run session query) (fun _ => []).

(** The endpoints that answer with the rows of one query, the key of their
    answer, and the query they send; [limit] and [months] are the values
    placed in the text. *)
Inductive Endpoint :=
| database_summary
| get_employee_salary_analysis (limit : nat)
| get_monthly_sales_trend (months : nat)
| get_customer_rfm_analysis (limit : nat)
| get_top_products (limit : nat)
| get_department_performance.

Definition response_key (e : Endpoint) : string :=
  match e with
  | database_summary => "summary"
  | get_employee_salary_analysis _ => "employees"
  | get_monthly_sales_trend _ => "monthly_trends"
  | get_customer_rfm_analysis _ => "rfm_segments"
  | get_top_products _ => "top_products"
  | get_department_performance => "departments"
  end.

(** The query text of each endpoint. *)
Variable query_of : Endpoint -> Query.

(** [data = execute_query(db_session, query); return {key: data}]. *)
Definition respond (e : Endpoint) (db_session : Session)
  : string * list Row :=
  (response_key e, execute_query db_session (query_of e)).

End ExecuteQuery.

End Utils.

(* ================================================================== *)
(** * scripts/run_analytics.py: [run_query] and the loop of [main] *)
(* ================================================================== *)

Module Runner.
Import Utils.

(** [df.head(n)]: the first [n] rows, and all but the last [-n] when [n]
    is negative. *)
Definition head {A} (n : Z) (rows : list A) : list A :=
  if (0 <=? n)%Z then firstn (Z.to_nat n) rows
  else firstn (length rows - Z.to_nat (- n)) rows.

(** What [run_query] prints of a data frame: the line "Showing first
    [limit] of [len(df)] results" when there is one, the rows of the
    table, and the count of the closing line. *)
Record Display (A : Type) := {
  announced : option (Z * nat);
  shown : list A;
  returned : nat }.
Arguments announced {A} d.
Arguments shown {A} d.
Arguments returned {A} d.

(** [if limit and len(df) > limit: ... head(limit) else: ... df];
    [limit=None] is [None]. *)
Definition display {A} (limit : option Z) (df : list A) : Display A :=
  let everything :=
    {| announced := None; shown := df; returned := length df |} in
  match limit with
  | None => everything
  | Some n =>
      if negb (n =? 0)%Z && (n <? Z.of_nat (length df))%Z
      then {| announced := Some (n, length df); shown := head n df;
              returned := length df |}
      else everything
  end.

Inductive Printed (A : Type) :=
| Results (d : Display A)
| ErrorExecutingQuery (e : exception).
Arguments Results {A} d.
Arguments ErrorExecutingQuery {A} e.

(** [run_query]: [frame] is the outcome of the statements that connect,
    execute, fetch and build the data frame. *)
Definition run_query {A} (frame : outcome (list A)) (limit : option Z)
  : Printed A :=
  try_except (df <- frame ;; Returned (Results (display limit df)))
             ErrorExecutingQuery.

Section MainLoop.
Variable Query : Type.
(** [str.lower]. *)
Variable lower : string -> string.

(** The loop of [main] over the queries left, [typed] being the lines the
    user enters: the queries run, and whether the loop is left normally
    ([input] raises [EOFError] when no line is left). *)
Fixpoint main_loop (queries : list Query) (typed : list string)
  : list Query * bool :=
  match queries with
  | [] => ([], true)
  | q :: rest =>
      match typed with
      | [] => ([q], false)
      | user_input :: more =>
          if String.eqb (lower user_input) "skip" then ([q], true)
          else let r := main_loop rest more in (q :: fst r, snd r)
      end
  end.
End MainLoop.

End Runner.

(* ================================================================== *)
(** * dashboard/utils.py and the figures of dashboard/dashboard.py *)
(* ================================================================== *)

Module Dashboard.
Import Ascii.

(** A decoded JSON document; the entries of an object are in the order of
    the text, their keys distinct. *)
Unset Elimination Schemes.
Inductive json :=
| JNull
| JBool (b : bool)
| JNumber (x : Q)
| JString (s : string)
| JList (items : list json)
| JDict (entries : list (string * json)).
Set Elimination Schemes.

(** [isinstance(x, list)]. *)
Definition is_list (x : json) : bool :=
  match x with JList _ => true | _ => false end.

(** The statements after [data = response.json()]: the first entry of a
    dictionary that holds a list, and [data] itself otherwise. *)
Definition unwrap (data : json) : json :=
  match data with
  | JDict entries =>
      match find (fun kv => is_list (snd kv)) entries with
      | Some kv => snd kv
      | None => data
      end
  | _ => data
  end.

(** What the request raises: [requests.exceptions.ConnectionError], or
    another exception, with its text. *)
Inductive failure := ConnectionError | OtherError (message : string).

(** What [st.error] and [st.info] show. *)
Inductive notice :=
  CannotConnect | MakeSureRunning | ApiError (message : string).

(** [BIApiClient.get]: [response] is the outcome of the request, of
    [raise_for_status] and of [response.json()]. *)
Definition get (response : failure + json) : json * list notice :=
  match response with
  | inr data => (unwrap data, [])
  | inl ConnectionError => (JList [], [CannotConnect; MakeSureRunning])
  | inl (OtherError message) => (JList [], [ApiError message])
  end.

Section Responses.
Variable Value : Type.
Variable value_json : Value -> json.

Definition row_json (row : Utils.Row Value) : json :=
  JDict (map (fun kv => (fst kv, value_json (snd kv))) row).

(** The body of the answer [{key: data}] of an endpoint. *)
Definition response_json (answer : string * list (Utils.Row Value)) : json :=
  JDict [(fst answer, JList (map row_json (snd answer)))].
End Responses.

(** [BIApiClient.format_currency]; [None] is Python's [None]. *)
Definition format_currency (value : option string) : string :=
  match value with
  | Some v =>
      if negb (String.eqb v "") && negb (String.eqb v "None") then v
      else "$0.00"
  | None => "$0.00"
  end.

(** [s.replace(c, '')] for a character [c]. *)
Fixpoint remove_char (c : Ascii.ascii) (s : string) : string :=
  match s with
  | EmptyString => EmptyString
  | String a t =>
      if Ascii.eqb a c then remove_char c t else String a (remove_char c t)
  end.

(** The argument of [parse_numeric]: a [str], or an object of another
    type. *)
Inductive argument := Str (s : string) | NotStr.

Section ParseNumeric.
Variable Float : Type.
(** [float(s)], [None] when it raises. *)
Variable float : string -> option Float.
Variable zero : Float.

Definition parse_numeric (value : argument) : Float :=
  match value with
  | Str s =>
      if negb (String.eqb s "None")
      then match float (remove_char "%"%char
                          (remove_char ","%char (remove_char "$"%char s)))
           with
           | Some x => x
           | None => zero
           end
      else zero
  | NotStr => zero
  end.
End ParseNumeric.

(** [next((s['value'] for s in summary if s['metric'] == name), default)]
    under [if summary:]. *)
Definition kpi (name : string) (default : Main.SummaryValue)
           (summary : list Main.Summary.t) : option Main.SummaryValue :=
  match summary with
  | [] => None
  | _ =>
      Some (match find (fun s => String.eqb (Main.Summary.metric s) name)
                       summary with
            | Some s => Main.Summary.value s
            | None => default
            end)
  end.

(** [top_products[0]['rank']] under [if top_products:]. *)
Definition top_product_rank (top_products : list Main.TopProduct.t)
  : option nat :=
  match top_products with
  | [] => None
  | first :: _ => Some (Main.TopProduct.rank first)
  end.

End Dashboard.

(* ================================================================== *)
(** * Sample databases *)
(* ================================================================== *)

Module Samples.
Import Sql.

Definition sale (id customer employee product : Z) (amount : Z) (on : date)
           (status : string) : Sale.t :=
  Sale.Make id customer employee product 1 (inject_Z amount) on status.

(** Five customers; the first bought last, most often and for the most. *)
Definition rfm_today : date := Date 2024 7 1.

Definition rfm_db : Database :=
  {| employees := []; departments := []; products := [];
     customers :=
       [Customer.Make 1 "Ann" "A"; Customer.Make 2 "Bob" "B";
        Customer.Make 3 "Cid" "C"; Customer.Make 4 "Dan" "D";
        Customer.Make 5 "Eve" "E"];
     sales :=
       [sale 1 1 1 1 500 (Date 2024 6 30) "completed";
        sale 2 1 1 1 500 (Date 2024 6 30) "completed";
        sale 3 1 1 1 500 (Date 2024 6 30) "completed";
        sale 4 1 1 1 500 (Date 2024 6 30) "completed";
        sale 5 1 1 1 500 (Date 2024 6 30) "completed";
        sale 6 2 1 1 400 (Date 2024 6 20) "completed";
        sale 7 2 1 1 400 (Date 2024 6 20) "completed";
        sale 8 2 1 1 400 (Date 2024 6 20) "completed";
        sale 9 2 1 1 400 (Date 2024 6 20) "completed";
        sale 10 3 1 1 300 (Date 2024 6 10) "completed";
        sale 11 3 1 1 300 (Date 2024 6 10) "completed";
        sale 12 3 1 1 300 (Date 2024 6 10) "completed";
        sale 13 4 1 1 200 (Date 2024 5 1) "completed";
        sale 14 4 1 1 200 (Date 2024 5 1) "completed";
        sale 15 5 1 1 100 (Date 2024 1 1) "completed"] |}.

(** Two months of completed sales: January 1000, February 2000. *)
Definition two_months_db : Database :=
  {| employees := []; departments := []; customers := []; products := [];
     sales := [sale 1 1 1 1 1000 (Date 2024 1 15) "completed";
               sale 2 1 1 1 2000 (Date 2024 2 10) "completed"] |}.

(** January 1000, February 0, March 500. *)
Definition three_months_db : Database :=
  {| employees := []; departments := []; customers := []; products := [];
     sales := [sale 1 1 1 1 1000 (Date 2024 1 15) "completed";
               sale 2 1 1 1 0 (Date 2024 2 10) "completed";
               sale 3 1 1 1 500 (Date 2024 3 5) "completed"] |}.

Definition employee (id : Z) (first last : string) (dept : Z) (salary : Z)
  : Employee.t :=
  Employee.Make id first last "Engineer" dept (inject_Z salary) true.

(** Three active employees of department "Eng". *)
Definition eng_db : Database :=
  {| employees := [employee 1 "Ann" "A" 1 60000;
                   employee 2 "Bob" "B" 1 40000;
                   employee 3 "Cid" "C" 1 80000];
     departments := [Department.Make 1 "Eng" "Seattle"];
     sales := []; customers := []; products := [] |}.

(** One active employee. *)
Definition single_db : Database :=
  {| employees := [employee 1 "Ann" "A" 1 60000];
     departments := [Department.Make 1 "Eng" "Seattle"];
     sales := []; customers := []; products := [] |}.

(** Two active employees paid the same and one paid more. *)
Definition tied_db : Database :=
  {| employees := [employee 1 "Ann" "A" 1 50000;
                   employee 2 "Bob" "B" 1 50000;
                   employee 3 "Cid" "C" 1 70000];
     departments := [Department.Make 1 "Eng" "Seattle"];
     sales := []; customers := []; products := [] |}.

(** An active employee whose [dept_id] is the id of no department. *)
Definition orphan_db : Database :=
  {| employees := [employee 1 "Ann" "A" 9 60000];
     departments := [Department.Make 1 "Eng" "Seattle"];
     sales := []; customers := []; products := [] |}.

(** Department "Eng" has an active employee with one completed sale;
    department "Ops" has no employee. *)
Definition two_departments_db : Database :=
  {| employees := [employee 1 "Ann" "A" 1 60000];
     departments := [Department.Make 1 "Eng" "Seattle";
                     Department.Make 2 "Ops" "Dallas"];
     sales := [sale 1 1 1 1 1000 (Date 2024 1 15) "completed"];
     customers := [Customer.Make 1 "Zoe" "Z"];
     products := [Product.Make 1 "Laptop" "Electronics"] |}.

Definition pending_sale : Sale.t :=
  sale 2 1 1 1 700 (Date 2024 1 20) "pending".

Definition rfm_view (r : Main.CustomerRFM.t)
  : string * nat * nat * nat * Main.Segment :=
  (Main.CustomerRFM.customer_name r, Main.CustomerRFM.r_score r,
   Main.CustomerRFM.f_score r, Main.CustomerRFM.m_score r,
   Main.CustomerRFM.segment r).

Definition rfm_row_view (r : RunAnalytics.RfmRow.t)
  : string * nat * nat * nat * RunAnalytics.Segment :=
  (RunAnalytics.RfmRow.customer_name r, RunAnalytics.RfmRow.r_score r,
   RunAnalytics.RfmRow.f_score r, RunAnalytics.RfmRow.m_score r,
   RunAnalytics.RfmRow.segment r).

(** Month of the year, revenue and growth rate of a row of the endpoint. *)
Definition trend_view (r : Main.SalesTrend.t) : Z * Q * option Q :=
  (month (Main.SalesTrend.month r), Main.SalesTrend.revenue r,
   Main.SalesTrend.growth_rate r).

(** Month of the year, revenue, growth rate and three-month average (in
    lowest terms) of a row of query 2. *)
Definition trend_row_view (r : RunAnalytics.TrendRow.t)
  : Z * Q * option Q * option Q :=
  (month (RunAnalytics.TrendRow.month r), RunAnalytics.TrendRow.revenue r,
   RunAnalytics.TrendRow.growth_rate r,
   option_map Qred (RunAnalytics.TrendRow.three_month_avg r)).

(** Salary, quartile and percentile of a row of the CTE and of a row of
    query 1. *)
Definition salary_stat_view (r : Main.SalaryStats.t) : Q * nat * Q :=
  (Main.SalaryStats.salary r, Main.SalaryStats.salary_quartile r,
   Qred (Main.SalaryStats.salary_percentile r)).

Definition salary_row_view (r : RunAnalytics.SalaryRow.t) : Q * nat * Q :=
  (RunAnalytics.SalaryRow.salary r, RunAnalytics.SalaryRow.salary_quartile r,
   RunAnalytics.SalaryRow.percentile_rank r).

Definition department_view (r : Main.DepartmentPerformance.t)
  : string * nat * Q * option Q :=
  (Main.DepartmentPerformance.dept_name r,
   Main.DepartmentPerformance.employee_count r,
   Main.DepartmentPerformance.total_revenue r,
   Main.DepartmentPerformance.revenue_per_employee r).

Definition department_row_view (r : RunAnalytics.DepartmentRow.t)
  : string * nat * option Q * option Q :=
  (RunAnalytics.DepartmentRow.dept_name r,
   RunAnalytics.DepartmentRow.employee_count r,
   RunAnalytics.DepartmentRow.total_revenue r,
   RunAnalytics.DepartmentRow.revenue_per_employee r).

(** The joined row of Ann in [eng_db], and the last row of [salary_stats]
    on [eng_db]. *)
Definition ann_joined : Employee.t * Department.t :=
  (employee 1 "Ann" "A" 1 60000, Department.Make 1 "Eng" "Seattle").

Definition cid_stats : Main.SalaryStats.t :=
  {| Main.SalaryStats.employee_name := "Cid C";
     Main.SalaryStats.position := "Engineer";
     Main.SalaryStats.dept_name := "Eng";
     Main.SalaryStats.salary := 80000;
     Main.SalaryStats.salary_quartile := 3;
     Main.SalaryStats.salary_percentile := 2 / 2 |}.

(** The group of department "Ops" in [two_departments_db]. *)
Definition ops_group : (Z * string * string) * list Main.DepartmentRow :=
  ((2%Z, "Ops"%string, "Dallas"%string),
   [(Department.Make 2 "Ops" "Dallas", None, None)]).

(** The row the RFM endpoint returns first on [rfm_db]. *)
Definition ann_rfm : Main.CustomerRFM.t :=
  {| Main.CustomerRFM.customer_name := "Ann A";
     Main.CustomerRFM.recency_days := 1;
     Main.CustomerRFM.frequency := 5;
     Main.CustomerRFM.lifetime_value := 2500;
     Main.CustomerRFM.r_score := 1;
     Main.CustomerRFM.f_score := 1;
     Main.CustomerRFM.m_score := 1;
     Main.CustomerRFM.segment := Main.AtRisk |}.

(** A session whose [execute] raises on every query. *)
Definition failing_session : Utils.Session string Z :=
  {| Utils.execute :=
       fun _ => Utils.Raised (Utils.Exception "connection lost") |}.

(** A session that answers every query with no row. *)
Definition empty_session : Utils.Session string Z :=
  {| Utils.execute := fun _ =>
       Utils.Returned {| Utils.fetchall := Utils.Returned [];
                         Utils.keys := Utils.Returned [] |} |}.

(** Laptop and Phone sold for 500 each, Desk for 300; the sale of a Lamp
    is pending. *)
Definition products_db : Database :=
  {| employees := []; departments := []; customers := [];
     products := [Product.Make 1 "Laptop" "Electronics";
                  Product.Make 2 "Phone" "Electronics";
                  Product.Make 3 "Desk" "Furniture";
                  Product.Make 4 "Lamp" "Furniture"];
     sales := [sale 1 1 1 1 500 (Date 2024 1 15) "completed";
               sale 2 1 1 2 200 (Date 2024 1 16) "completed";
               sale 3 2 1 2 300 (Date 2024 1 17) "completed";
               sale 4 2 1 3 300 (Date 2024 1 18) "completed";
               sale 5 3 1 4 900 (Date 2024 1 19) "pending"] |}.

(** Rows of the CTE [rfm_scores] on [Samples.rfm_db]. *)
Definition main_scores (id : Z) (name : string) (recency : Z)
           (frequency : nat) (monetary : Z) (score : nat)
  : Main.RfmScores.t :=
  Main.RfmScores.Make
    (Main.CustomerMetrics.Make id name recency frequency (inject_Z monetary))
    score score score.

Definition run_scores (id : Z) (name : string) (recency : Z)
           (frequency : nat) (monetary : Z) (score : nat)
  : RunAnalytics.RfmScores.t :=
  RunAnalytics.RfmScores.Make
    (RunAnalytics.CustomerMetrics.Make id name (Some recency) frequency
                                       (inject_Z monetary))
    score score score.

(** The group of department "Eng" in [Samples.eng_db]: three employees,
    no sale. *)
Definition eng_group : (Z * string * string) * list Main.DepartmentRow :=
  ((1%Z, "Eng"%string, "Seattle"%string),
   [(Department.Make 1 "Eng" "Seattle",
     Some (employee 1 "Ann" "A" 1 60000), None);
    (Department.Make 1 "Eng" "Seattle",
     Some (employee 2 "Bob" "B" 1 40000), None);
    (Department.Make 1 "Eng" "Seattle",
     Some (employee 3 "Cid" "C" 1 80000), None)]).

(** The joined rows of [tied_db] in salary order with Bob before Ann, who
    is paid the same and listed first in [employees]. *)
Definition tied_window : list (Employee.t * Department.t) :=
  [(employee 2 "Bob" "B" 1 50000, Department.Make 1 "Eng" "Seattle");
   (employee 1 "Ann" "A" 1 50000, Department.Make 1 "Eng" "Seattle");
   (employee 3 "Cid" "C" 1 70000, Department.Make 1 "Eng" "Seattle")].

(** First name and quartile of a joined row with its [NTILE(4)]. *)
Definition quartile_view (p : Employee.t * Department.t * nat)
  : string * nat :=
  (Employee.first_name (fst (fst p)), snd p).

(** A session that answers every query with two rows of two columns. *)
Definition two_rows_session : Utils.Session string Z :=
  {| Utils.execute := fun _ =>
       Utils.Returned
         {| Utils.fetchall := Utils.Returned [[1; 2]; [3; 4]]%Z;
            Utils.keys := Utils.Returned ["a"; "b"]%string |} |}.

End Samples.

(* ================================================================== *)
(** * Facts on the SQL operators *)
(* ================================================================== *)

Module SqlFacts.
Import Sql.

(** ** The operators on small inputs *)

Example ntile_4_of_10 : ntile_numbers 4 10 = [1; 1; 1; 2; 2; 2; 3; 3; 4; 4].
Proof. reflexivity. Qed.

Example ntile_5_of_3 : ntile_numbers 5 3 = [1; 2; 3].
Proof. reflexivity. Qed.

Example round_half_up : round (12345 # 1000) 2 = (247 # 20)%Q.
Proof. reflexivity. Qed.

Example round_half_down : round (-12345 # 1000) 2 = (-247 # 20)%Q.
Proof. reflexivity. Qed.

Example round_to_integer : round (1000 # 3) 0 = 333%Q.
Proof. reflexivity. Qed.

Example day_number_epoch : day_number (Date 1970 1 1) = 0%Z.
Proof. reflexivity. Qed.

Example leap_day :
  date_diff (Date 2024 3 1) (Date 2024 2 28) = 2%Z
  /\ date_diff (Date 2023 3 1) (Date 2023 2 28) = 1%Z.
Proof. split; reflexivity. Qed.

Example frames_of_five :
  map snd (rows_preceding 2 [10; 20; 30; 40; 50])
  = [[10]; [10; 20]; [10; 20; 30]; [20; 30; 40]; [30; 40; 50]].
Proof. reflexivity. Qed.

Example dense_rank_ties :
  map snd (dense_rank Nat.eqb [9; 9; 7; 5; 5; 1]) = [1; 1; 2; 3; 3; 4].
Proof. reflexivity. Qed.

Section OrderingFacts.
Variable A : Type.
Variable leb : A -> A -> bool.

Lemma insert_row_perm (x : A) (l : list A) :
    Permutation (x :: l) (insert_row leb x l).
Proof.
    induction l as [|y t IH]; simpl.
    - apply Permutation_refl.
    - destruct (leb x y).
      + apply Permutation_refl.
      + eapply perm_trans; [apply perm_swap|].
        now apply perm_skip.
Qed.

Lemma order_by_perm (l : list A) : Permutation l (order_by leb l).
Proof.
    induction l as [|x t IH]; simpl.
    - constructor.
    - eapply perm_trans; [apply perm_skip, IH|apply insert_row_perm].
Qed.

Lemma order_by_In (l : list A) (x : A) : In x (order_by leb l) <-> In x l.
Proof.
    split; intro H.
    - eapply Permutation_in; [apply Permutation_sym, order_by_perm|exact H].
    - eapply Permutation_in; [apply order_by_perm|exact H].
Qed.

Lemma order_by_length (l : list A) : length (order_by leb l) = length l.
Proof. symmetry. apply Permutation_length, order_by_perm. Qed.

  (** Rows selected by a predicate whose rows are pairwise "equal" for the
      order come out in their input order: the sort of the model is stable
      (PostgreSQL promises no order among such rows). *)
Lemma insert_row_filter (P : A -> bool) (x : A) (l : list A) :
    (forall a b, P a = true -> P b = true -> leb a b = true) ->
    filter P (insert_row leb x l) = filter P (x :: l).
Proof.
    intro HP. induction l as [|y t IH]; simpl; [reflexivity|].
    destruct (leb x y) eqn:E; simpl; [reflexivity|].
    simpl in IH. rewrite IH.
    destruct (P x) eqn:Px, (P y) eqn:Py; try reflexivity.
    rewrite (HP x y Px Py) in E. discriminate.
Qed.

Lemma order_by_stable (P : A -> bool) (l : list A) :
    (forall a b, P a = true -> P b = true -> leb a b = true) ->
    filter P (order_by leb l) = filter P l.
Proof.
    intro HP. induction l as [|x t IH]; simpl; [reflexivity|].
    rewrite insert_row_filter by exact HP. simpl. now rewrite IH.
Qed.

Hypothesis leb_total : total leb.
Hypothesis leb_trans : transitive leb.

Lemma insert_row_sorted (x : A) (l : list A) :
    StronglySorted (fun a b => leb a b = true) l ->
    StronglySorted (fun a b => leb a b = true) (insert_row leb x l).
Proof.
    induction 1 as [|y t Hs IH Hall]; simpl.
    - constructor; constructor.
    - destruct (leb x y) eqn:E.
      + constructor; [now constructor|].
        constructor; [exact E|].
        eapply Forall_impl; [|exact Hall].
        intros a Ha. now apply leb_trans with y.
      + constructor; [exact IH|].
        destruct (leb_total x y) as [H|H]; [congruence|].
        eapply Permutation_Forall; [apply insert_row_perm|].
        now constructor.
Qed.

Lemma order_by_sorted (l : list A) :
    StronglySorted (fun a b => leb a b = true) (order_by leb l).
Proof.
    induction l as [|x t IH]; simpl.
    - constructor.
    - now apply insert_row_sorted.
Qed.
End OrderingFacts.

(** Two members of a sorted list are related one way or the other. *)
Lemma sorted_related {A} (R : A -> A -> Prop) (l : list A) (p q : A) :
  StronglySorted R l -> In p l -> In q l -> p = q \/ R p q \/ R q p.
Proof.
  induction 1 as [|a t Hs IH Hall]; simpl; [tauto|].
  rewrite Forall_forall in Hall.
  intros [->|Hp] [->|Hq]; auto.
Qed.

Lemma sorted_impl {A} (R R' : A -> A -> Prop) (l : list A) :
  (forall a b, R a b -> R' a b) -> StronglySorted R l -> StronglySorted R' l.
Proof.
  intros Himp H. induction H as [|a t Hs IH Hall]; constructor; [exact IH|].
  eapply Forall_impl; [|exact Hall]. intros b. apply Himp.
Qed.

Lemma sorted_app {A} (R : A -> A -> Prop) (l1 l2 : list A) :
  StronglySorted R l1 -> StronglySorted R l2 ->
  (forall a b, In a l1 -> In b l2 -> R a b) ->
  StronglySorted R (l1 ++ l2).
Proof.
  induction 1 as [|a t Hs IH Hall]; simpl; intros H2 Hc; [exact H2|].
  constructor.
  - apply IH; [exact H2|]. intros x y Hx Hy. apply Hc; simpl; auto.
  - apply Forall_app. split; [exact Hall|].
    apply Forall_forall. intros y Hy. apply Hc; simpl; auto.
Qed.

Lemma sorted_combine {A B} (R1 : A -> A -> Prop) (R2 : B -> B -> Prop)
      (l1 : list A) (l2 : list B) :
  StronglySorted R1 l1 -> StronglySorted R2 l2 ->
  StronglySorted (fun p q => R1 (fst p) (fst q) /\ R2 (snd p) (snd q))
                 (combine l1 l2).
Proof.
  intro H1. revert l2.
  induction H1 as [|a t Hs IH Hall]; intros l2 H2; simpl; [constructor|].
  destruct l2 as [|b u]; [constructor|].
  inversion H2 as [|? ? Hs2 Hall2]; subst.
  constructor; [now apply IH|].
  rewrite Forall_forall in *. intros [x y] Hin. simpl.
  split; [apply Hall; eapply in_combine_l; eauto
         |apply Hall2; eapply in_combine_r; eauto].
Qed.

(** ** NTILE *)

Section NtileFacts.
Variables k n : nat.

Let blocks := ntile_blocks k n.

Lemma blocks_step (s len : nat) :
    blocks s (S len) = repeat s (bucket_size k n s) ++ blocks (S s) len.
Proof. reflexivity. Qed.

Lemma blocks_length (s len : nat) :
    1 <= s ->
    length (blocks s len) + Nat.min (s - 1) (n mod k)
    = len * (n / k) + Nat.min (s + len - 1) (n mod k).
Proof.
    revert s. induction len as [|len IH]; intros s Hs.
    - simpl. f_equal. f_equal. lia.
    - rewrite blocks_step, length_app, repeat_length.
      specialize (IH (S s) ltac:(lia)).
      unfold bucket_size at 1.
      destruct (Nat.leb_spec s (n mod k)); lia.
Qed.

Lemma blocks_range (s len b : nat) :
    In b (blocks s len) -> s <= b < s + len.
Proof.
    unfold blocks, ntile_blocks. rewrite in_flat_map. intros [c [Hc Hb]].
    apply repeat_spec in Hb. subst. apply in_seq in Hc. lia.
Qed.

Lemma blocks_sorted (s len : nat) : StronglySorted le (blocks s len).
Proof.
    revert s. induction len as [|len IH]; intro s; [constructor|].
    rewrite blocks_step. apply sorted_app.
    - generalize (bucket_size k n s). intro m.
      induction m as [|m IHm]; simpl; constructor; [exact IHm|].
      apply Forall_forall. intros x Hx. apply repeat_spec in Hx. lia.
    - apply IH.
    - intros a b Ha Hb. apply repeat_spec in Ha. subst.
      apply (blocks_range (S s) len) in Hb. lia.
Qed.

Lemma blocks_count (s len b : nat) :
    count_occ Nat.eq_dec (blocks s len) b
    = if (s <=? b) && (b <? s + len) then bucket_size k n b else 0.
Proof.
    revert s. induction len as [|len IH]; intro s.
    - simpl. destruct (Nat.leb_spec s b), (Nat.ltb_spec b (s + 0)); simpl; lia.
    - rewrite blocks_step, count_occ_app, IH.
      destruct (Nat.eq_dec s b) as [->|Hne].
      + rewrite count_occ_repeat_eq by reflexivity.
        destruct (Nat.leb_spec (S b) b); [lia|].
        destruct (Nat.leb_spec b b); [|lia].
        destruct (Nat.ltb_spec b (b + S len)); simpl; lia.
      + rewrite count_occ_repeat_neq by congruence.
        destruct (Nat.leb_spec (S s) b), (Nat.leb_spec s b),
                 (Nat.ltb_spec b (S s + len)), (Nat.ltb_spec b (s + S len));
          simpl; lia.
Qed.

Hypothesis k_pos : 0 < k.

Lemma ntile_numbers_length : length (ntile_numbers k n) = n.
Proof.
    pose proof (blocks_length (s := 1) k ltac:(lia)) as H.
    unfold blocks in H. unfold ntile_numbers.
    pose proof (Nat.div_mod_eq n k).
    pose proof (Nat.mod_upper_bound n k ltac:(lia)).
    simpl in H. lia.
Qed.

Lemma ntile_numbers_range (b : nat) :
    In b (ntile_numbers k n) -> 1 <= b <= k.
Proof. intro H. apply (blocks_range 1 k) in H. lia. Qed.

Lemma ntile_numbers_sorted : StronglySorted le (ntile_numbers k n).
Proof. apply (blocks_sorted 1 k). Qed.

Lemma ntile_numbers_count (b : nat) :
    1 <= b <= k ->
    count_occ Nat.eq_dec (ntile_numbers k n) b = bucket_size k n b.
Proof.
    intro Hb. unfold ntile_numbers. fold (blocks 1 k). rewrite blocks_count.
    destruct (Nat.leb_spec 1 b), (Nat.ltb_spec b (1 + k)); simpl; lia.
Qed.

Lemma ntile_blocks_beyond (s len : nat) :
  n < k -> n < s -> ntile_blocks k n s len = [].
Proof.
  intros Hn. revert s. induction len as [|len IH]; intros s Hs; [reflexivity|].
  fold (blocks s (S len)). rewrite blocks_step. unfold blocks.
  rewrite IH by lia. unfold bucket_size.
  rewrite Nat.div_small, Nat.mod_small by exact Hn.
  destruct (Nat.leb_spec s n); [lia|reflexivity].
Qed.

Lemma ntile_blocks_sparse (s len : nat) :
  n < k -> ntile_blocks k n s len = seq s (Nat.min len (n + 1 - s)).
Proof.
  intros Hn. revert s. induction len as [|len IH]; intros s; [reflexivity|].
  fold (blocks s (S len)). rewrite blocks_step. unfold blocks.
  destruct (Nat.leb_spec s n) as [Hs|Hs].
  - rewrite IH. unfold bucket_size.
    rewrite Nat.div_small, Nat.mod_small by exact Hn.
    destruct (Nat.leb_spec s n); [|lia].
    replace (Nat.min (S len) (n + 1 - s))
      with (S (Nat.min len (n + 1 - S s))) by lia.
    reflexivity.
  - rewrite ntile_blocks_beyond by lia.
    unfold bucket_size.
    rewrite Nat.div_small, Nat.mod_small by exact Hn.
    destruct (Nat.leb_spec s n); [lia|].
    replace (Nat.min (S len) (n + 1 - s)) with 0 by lia. reflexivity.
Qed.

Lemma ntile_numbers_sparse : n < k -> ntile_numbers k n = seq 1 n.
Proof.
  intro Hn. unfold ntile_numbers. rewrite ntile_blocks_sparse by exact Hn.
  f_equal. lia.
Qed.
End NtileFacts.

Lemma map_fst_combine {A B} (l1 : list A) (l2 : list B) :
  length l1 = length l2 -> map fst (combine l1 l2) = l1.
Proof.
  revert l2. induction l1 as [|a t IH]; intros [|b u] H; simpl in *;
    try discriminate; [reflexivity|].
  f_equal. apply IH. lia.
Qed.

Lemma map_snd_combine {A B} (l1 : list A) (l2 : list B) :
  length l1 = length l2 -> map snd (combine l1 l2) = l2.
Proof.
  revert l2. induction l1 as [|a t IH]; intros [|b u] H; simpl in *;
    try discriminate; [reflexivity|].
  f_equal. apply IH. lia.
Qed.

Section NtileWindow.
Variable A : Type.
Variable k : nat.
Variable leb : A -> A -> bool.

Lemma ntile_fst (window : list A) :
  0 < k -> map fst (ntile k window) = window.
Proof.
  intro Hk. unfold ntile. apply map_fst_combine.
  now rewrite ntile_numbers_length.
Qed.

Lemma ntile_snd (window : list A) :
  0 < k -> map snd (ntile k window) = ntile_numbers k (length window).
Proof.
  intro Hk. unfold ntile. apply map_snd_combine.
  now rewrite ntile_numbers_length.
Qed.

Lemma ntile_sorted (window : list A) :
  StronglySorted (fun a b => leb a b = true) window ->
  StronglySorted
    (fun p q => leb (fst p) (fst q) = true /\ snd p <= snd q)
    (ntile k window).
Proof.
  intro Hs. unfold ntile.
  apply (@sorted_combine _ _ (fun a b => leb a b = true) le).
  - exact Hs.
  - apply ntile_numbers_sorted.
Qed.

(** A row that sorts strictly before another has a bucket number at most
    the other's. *)
Lemma ntile_monotone (window : list A) (p q : A * nat) :
  total leb ->
  StronglySorted (fun a b => leb a b = true) window ->
  In p (ntile k window) -> In q (ntile k window) ->
  leb (fst q) (fst p) = false -> snd p <= snd q.
Proof.
  intros Htot Hs Hp Hq Hlt.
  destruct (@sorted_related _ _ _ p q (ntile_sorted Hs) Hp Hq)
    as [->|[[_ H]|[H _]]].
  - destruct (Htot (fst q) (fst q)); congruence.
  - exact H.
  - congruence.
Qed.

Variable rows : list A.

Lemma ntile_rows :
  0 < k -> map fst (ntile_over k leb rows) = order_by leb rows.
Proof. apply ntile_fst. Qed.

Lemma ntile_over_In_row (p : A * nat) :
  0 < k -> In p (ntile_over k leb rows) -> In (fst p) rows.
Proof.
  intros Hk H. apply (order_by_In leb). rewrite <- (ntile_rows Hk).
  now apply in_map.
Qed.

Lemma ntile_over_has_row (x : A) :
  0 < k -> In x rows -> exists b, In (x, b) (ntile_over k leb rows).
Proof.
  intros Hk H. apply (order_by_In leb) in H. rewrite <- (ntile_rows Hk) in H.
  apply in_map_iff in H. destruct H as [[y b] [Hy Hin]]. simpl in Hy. subst.
  now exists b.
Qed.

Lemma ntile_over_monotone (p q : A * nat) :
  total leb -> transitive leb ->
  In p (ntile_over k leb rows) -> In q (ntile_over k leb rows) ->
  leb (fst q) (fst p) = false -> snd p <= snd q.
Proof.
  intros Htot Htr. apply ntile_monotone; [exact Htot|].
  now apply order_by_sorted.
Qed.
End NtileWindow.

(** ** Joins, groups and aggregates *)

Lemma flat_map_ext_in {A B} (f g : A -> list B) (l : list A) :
  (forall a, In a l -> f a = g a) -> flat_map f l = flat_map g l.
Proof.
  induction l as [|x t IH]; intro H; simpl; [reflexivity|].
  rewrite H by (simpl; auto). f_equal. apply IH.
  intros a Ha. apply H. simpl. auto.
Qed.

Lemma limit_In {A} (n : nat) (l : list A) (x : A) :
  In x (limit n l) -> In x l.
Proof.
  unfold limit. revert l. induction n as [|n IH]; intros [|y t] H;
    simpl in *; try contradiction.
  destruct H as [->|H]; auto.
Qed.

Lemma sorted_firstn {A} (R : A -> A -> Prop) (n : nat) (l : list A) :
  StronglySorted R l -> StronglySorted R (firstn n l).
Proof.
  intro H. revert n. induction H as [|a t Hs IH Hall]; intros [|n]; simpl;
    try constructor; [apply IH|].
  rewrite Forall_forall in *. intros x Hx. apply Hall.
  now apply (@limit_In _ n t x).
Qed.

Lemma sorted_map {A B} (R : A -> A -> Prop) (R' : B -> B -> Prop)
      (f : A -> B) (l : list A) :
  (forall a b, R a b -> R' (f a) (f b)) ->
  StronglySorted R l -> StronglySorted R' (map f l).
Proof.
  intros Himp H. induction H as [|a t Hs IH Hall]; simpl; constructor;
    [exact IH|].
  rewrite Forall_forall in *. intros y Hy. apply in_map_iff in Hy.
  destruct Hy as [x [<- Hx]]. apply Himp, Hall, Hx.
Qed.

Lemma sorted_combine_left {A B} (R : A -> A -> Prop)
      (l1 : list A) (l2 : list B) :
  StronglySorted R l1 ->
  StronglySorted (fun p q => R (fst p) (fst q)) (combine l1 l2).
Proof.
  intro H. revert l2. induction H as [|a t Hs IH Hall]; intros [|b u]; simpl;
    try constructor; [apply IH|].
  rewrite Forall_forall in *. intros [x y] Hin. simpl.
  apply Hall. eapply in_combine_l; eauto.
Qed.

(** Sorting rows that are already in order leaves them as they are. *)
Lemma order_by_sorted_id {A} (leb : A -> A -> bool) (l : list A) :
  StronglySorted (fun a b => leb a b = true) l -> order_by leb l = l.
Proof.
  induction 1 as [|a t Hs IH Hall]; simpl; [reflexivity|].
  rewrite IH. destruct t as [|b u]; [reflexivity|]. simpl.
  inversion Hall as [|? ? Hab _]; subst. now rewrite Hab.
Qed.

Lemma lag_firstn {A B} (col : A -> B) (n : nat) (window : list A) :
  lag col (firstn n window) = firstn n (lag col window).
Proof.
  unfold lag. generalize (@None B) as prev. revert n.
  induction window as [|x t IH]; intros [|n] prev; simpl; try reflexivity.
  f_equal. apply IH.
Qed.

Section JoinFacts.
Variables A B : Type.
Variable on : A -> B -> bool.

Lemma left_join_In (l : list A) (r : list B) (a : A) (b : B) :
  In (a, Some b) (left_join on l r) <-> In a l /\ In b r /\ on a b = true.
Proof.
  unfold left_join. rewrite in_flat_map. split.
  - intros [a' [Ha Hin]].
    destruct (filter (on a') r) as [|m ms] eqn:E.
    + destruct Hin as [H|[]]. discriminate.
    + rewrite <- E in Hin. apply in_map_iff in Hin.
      destruct Hin as [b' [Heq Hb]]. inversion Heq; subst.
      apply filter_In in Hb. tauto.
  - intros [Ha [Hb Hon]]. exists a. split; [exact Ha|].
    assert (Hf : In b (filter (on a) r)) by (apply filter_In; tauto).
    destruct (filter (on a) r) as [|m ms] eqn:E; [destruct Hf|].
    rewrite <- E in Hf. rewrite <- E. apply in_map_iff. now exists b.
Qed.

Lemma left_join_In_left (l : list A) (r : list B) (a : A) (ob : option B) :
  In (a, ob) (left_join on l r) -> In a l.
Proof.
  unfold left_join. rewrite in_flat_map. intros [a' [Ha Hin]].
  destruct (filter (on a') r) as [|m ms].
  - destruct Hin as [H|[]]. now inversion H; subst.
  - apply in_map_iff in Hin. destruct Hin as [b' [Heq _]].
    now inversion Heq; subst.
Qed.

Lemma left_join_keeps_left (l : list A) (r : list B) (a : A) :
  In a l -> exists ob, In (a, ob) (left_join on l r).
Proof.
  intro Ha. unfold left_join.
  destruct (filter (on a) r) as [|m ms] eqn:E.
  - exists None. apply in_flat_map. exists a. rewrite E. simpl. auto.
  - exists (Some m). apply in_flat_map. exists a. rewrite E. simpl. auto.
Qed.

(** A right-hand row that matches no left-hand row changes nothing. *)
Lemma left_join_ignores (l : list A) (r1 r2 : list B) (b : B) :
  (forall a, In a l -> on a b = false) ->
  left_join on l (r1 ++ b :: r2) = left_join on l (r1 ++ r2).
Proof.
  intro H. unfold left_join. apply flat_map_ext_in. intros a Ha.
  rewrite !filter_app. simpl. now rewrite (H a Ha).
Qed.

Lemma inner_join_In (l : list A) (r : list B) (a : A) (b : B) :
  In (a, b) (inner_join on l r) <-> In a l /\ In b r /\ on a b = true.
Proof.
  unfold inner_join. rewrite in_flat_map. split.
  - intros [a' [Ha Hin]]. apply in_map_iff in Hin.
    destruct Hin as [b' [Heq Hb]]. inversion Heq; subst.
    apply filter_In in Hb. tauto.
  - intros [Ha [Hb Hon]]. exists a. split; [exact Ha|].
    apply in_map_iff. exists b. split; [reflexivity|].
    apply filter_In. tauto.
Qed.

Lemma matched_In (rows : list (A * option B)) (b : B) :
  In b (matched rows) <-> exists a, In (a, Some b) rows.
Proof.
  unfold matched. rewrite in_flat_map. split.
  - intros [[a [b'|]] [Hin Hb]]; simpl in Hb; [|destruct Hb].
    destruct Hb as [->|[]]. now exists a.
  - intros [a Hin]. exists (a, Some b). simpl. auto.
Qed.
End JoinFacts.

Section GroupFacts.
Variables A K : Type.
Variable eq_dec : forall x y : K, {x = y} + {x <> y}.
Variable key : A -> K.

Lemma group_by_In (rows : list A) (k : K) (g : list A) :
  In (k, g) (group_by eq_dec key rows) ->
  (exists x, In x rows /\ key x = k)
  /\ forall x, In x g <-> In x rows /\ key x = k.
Proof.
  unfold group_by. rewrite in_map_iff. intros [k' [Heq Hk]].
  inversion Heq; subst. apply nodup_In, in_map_iff in Hk.
  destruct Hk as [x [Hx Hin]]. split; [now exists x|].
  intro y. rewrite filter_In.
  destruct (eq_dec (key y) k); intuition congruence.
Qed.

Lemma group_by_covers (rows : list A) (x : A) :
  In x rows -> exists g, In (key x, g) (group_by eq_dec key rows).
Proof.
  intro Hx. eexists. unfold group_by. apply in_map_iff.
  exists (key x). split; [reflexivity|].
  apply nodup_In, in_map. exact Hx.
Qed.
End GroupFacts.

Lemma count_distinct_pos (l : list Z) : l <> [] -> 1 <= count_distinct l.
Proof.
  destruct l as [|z t]; [congruence|]. intros _. unfold count_distinct.
  assert (H : In z (nodup Z.eq_dec (z :: t))) by (apply nodup_In; simpl; auto).
  destruct (nodup Z.eq_dec (z :: t)); [destruct H|simpl; lia].
Qed.

Lemma max_date_fold (l : list date) (d0 : date) :
  let m := fold_left (fun m x => if date_leb m x then x else m) l d0 in
  In m (d0 :: l)
  /\ forall d, In d (d0 :: l) -> (day_number d <= day_number m)%Z.
Proof.
  revert d0. induction l as [|x t IH]; intro d0; simpl.
  - split; [auto|]. intros d [->|[]]. lia.
  - specialize (IH (if date_leb d0 x then x else d0)).
    simpl in IH. destruct IH as [Hin Hmax]. unfold date_leb in *.
    destruct (Z.leb_spec (day_number d0) (day_number x)) as [Hle|Hgt].
    + split; [tauto|]. intros d [->|Hd].
      * specialize (Hmax x (or_introl eq_refl)). lia.
      * apply Hmax. exact Hd.
    + split; [tauto|]. intros d [->|[->|Hd]].
      * apply Hmax. auto.
      * specialize (Hmax d0 (or_introl eq_refl)). lia.
      * apply Hmax. auto.
Qed.

(** [MAX] of a non-empty date column is one of its dates, and none is
    later. *)
Lemma max_date_spec (l : list date) :
  l <> [] ->
  exists d, max_date l = Some d /\ In d l
            /\ forall d', In d' l -> (day_number d' <= day_number d)%Z.
Proof.
  destruct l as [|d0 t]; [congruence|]. intros _.
  eexists. split; [reflexivity|]. apply max_date_fold.
Qed.

End SqlFacts.

(* ================================================================== *)
(** * Sort keys of the queries *)
(* ================================================================== *)

Module Keys.
Import Sql.

Lemma Qle_bool_total (x y : Q) : Qle_bool x y = true \/ Qle_bool y x = true.
Proof.
  rewrite !Qle_bool_iff. destruct (Qlt_le_dec x y) as [H|H]; [left|right].
  - now apply Qlt_le_weak.
  - exact H.
Qed.

Lemma Qle_bool_trans (x y z : Q) :
  Qle_bool x y = true -> Qle_bool y z = true -> Qle_bool x z = true.
Proof. rewrite !Qle_bool_iff. apply Qle_trans. Qed.

Lemma by_Q_asc {A} (key : A -> Q) :
  total (fun a b => Qle_bool (key a) (key b))
  /\ transitive (fun a b => Qle_bool (key a) (key b)).
Proof.
  split; [intros a b; apply Qle_bool_total|intros a b c; apply Qle_bool_trans].
Qed.

Lemma by_Q_desc {A} (key : A -> Q) :
  total (fun a b => Qle_bool (key b) (key a))
  /\ transitive (fun a b => Qle_bool (key b) (key a)).
Proof.
  split; [intros a b; apply Qle_bool_total|].
  intros a b c H1 H2. now apply Qle_bool_trans with (key b).
Qed.

Lemma by_Z_asc {A} (key : A -> Z) :
  total (fun a b => (key a <=? key b)%Z)
  /\ transitive (fun a b => (key a <=? key b)%Z).
Proof.
  split; [intros a b|intros a b c]; rewrite !Z.leb_le; lia.
Qed.

Lemma by_nat_asc {A} (key : A -> nat) :
  total (fun a b => key a <=? key b)
  /\ transitive (fun a b => key a <=? key b).
Proof.
  split; [intros a b|intros a b c]; rewrite !Nat.leb_le; lia.
Qed.

Lemma by_nat_desc {A} (key : A -> nat) :
  total (fun a b => key b <=? key a)
  /\ transitive (fun a b => key b <=? key a).
Proof.
  split; [intros a b|intros a b c]; rewrite !Nat.leb_le; lia.
Qed.

End Keys.

(* ================================================================== *)
(** * The RFM scores of both scripts *)
(* ================================================================== *)

Module RfmFacts.
Import Sql SqlFacts.

Lemma five_pos : 0 < 5.
Proof. lia. Qed.

(** *** api/main.py *)

Lemma main_rfm_scores_In (today : date) (db : Database) (x : Main.RfmScores.t) :
  In x (Main.rfm_scores today db) ->
  In (Main.RfmScores.metrics x, Main.RfmScores.r_score x) (Main.with_r_score today db)
  /\ In (Main.RfmScores.metrics x, Main.RfmScores.r_score x,
         Main.RfmScores.f_score x) (Main.with_f_score today db)
  /\ In (Main.RfmScores.metrics x, Main.RfmScores.r_score x,
         Main.RfmScores.f_score x, Main.RfmScores.m_score x)
        (Main.with_m_score today db).
Proof.
  unfold Main.rfm_scores. rewrite in_map_iff.
  intros [[[[c r] f] m] [Hx Hin]]. subst x. simpl.
  pose proof (ntile_over_In_row _ _ _ five_pos Hin) as Hf. simpl in Hf.
  pose proof (ntile_over_In_row _ _ _ five_pos Hf) as Hr. simpl in Hr.
  auto.
Qed.

Lemma main_scored_metrics (today : date) (db : Database)
      (x : Main.RfmScores.t) :
  In x (Main.rfm_scores today db) ->
  In (Main.RfmScores.metrics x) (Main.customer_metrics today db).
Proof.
  intro H. apply main_rfm_scores_In in H. destruct H as [H _].
  apply (ntile_over_In_row _ _ _ five_pos) in H. exact H.
Qed.

(** In [api/main.py] the three scores grow with the sort order of their
    window: a smaller recency never has the larger [r_score], a larger
    frequency or monetary value never has the larger score. *)
Lemma main_r_score_order (today : date) (db : Database)
      (x y : Main.RfmScores.t) :
  In x (Main.rfm_scores today db) -> In y (Main.rfm_scores today db) ->
  (Main.CustomerMetrics.recency_days (Main.RfmScores.metrics x)
   < Main.CustomerMetrics.recency_days (Main.RfmScores.metrics y))%Z ->
  Main.RfmScores.r_score x <= Main.RfmScores.r_score y.
Proof.
  intros Hx Hy Hlt.
  apply main_rfm_scores_In in Hx. apply main_rfm_scores_In in Hy.
  destruct Hx as [Hx _], Hy as [Hy _].
  destruct (Keys.by_Z_asc Main.CustomerMetrics.recency_days) as [Htot Htr].
  apply (@ntile_over_monotone _ 5 _ _ _ _ Htot Htr Hx Hy).
  simpl. apply Z.leb_gt. exact Hlt.
Qed.

Lemma main_f_score_order (today : date) (db : Database)
      (x y : Main.RfmScores.t) :
  In x (Main.rfm_scores today db) -> In y (Main.rfm_scores today db) ->
  Main.CustomerMetrics.frequency (Main.RfmScores.metrics y)
  < Main.CustomerMetrics.frequency (Main.RfmScores.metrics x) ->
  Main.RfmScores.f_score x <= Main.RfmScores.f_score y.
Proof.
  intros Hx Hy Hlt.
  apply main_rfm_scores_In in Hx. apply main_rfm_scores_In in Hy.
  destruct Hx as [_ [Hx _]], Hy as [_ [Hy _]].
  destruct (Keys.by_nat_desc
              (fun a : Main.CustomerMetrics.t * nat =>
                 Main.CustomerMetrics.frequency (fst a))) as [Htot Htr].
  apply (@ntile_over_monotone _ 5 _ _ _ _ Htot Htr Hx Hy).
  simpl. apply Nat.leb_gt. exact Hlt.
Qed.

Lemma main_m_score_order (today : date) (db : Database)
      (x y : Main.RfmScores.t) :
  In x (Main.rfm_scores today db) -> In y (Main.rfm_scores today db) ->
  (Main.CustomerMetrics.monetary_value (Main.RfmScores.metrics y)
   < Main.CustomerMetrics.monetary_value (Main.RfmScores.metrics x))%Q ->
  Main.RfmScores.m_score x <= Main.RfmScores.m_score y.
Proof.
  intros Hx Hy Hlt.
  apply main_rfm_scores_In in Hx. apply main_rfm_scores_In in Hy.
  destruct Hx as [_ [_ Hx]], Hy as [_ [_ Hy]].
  destruct (Keys.by_Q_desc
              (fun a : Main.CustomerMetrics.t * nat * nat =>
                 Main.CustomerMetrics.monetary_value (fst (fst a))))
    as [Htot Htr].
  apply (@ntile_over_monotone _ 5 _ _ _ _ Htot Htr Hx Hy).
  simpl. unfold Main.monetary_desc.
  destruct (Qle_bool _ _) eqn:E; [|reflexivity].
  apply Qle_bool_iff in E. exfalso. apply (Qlt_not_le _ _ Hlt E).
Qed.

(** *** scripts/run_analytics.py *)

Lemma run_rfm_scores_In (today : date) (db : Database)
      (x : RunAnalytics.RfmScores.t) :
  In x (RunAnalytics.rfm_scores today db) ->
  In (RunAnalytics.RfmScores.metrics x, RunAnalytics.RfmScores.r_score x)
     (RunAnalytics.with_r_score today db)
  /\ In (RunAnalytics.RfmScores.metrics x, RunAnalytics.RfmScores.r_score x,
         RunAnalytics.RfmScores.f_score x) (RunAnalytics.with_f_score today db)
  /\ In (RunAnalytics.RfmScores.metrics x, RunAnalytics.RfmScores.r_score x,
         RunAnalytics.RfmScores.f_score x, RunAnalytics.RfmScores.m_score x)
        (RunAnalytics.with_m_score today db).
Proof.
  unfold RunAnalytics.rfm_scores. rewrite in_map_iff.
  intros [[[[c r] f] m] [Hx Hin]]. subst x. simpl.
  pose proof (ntile_over_In_row _ _ _ five_pos Hin) as Hf. simpl in Hf.
  pose proof (ntile_over_In_row _ _ _ five_pos Hf) as Hr. simpl in Hr.
  auto.
Qed.

Lemma recency_desc_order :
  total RunAnalytics.recency_desc /\ transitive RunAnalytics.recency_desc.
Proof.
  unfold total, transitive, RunAnalytics.recency_desc. split.
  - intros a b.
    destruct (RunAnalytics.CustomerMetrics.recency_days a),
             (RunAnalytics.CustomerMetrics.recency_days b); auto.
    rewrite !Z.leb_le. lia.
  - intros a b c.
    destruct (RunAnalytics.CustomerMetrics.recency_days a),
             (RunAnalytics.CustomerMetrics.recency_days b),
             (RunAnalytics.CustomerMetrics.recency_days c);
      try discriminate; auto.
    rewrite !Z.leb_le. lia.
Qed.

(** In [scripts/run_analytics.py] the scores grow the other way: a smaller
    recency never has the smaller [r_score], a larger frequency or monetary
    value never has the smaller score. *)
Lemma run_r_score_order (today : date) (db : Database)
      (x y : RunAnalytics.RfmScores.t) (rx ry : Z) :
  In x (RunAnalytics.rfm_scores today db) ->
  In y (RunAnalytics.rfm_scores today db) ->
  RunAnalytics.CustomerMetrics.recency_days (RunAnalytics.RfmScores.metrics x)
  = Some rx ->
  RunAnalytics.CustomerMetrics.recency_days (RunAnalytics.RfmScores.metrics y)
  = Some ry ->
  (rx < ry)%Z ->
  RunAnalytics.RfmScores.r_score y <= RunAnalytics.RfmScores.r_score x.
Proof.
  intros Hx Hy Ex Ey Hlt.
  apply run_rfm_scores_In in Hx. apply run_rfm_scores_In in Hy.
  destruct Hx as [Hx _], Hy as [Hy _].
  destruct recency_desc_order as [Htot Htr].
  apply (@ntile_over_monotone _ 5 _ _ _ _ Htot Htr Hy Hx).
  simpl. unfold RunAnalytics.recency_desc. rewrite Ex, Ey.
  apply Z.leb_gt. exact Hlt.
Qed.

Lemma run_f_score_order (today : date) (db : Database)
      (x y : RunAnalytics.RfmScores.t) :
  In x (RunAnalytics.rfm_scores today db) ->
  In y (RunAnalytics.rfm_scores today db) ->
  RunAnalytics.CustomerMetrics.frequency (RunAnalytics.RfmScores.metrics y)
  < RunAnalytics.CustomerMetrics.frequency (RunAnalytics.RfmScores.metrics x) ->
  RunAnalytics.RfmScores.f_score y <= RunAnalytics.RfmScores.f_score x.
Proof.
  intros Hx Hy Hlt.
  apply run_rfm_scores_In in Hx. apply run_rfm_scores_In in Hy.
  destruct Hx as [_ [Hx _]], Hy as [_ [Hy _]].
  destruct (Keys.by_nat_asc
              (fun a : RunAnalytics.CustomerMetrics.t * nat =>
                 RunAnalytics.CustomerMetrics.frequency (fst a)))
    as [Htot Htr].
  apply (@ntile_over_monotone _ 5 _ _ _ _ Htot Htr Hy Hx).
  simpl. apply Nat.leb_gt. exact Hlt.
Qed.

Lemma run_m_score_order (today : date) (db : Database)
      (x y : RunAnalytics.RfmScores.t) :
  In x (RunAnalytics.rfm_scores today db) ->
  In y (RunAnalytics.rfm_scores today db) ->
  (RunAnalytics.CustomerMetrics.monetary_value (RunAnalytics.RfmScores.metrics y)
   < RunAnalytics.CustomerMetrics.monetary_value
       (RunAnalytics.RfmScores.metrics x))%Q ->
  RunAnalytics.RfmScores.m_score y <= RunAnalytics.RfmScores.m_score x.
Proof.
  intros Hx Hy Hlt.
  apply run_rfm_scores_In in Hx. apply run_rfm_scores_In in Hy.
  destruct Hx as [_ [_ Hx]], Hy as [_ [_ Hy]].
  destruct (Keys.by_Q_asc
              (fun a : RunAnalytics.CustomerMetrics.t * nat * nat =>
                 RunAnalytics.CustomerMetrics.monetary_value (fst (fst a))))
    as [Htot Htr].
  apply (@ntile_over_monotone _ 5 _ _ _ _ Htot Htr Hy Hx).
  simpl. unfold RunAnalytics.monetary_asc.
  destruct (Qle_bool _ _) eqn:E; [|reflexivity].
  apply Qle_bool_iff in E. exfalso. apply (Qlt_not_le _ _ Hlt E).
Qed.

(** The three score columns are [NTILE(5)] numbers over the scored
    customers, each in the order of its window. *)
Lemma main_r_scores (today : date) (db : Database) :
  map snd (Main.with_r_score today db)
  = ntile_numbers 5 (length (Main.customer_metrics today db)).
Proof.
  unfold Main.with_r_score, ntile_over. rewrite ntile_snd by lia.
  now rewrite order_by_length.
Qed.

Lemma main_scores_lengths (today : date) (db : Database) :
  length (Main.rfm_scores today db) = length (Main.customer_metrics today db).
Proof.
  unfold Main.rfm_scores, Main.with_m_score, Main.with_f_score,
    Main.with_r_score, ntile_over, ntile.
  rewrite length_map.
  repeat (rewrite length_combine, ntile_numbers_length, Nat.min_id,
            order_by_length by lia).
  reflexivity.
Qed.

(** *** Who is scored *)

(** A row of [customer_metrics] stands for a customer with at least one
    completed sale: [ss] are the sales the row aggregates. *)
Lemma main_customer_metrics_spec (today : date) (db : Database)
      (c : Main.CustomerMetrics.t) :
  In c (Main.customer_metrics today db) ->
  exists (ss : list Sale.t) (d : date),
    ss <> []
    /\ (forall s, In s ss <->
                  In s (sales db) /\ Sale.completed s = true
                  /\ Sale.customer_id s = Main.CustomerMetrics.customer_id c)
    /\ max_date (map Sale.sale_date ss) = Some d
    /\ Main.CustomerMetrics.recency_days c = date_diff today d
    /\ Main.CustomerMetrics.frequency c = count_distinct (map Sale.sale_id ss)
    /\ 1 <= Main.CustomerMetrics.frequency c.
Proof.
  unfold Main.customer_metrics. rewrite in_map_iff.
  intros [[[id name] rows] [Hc Hg]]. apply filter_In in Hg.
  destruct Hg as [Hg Hhaving]. simpl in Hhaving. apply Nat.ltb_lt in Hhaving.
  unfold Main.customer_groups in Hg. apply group_by_In in Hg.
  destruct Hg as [[[a0 ob0] [Hrow0 Hkey0]] Hrows].
  simpl in Hkey0. inversion Hkey0 as [[Hid Hname]].
  apply left_join_In_left in Hrow0.
  set (ss := matched rows) in *.
  assert (Hne : ss <> []) by (destruct ss; [simpl in Hhaving; lia|congruence]).
  assert (Hdates : map Sale.sale_date ss <> [])
    by (destruct ss; [congruence|discriminate]).
  destruct (max_date_spec Hdates) as [d [Hmax _]].
  exists ss, d. subst c. simpl. fold ss.
  split; [exact Hne|]. split; [|split; [exact Hmax|split; [|split]]].
  - intro s. unfold ss. rewrite matched_In. split.
    + intros [a Ha]. apply Hrows in Ha. destruct Ha as [Ha Hkey].
      unfold Main.customer_sales in Ha. apply left_join_In in Ha.
      destruct Ha as [_ [Hs Hon]]. apply andb_true_iff in Hon.
      destruct Hon as [Heq Hcomp]. apply Z.eqb_eq in Heq.
      simpl in Hkey. inversion Hkey. repeat split; congruence.
    + intros [Hs [Hcomp Hcust]]. exists a0. apply Hrows. split.
      * unfold Main.customer_sales. apply left_join_In.
        split; [exact Hrow0|]. split; [exact Hs|].
        apply andb_true_iff. split; [apply Z.eqb_eq; congruence|exact Hcomp].
      * simpl. congruence.
  - unfold Main.recency. rewrite Hmax. reflexivity.
  - reflexivity.
  - apply count_distinct_pos. destruct ss; [congruence|discriminate].
Qed.

Lemma main_rfm_output_In (limit_ : nat) (today : date) (db : Database)
      (out : Main.CustomerRFM.t) :
  In out (Main.get_customer_rfm_analysis limit_ today db) ->
  exists x, In x (Main.rfm_scores today db) /\ out = Main.customer_rfm x.
Proof.
  unfold Main.get_customer_rfm_analysis. rewrite in_map_iff.
  intros [x [Hx Hin]]. exists x. split; [|now symmetry].
  apply limit_In in Hin. now apply order_by_In in Hin.
Qed.

End RfmFacts.

(* ================================================================== *)
(** * The monthly trend of both scripts *)
(* ================================================================== *)

Module TrendFacts.
Import Sql SqlFacts.

Lemma nth_error_combine {A B} (l1 : list A) (l2 : list B) (i : nat) :
  nth_error (combine l1 l2) i
  = match nth_error l1 i, nth_error l2 i with
    | Some a, Some b => Some (a, b)
    | _, _ => None
    end.
Proof.
  revert l2 i. induction l1 as [|a t IH]; intros [|b u] [|i]; simpl;
    try reflexivity.
  - destruct (nth_error t i); reflexivity.
  - apply IH.
Qed.

Lemma nth_error_map_seq {B} (f : nat -> B) (start len i : nat) :
  i < len -> nth_error (map f (seq start len)) i = Some (f (start + i)).
Proof.
  revert start i. induction len as [|len IH]; intros start [|i] H; simpl;
    try lia.
  - f_equal. f_equal. lia.
  - rewrite IH by lia. f_equal. f_equal. lia.
Qed.

Lemma lag_nth {A B} (col : A -> B) (window : list A) (i : nat) (m : A) :
  nth_error window i = Some m ->
  nth_error (lag col window) i = Some (m, lagged col window i).
Proof.
  intro H. unfold lag. rewrite nth_error_combine, H.
  destruct i as [|j]; simpl; [reflexivity|].
  rewrite nth_error_map.
  assert (Hj : j < length window).
  { apply Nat.lt_succ_l. apply nth_error_Some. congruence. }
  apply nth_error_Some in Hj.
  destruct (nth_error window j); [reflexivity|congruence].
Qed.

Lemma rows_preceding_nth {A} (w : nat) (window : list A) (i : nat) (m : A) :
  nth_error window i = Some m ->
  nth_error (rows_preceding w window) i = Some (m, frame w window i).
Proof.
  intro H. unfold rows_preceding. rewrite nth_error_combine, H.
  rewrite nth_error_map_seq; [reflexivity|].
  apply nth_error_Some. congruence.
Qed.

(** [growth] written out: [NULL] without a lagged value or on a lagged
    value of zero, the rounded percentage otherwise. *)
Lemma growth_spec (revenue : Q) (lag_revenue : option Q) :
  Main.growth revenue lag_revenue
  = match lag_revenue with
    | None => None
    | Some prev =>
        if Qeq_bool prev 0 then None
        else Some (round (((revenue - prev) / prev) * 100) 2)
    end.
Proof.
  unfold Main.growth, nullif_zero.
  destruct lag_revenue as [prev|]; [|reflexivity].
  destruct (Qeq_bool prev 0); reflexivity.
Qed.

Lemma growth_null_iff (revenue : Q) (lag_revenue : option Q) :
  Main.growth revenue lag_revenue = None
  <-> lag_revenue = None
      \/ exists prev, lag_revenue = Some prev /\ (prev == 0)%Q.
Proof.
  rewrite growth_spec. destruct lag_revenue as [prev|].
  - destruct (Qeq_bool prev 0) eqn:E; split.
    + intros _. right. exists prev. split; [reflexivity|].
      now apply Qeq_bool_eq.
    + reflexivity.
    + discriminate.
    + intros [H|[q [H Hz]]]; [discriminate|]. inversion H; subst q.
      apply Qeq_bool_neq in E. contradiction.
  - split; auto.
Qed.

(** *** scripts/run_analytics.py, query 2 *)

(** Row [i] of the [SELECT]: its lagged revenue is the revenue of row
    [i - 1] of the window over every month, its frame the rows [i - 2]
    to [i] of that window. *)
Lemma run_trend_rows_nth (db : Database) (i : nat) (m : Main.MonthlySales.t) :
  nth_error (RunAnalytics.trend_window db) i = Some m ->
  nth_error (RunAnalytics.trend_rows db) i
  = Some (RunAnalytics.trend_row
            m
            (lagged Main.MonthlySales.revenue (RunAnalytics.trend_window db) i)
            (frame 2 (RunAnalytics.trend_window db) i)).
Proof.
  intro H. unfold RunAnalytics.trend_rows.
  rewrite nth_error_map, nth_error_combine.
  rewrite (lag_nth _ _ _ H), (rows_preceding_nth _ _ _ H). reflexivity.
Qed.

Lemma run_trend_rows_length (db : Database) :
  length (RunAnalytics.trend_rows db) = length (RunAnalytics.trend_window db).
Proof.
  unfold RunAnalytics.trend_rows, lag, rows_preceding.
  rewrite length_map, !length_combine, length_map, length_seq. simpl.
  rewrite length_map. lia.
Qed.

(** Every row of the answer is such a row: the [LIMIT 12] comes after the
    window functions. *)
Lemma run_trend_output_In (db : Database) (row : RunAnalytics.TrendRow.t) :
  In row (RunAnalytics.monthly_sales_trend db) ->
  exists i m,
    nth_error (RunAnalytics.trend_window db) i = Some m
    /\ row = RunAnalytics.trend_row
               m
               (lagged Main.MonthlySales.revenue (RunAnalytics.trend_window db) i)
               (frame 2 (RunAnalytics.trend_window db) i).
Proof.
  unfold RunAnalytics.monthly_sales_trend. intro H.
  apply limit_In in H. apply order_by_In in H.
  apply In_nth_error in H. destruct H as [i Hi].
  assert (Hlt : i < length (RunAnalytics.trend_window db)).
  { rewrite <- run_trend_rows_length. apply nth_error_Some. congruence. }
  apply nth_error_Some in Hlt.
  destruct (nth_error (RunAnalytics.trend_window db) i) as [m|] eqn:E;
    [|congruence].
  exists i, m. split; [exact E|].
  rewrite (run_trend_rows_nth _ _ E) in Hi. congruence.
Qed.

(** The window runs forward in time. *)
Lemma run_trend_window_sorted (db : Database) :
  StronglySorted
    (fun a b => (day_number (Main.MonthlySales.month a)
                 <= day_number (Main.MonthlySales.month b))%Z)
    (RunAnalytics.trend_window db).
Proof.
  unfold RunAnalytics.trend_window.
  destruct (Keys.by_Z_asc (fun m => day_number (Main.MonthlySales.month m)))
    as [Htot Htr].
  eapply sorted_impl;
    [|exact (order_by_sorted Htot Htr (RunAnalytics.monthly_sales db))].
  intros a b Hab. now apply Z.leb_le.
Qed.

(** *** api/main.py *)

Lemma month_desc_order :
  total Main.month_desc /\ transitive Main.month_desc.
Proof.
  unfold total, transitive, Main.month_desc, date_leb.
  split; [intros a b|intros a b c]; rewrite !Z.leb_le; lia.
Qed.

(** The window of the endpoint runs backward in time, so the lagged
    revenue of a row is the revenue of the month after it. *)
Lemma main_window_sorted (months : nat) (db : Database) :
  StronglySorted
    (fun a b => (day_number (Main.MonthlySales.month b)
                 <= day_number (Main.MonthlySales.month a))%Z)
    (Main.trend_window months db).
Proof.
  unfold Main.trend_window. destruct month_desc_order as [Htot Htr].
  eapply sorted_impl;
    [|exact (order_by_sorted Htot Htr (Main.monthly_sales months db))].
  intros a b Hab. unfold Main.month_desc, date_leb in Hab.
  now apply Z.leb_le.
Qed.

(** The endpoint's answer, with the [LIMIT] of its CTE moved to the end:
    lagging over a window that runs backward in time, truncating first
    and truncating last return the same rows. *)
Lemma main_trend_normal_form (months : nat) (db : Database) :
  Main.get_monthly_sales_trend months db
  = limit months
          (map Main.sales_trend
               (lag Main.MonthlySales.revenue
                    (order_by Main.month_desc (Main.sales_by_month db)))).
Proof.
  destruct month_desc_order as [Htot Htr].
  pose proof (order_by_sorted Htot Htr (Main.sales_by_month db)) as Hsorted.
  unfold Main.get_monthly_sales_trend, Main.trend_window, Main.monthly_sales,
    limit.
  rewrite (order_by_sorted_id Main.month_desc (sorted_firstn months Hsorted)).
  rewrite lag_firstn, <- firstn_map.
  apply order_by_sorted_id. apply sorted_firstn.
  apply (@sorted_map _ _
           (fun p q : Main.MonthlySales.t * option Q =>
              Main.month_desc (fst p) (fst q) = true)).
  - intros a b Hab. exact Hab.
  - unfold lag.
    apply (@sorted_combine_left _ _ (fun a b => Main.month_desc a b = true)).
    exact Hsorted.
Qed.

Lemma main_trend_limit_commutes (months : nat) (db : Database) :
  Main.get_monthly_sales_trend months db
  = limit months
          (Main.get_monthly_sales_trend (length (Main.sales_by_month db)) db).
Proof.
  rewrite !main_trend_normal_form. f_equal. unfold limit.
  symmetry. apply firstn_all2.
  unfold lag. rewrite length_map, length_combine. simpl.
  rewrite length_map, order_by_length. lia.
Qed.

(** A returned row after the first takes its lagged revenue from the row
    before it in the answer, a month that is not earlier than its own. *)
Lemma main_growth_rate (months : nat) (db : Database) (i : nat)
      (later m : Main.MonthlySales.t) :
  let window := order_by Main.month_desc (Main.sales_by_month db) in
  nth_error window i = Some later ->
  nth_error window (S i) = Some m ->
  S i < months ->
  nth_error (Main.get_monthly_sales_trend months db) (S i)
  = Some (Main.sales_trend (m, Some (Main.MonthlySales.revenue later)))
  /\ (day_number (Main.MonthlySales.month m)
      <= day_number (Main.MonthlySales.month later))%Z.
Proof.
  intros window Hlater Hm Hlt. split.
  - rewrite main_trend_normal_form. unfold limit.
    rewrite nth_error_firstn.
    destruct (Nat.ltb_spec (S i) months); [|lia].
    rewrite nth_error_map. fold window. rewrite (lag_nth _ _ _ Hm).
    simpl. now rewrite Hlater.
  - destruct month_desc_order as [Htot Htr].
    pose proof (order_by_sorted Htot Htr (Main.sales_by_month db)) as Hs.
    fold window in Hs.
    rewrite <- (firstn_skipn_middle _ _ Hlater) in Hs.
    assert (Hin : In m (skipn (S i) window)).
    { apply nth_error_In with 0. rewrite nth_error_skipn.
      now rewrite Nat.add_0_r. }
    clear - Hs Hin. induction (firstn i window) as [|a t IH]; simpl in Hs.
    + inversion Hs as [|? ? _ Hall]; subst.
      rewrite Forall_forall in Hall. specialize (Hall m Hin).
      unfold Main.month_desc, date_leb in Hall. now apply Z.leb_le.
    + inversion Hs; subst. auto.
Qed.

(** In query 2 of [scripts/run_analytics.py] a row after the first takes
    its lagged revenue from the row before it in time order. *)
Lemma run_growth_rate (db : Database) (i : nat)
      (prev m : Main.MonthlySales.t) :
  nth_error (RunAnalytics.trend_window db) i = Some prev ->
  nth_error (RunAnalytics.trend_window db) (S i) = Some m ->
  exists row,
    nth_error (RunAnalytics.trend_rows db) (S i) = Some row
    /\ RunAnalytics.TrendRow.month row = Main.MonthlySales.month m
    /\ RunAnalytics.TrendRow.prev_month row
       = Some (Main.MonthlySales.revenue prev)
    /\ RunAnalytics.TrendRow.growth_rate row
       = (if Qeq_bool (Main.MonthlySales.revenue prev) 0 then None
          else Some (round (((Main.MonthlySales.revenue m
                              - Main.MonthlySales.revenue prev)
                             / Main.MonthlySales.revenue prev) * 100) 2))
    /\ (day_number (Main.MonthlySales.month prev)
        <= day_number (Main.MonthlySales.month m))%Z.
Proof.
  intros Hprev Hm. eexists. split; [apply (run_trend_rows_nth _ _ Hm)|].
  simpl. rewrite Hprev. simpl. split; [reflexivity|split; [reflexivity|]].
  split; [unfold nullif_zero; destruct (Qeq_bool _ 0); reflexivity|].
  pose proof (run_trend_window_sorted db) as Hs.
  rewrite <- (firstn_skipn_middle _ _ Hprev) in Hs.
  assert (Hin : In m (skipn (S i) (RunAnalytics.trend_window db))).
  { apply nth_error_In with 0. rewrite nth_error_skipn.
    now rewrite Nat.add_0_r. }
  clear - Hs Hin.
  induction (firstn i (RunAnalytics.trend_window db)) as [|a t IH];
    simpl in Hs.
  - inversion Hs as [|? ? _ Hall]; subst.
    rewrite Forall_forall in Hall. exact (Hall m Hin).
  - inversion Hs; subst. auto.
Qed.

(** The first month of the history has no lagged revenue. *)
Lemma run_growth_rate_first (db : Database) (m : Main.MonthlySales.t) :
  nth_error (RunAnalytics.trend_window db) 0 = Some m ->
  exists row,
    nth_error (RunAnalytics.trend_rows db) 0 = Some row
    /\ RunAnalytics.TrendRow.month row = Main.MonthlySales.month m
    /\ RunAnalytics.TrendRow.growth_rate row = None.
Proof.
  intro Hm. eexists. split; [apply (run_trend_rows_nth _ _ Hm)|].
  simpl. auto.
Qed.

End TrendFacts.

(* ================================================================== *)
(** * The salary analysis *)
(* ================================================================== *)

Module SalaryFacts.
Import Sql SqlFacts.

Lemma filter_length_perm {A} (f : A -> bool) (l l' : list A) :
  Permutation l l' -> length (filter f l) = length (filter f l').
Proof.
  induction 1 as [|x l l' _ IH|x y l|l l' l'' _ IH1 _ IH2]; simpl.
  - reflexivity.
  - destruct (f x); simpl; congruence.
  - destruct (f x), (f y); reflexivity.
  - congruence.
Qed.

Lemma sorted_middle {A} (R : A -> A -> Prop) (l1 l2 : list A) (x : A) :
  StronglySorted R (l1 ++ x :: l2) ->
  Forall (fun y => R y x) l1 /\ Forall (R x) l2.
Proof.
  induction l1 as [|a t IH]; simpl; intro H; inversion H as [|? ? Hs Hall];
    subst.
  - split; [constructor|exact Hall].
  - destruct (IH Hs) as [H1 H2]. split; [|exact H2].
    constructor; [|exact H1].
    rewrite Forall_forall in Hall. apply Hall, in_elt.
Qed.

Lemma filter_all {A} (f : A -> bool) (l : list A) :
  Forall (fun y => f y = true) l -> filter f l = l.
Proof.
  induction 1 as [|a t Ha _ IH]; simpl; [reflexivity|].
  now rewrite Ha, IH.
Qed.

Lemma filter_none {A} (f : A -> bool) (l : list A) :
  Forall (fun y => f y = false) l -> filter f l = [].
Proof.
  induction 1 as [|a t Ha _ IH]; simpl; [reflexivity|].
  now rewrite Ha, IH.
Qed.

(** On a window whose keys strictly increase, the rows that sort strictly
    before row [i] are the [i] rows in front of it. *)
Lemma rows_before_position {A} (ltb : A -> A -> bool) (window : list A)
      (i : nat) (x : A) :
  (forall a b, ltb a b = true -> ltb b a = false) ->
  ltb x x = false ->
  StronglySorted (fun a b => ltb a b = true) window ->
  nth_error window i = Some x ->
  rows_before ltb window x = i.
Proof.
  intros Hasym Hirr Hs Hx. unfold rows_before.
  assert (Hi : i < length window) by (apply nth_error_Some; congruence).
  rewrite <- (firstn_skipn_middle _ _ Hx) in Hs |- *.
  apply sorted_middle in Hs. destruct Hs as [Hbefore Hafter].
  rewrite filter_app. simpl. rewrite Hirr.
  rewrite (filter_all _ Hbefore).
  rewrite filter_none.
  - rewrite length_app, length_firstn. simpl. lia.
  - eapply Forall_impl; [|exact Hafter]. intros y Hy. now apply Hasym.
Qed.

Lemma salary_below_asym (a b : Employee.t * Department.t) :
  Main.salary_below a b = true -> Main.salary_below b a = false.
Proof.
  unfold Main.salary_below. rewrite negb_true_iff, negb_false_iff.
  intro H. destruct (Keys.Qle_bool_total (Main.joined_salary a)
                                         (Main.joined_salary b)); congruence.
Qed.

Lemma salary_below_irrefl (a : Employee.t * Department.t) :
  Main.salary_below a a = false.
Proof.
  unfold Main.salary_below. apply negb_false_iff, Qle_bool_iff, Qle_refl.
Qed.

Lemma salary_window_perm (db : Database) :
  Permutation (Main.active_employees db) (Main.salary_window db).
Proof. apply order_by_perm. Qed.

(** A joined row: an active employee and the department of its [dept_id]. *)
Lemma active_employees_In (db : Database) (e : Employee.t) (d : Department.t) :
  In (e, d) (Main.active_employees db)
  <-> In e (employees db) /\ In d (departments db)
      /\ Employee.dept_id e = Department.dept_id d
      /\ Employee.is_active e = true.
Proof.
  unfold Main.active_employees. rewrite filter_In, inner_join_In. simpl.
  rewrite Z.eqb_eq. tauto.
Qed.

(** A row of [salary_stats] is the row of a joined row [r]; its percentile
    counts the joined rows paid strictly less than [r]. *)
Lemma salary_stats_In (db : Database) (st : Main.SalaryStats.t) :
  In st (Main.salary_stats db) ->
  exists r q,
    In r (Main.active_employees db)
    /\ In (r, q) (ntile 4 (Main.salary_window db))
    /\ st = Main.salary_stat (Main.salary_window db) (r, q)
    /\ Main.SalaryStats.salary_percentile st
       = (if length (Main.active_employees db) <=? 1 then 0%Q
          else (inject_Z (Z.of_nat (rows_before Main.salary_below
                                                (Main.active_employees db) r))
                / inject_Z (Z.of_nat (length (Main.active_employees db) - 1)))%Q).
Proof.
  unfold Main.salary_stats. rewrite in_map_iff.
  intros [[r q] [Hst Hin]]. exists r, q.
  assert (Hr : In r (Main.active_employees db)).
  { apply (order_by_In (fun a b => Qle_bool (Main.joined_salary a)
                                            (Main.joined_salary b))).
    apply (in_combine_l _ _ _ _ Hin). }
  repeat split; [exact Hr|exact Hin|now symmetry|].
  subst st. simpl. unfold percent_rank, rows_before.
  rewrite <- (filter_length_perm _ (salary_window_perm db)).
  rewrite <- (Permutation_length (salary_window_perm db)). reflexivity.
Qed.

(** The endpoint of [api/main.py] is refused on every database. *)
Lemma main_salary_query_refused (limit_ : nat) (db : Database) :
  Main.get_employee_salary_analysis limit_ db
  = UndefinedFunction "round(double precision, integer)".
Proof. reflexivity. Qed.

(** Query 1 of [scripts/run_analytics.py] is accepted, and each of its rows
    shows a row of the CTE. *)
Lemma run_salary_rows_In (db : Database) :
  exists rows,
    RunAnalytics.employee_salary_analysis db = Accepted rows
    /\ forall out, In out rows ->
         exists st,
           In st (Main.salary_stats db)
           /\ RunAnalytics.SalaryRow.employee_name out
              = Main.SalaryStats.employee_name st
           /\ RunAnalytics.SalaryRow.dept_name out
              = Main.SalaryStats.dept_name st
           /\ RunAnalytics.SalaryRow.salary out = Main.SalaryStats.salary st
           /\ RunAnalytics.SalaryRow.percentile_rank out
              = round (Main.SalaryStats.salary_percentile st * 100) 2.
Proof.
  eexists. split; [reflexivity|]. intros out Hout.
  apply in_map_iff in Hout. destruct Hout as [s [<- Hin]].
  apply limit_In in Hin. apply order_by_In in Hin.
  unfold RunAnalytics.salary_stats in Hin. apply in_map_iff in Hin.
  destruct Hin as [rq [<- Hrq]]. simpl.
  exists (Main.salary_stat (Main.salary_window db) rq).
  split; [|auto]. unfold Main.salary_stats. now apply in_map.
Qed.

(** The quartile column is [NTILE(4)] over the joined rows by salary. *)
Lemma salary_quartiles (db : Database) :
  map Main.SalaryStats.salary_quartile (Main.salary_stats db)
  = ntile_numbers 4 (length (Main.active_employees db)).
Proof.
  unfold Main.salary_stats. rewrite map_map. simpl.
  change (map (fun x => snd x) (ntile 4 (Main.salary_window db)))
    with (map snd (ntile 4 (Main.salary_window db))).
  rewrite ntile_snd by lia.
  now rewrite <- (Permutation_length (salary_window_perm db)).
Qed.

(** Every joined row has its row in [salary_stats]. *)
Lemma salary_stats_covers (db : Database) (r : Employee.t * Department.t) :
  In r (Main.active_employees db) ->
  exists q, In (Main.salary_stat (Main.salary_window db) (r, q))
               (Main.salary_stats db).
Proof.
  intro Hr.
  destruct (@ntile_over_has_row _ 4
              (fun a b => Qle_bool (Main.joined_salary a) (Main.joined_salary b))
              (Main.active_employees db) r ltac:(lia) Hr) as [q Hq].
  exists q. unfold Main.salary_stats. apply in_map. exact Hq.
Qed.

End SalaryFacts.

(* ================================================================== *)
(** * Sales the analyses do not read *)
(* ================================================================== *)

Module SaleFacts.
Import Sql SqlFacts.

Lemma not_completed (s : Sale.t) :
  Sale.status s <> "completed"%string -> Sale.completed s = false.
Proof. intro H. unfold Sale.completed. now apply String.eqb_neq. Qed.

Section OneMoreSale.
Variable db : Database.
Variables before after : list Sale.t.
Variable s : Sale.t.

Let db_with := with_sales (before ++ s :: after) db.
Let db_without := with_sales (before ++ after) db.

Lemma sales_by_month_ignores :
  Sale.completed s = false ->
  Main.sales_by_month db_with = Main.sales_by_month db_without.
Proof.
  intro H. unfold Main.sales_by_month, db_with, db_without. simpl.
  rewrite !filter_app. simpl. now rewrite H.
Qed.

Lemma customer_groups_ignores :
  (forall c, In c (customers db) ->
             (Customer.customer_id c =? Sale.customer_id s)%Z
             && Sale.completed s = false) ->
  Main.customer_groups db_with = Main.customer_groups db_without.
Proof.
  intro H. unfold Main.customer_groups, Main.customer_sales, db_with,
             db_without. simpl.
  now rewrite left_join_ignores.
Qed.

Lemma product_groups_ignores :
  (forall p, In p (products db) ->
             (Product.product_id p =? Sale.product_id s)%Z
             && Sale.completed s = false) ->
  Main.product_groups db_with = Main.product_groups db_without.
Proof.
  intro H. unfold Main.product_groups, db_with, db_without. simpl.
  now rewrite left_join_ignores.
Qed.

Lemma department_groups_ignores :
  (forall e, In e (employees db) -> Employee.is_active e = true ->
             (Employee.emp_id e =? Sale.emp_id s)%Z
             && Sale.completed s = false) ->
  Main.department_groups db_with = Main.department_groups db_without.
Proof.
  intro H. unfold Main.department_groups, Main.department_rows, db_with,
             db_without. simpl.
  rewrite left_join_ignores; [reflexivity|].
  intros [d [e|]] Hin; simpl; [|reflexivity].
  apply left_join_In in Hin. destruct Hin as [_ [He Hon]].
  apply andb_true_iff in Hon. apply H; tauto.
Qed.
End OneMoreSale.

End SaleFacts.

(* ================================================================== *)
(** * The department roll-up *)
(* ================================================================== *)

Module DepartmentFacts.
Import Sql SqlFacts.

Lemma nullif_zero_count (n : nat) :
  nullif_zero (inject_Z (Z.of_nat n))
  = if n =? 0 then None else Some (inject_Z (Z.of_nat n)).
Proof.
  unfold nullif_zero, Qeq_bool, inject_Z. simpl.
  rewrite Z.mul_1_r. destruct n as [|n]; reflexivity.
Qed.

Lemma revenue_per_employee_spec (rows : list Main.DepartmentRow) :
  Main.revenue_per_employee rows
  = if Main.employee_count rows =? 0 then None
    else Some (round (Main.total_revenue rows
                      / inject_Z (Z.of_nat (Main.employee_count rows))) 0).
Proof.
  unfold Main.revenue_per_employee. rewrite nullif_zero_count.
  destruct (Main.employee_count rows =? 0); reflexivity.
Qed.

(** The rows of a group are rows of its department; an employee on one of
    them is an active employee of that department. *)
Lemma department_group_employee (db : Database)
      (g : (Z * string * string) * list Main.DepartmentRow) (e : Employee.t) :
  In g (Main.department_groups db) ->
  In e (Main.group_employees (snd g)) ->
  In e (employees db) /\ Employee.is_active e = true
  /\ Employee.dept_id e = fst (fst (fst g)).
Proof.
  destruct g as [k rows]. unfold Main.department_groups. intros Hg He.
  apply group_by_In in Hg. destruct Hg as [_ Hrows]. simpl in He.
  unfold Main.group_employees in He. apply matched_In in He.
  destruct He as [d He]. apply in_map_iff in He.
  destruct He as [[[d' oe] os] [Heq Hin]]. simpl in Heq. inversion Heq; subst.
  apply Hrows in Hin. destruct Hin as [Hin Hkey].
  unfold Main.department_rows in Hin. apply left_join_In_left in Hin.
  apply left_join_In in Hin. destruct Hin as [_ [He Hon]].
  apply andb_true_iff in Hon. destruct Hon as [Hid Hact].
  apply Z.eqb_eq in Hid. simpl in Hkey. subst k. simpl. auto.
Qed.

(** The sales a group sums are completed sales of active employees of its
    department. *)
Lemma department_group_sale (db : Database)
      (g : (Z * string * string) * list Main.DepartmentRow) (s : Sale.t) :
  In g (Main.department_groups db) ->
  In s (matched (snd g)) ->
  In s (sales db) /\ Sale.completed s = true
  /\ exists e, In e (employees db) /\ Employee.is_active e = true
               /\ Employee.dept_id e = fst (fst (fst g))
               /\ Employee.emp_id e = Sale.emp_id s.
Proof.
  destruct g as [k rows]. unfold Main.department_groups. intros Hg Hs.
  apply group_by_In in Hg. destruct Hg as [_ Hrows]. simpl in Hs.
  apply matched_In in Hs. destruct Hs as [[d oe] Hin].
  apply Hrows in Hin. destruct Hin as [Hin Hkey].
  unfold Main.department_rows in Hin. apply left_join_In in Hin.
  destruct Hin as [Hde [Hs Hon]]. simpl in Hon.
  destruct oe as [e|]; [|discriminate].
  apply andb_true_iff in Hon. destruct Hon as [Hemp Hcomp].
  apply Z.eqb_eq in Hemp.
  apply left_join_In in Hde. destruct Hde as [_ [He Hon]].
  apply andb_true_iff in Hon. destruct Hon as [Hid Hact].
  apply Z.eqb_eq in Hid. simpl in Hkey. subst k. simpl.
  split; [exact Hs|]. split; [exact Hcomp|]. exists e. auto.
Qed.

Lemma department_group_empty (db : Database)
      (g : (Z * string * string) * list Main.DepartmentRow) :
  In g (Main.department_groups db) ->
  (forall e, In e (employees db) ->
             Employee.dept_id e = fst (fst (fst g)) ->
             Employee.is_active e = false) ->
  Main.employee_count (snd g) = 0.
Proof.
  intros Hg Hnone. unfold Main.employee_count.
  destruct (Main.group_employees (snd g)) as [|e t] eqn:E; [reflexivity|].
  assert (He : In e (Main.group_employees (snd g))) by (rewrite E; simpl; auto).
  apply (department_group_employee _ _ _ Hg) in He.
  destruct He as [He [Hact Hid]]. rewrite (Hnone e He Hid) in Hact.
  discriminate.
Qed.

(** Every department has its group, and an active employee of the
    department is counted in it. *)
Lemma department_group_exists (db : Database) (d : Department.t) :
  In d (departments db) ->
  exists rows, In (Main.department_key d, rows) (Main.department_groups db).
Proof.
  intro Hd.
  destruct (left_join_keeps_left
              (fun d e => (Department.dept_id d =? Employee.dept_id e)%Z
                          && Employee.is_active e)
              _ (employees db) _ Hd) as [oe Hoe].
  destruct (left_join_keeps_left
              (fun (de : Department.t * option Employee.t) s =>
                 match snd de with
                 | Some e => (Employee.emp_id e =? Sale.emp_id s)%Z
                             && Sale.completed s
                 | None => false
                 end)
              _ (sales db) _ Hoe) as [os Hos].
  unfold Main.department_groups.
  apply (group_by_covers Main.product_key_eq_dec
           (fun r : Main.DepartmentRow => Main.department_key (fst (fst r))))
    in Hos.
  exact Hos.
Qed.

Lemma department_group_counts (db : Database) (d : Department.t)
      (e : Employee.t) (rows : list Main.DepartmentRow) :
  In (Main.department_key d, rows) (Main.department_groups db) ->
  In d (departments db) -> In e (employees db) ->
  Employee.is_active e = true ->
  Employee.dept_id e = Department.dept_id d ->
  1 <= Main.employee_count rows.
Proof.
  intros Hg Hd He Hact Hid.
  assert (Hde : In (d, Some e)
                   (left_join
                      (fun d e => (Department.dept_id d =? Employee.dept_id e)%Z
                                  && Employee.is_active e)
                      (departments db) (employees db))).
  { apply left_join_In. repeat split; try assumption.
    apply andb_true_iff. split; [apply Z.eqb_eq; congruence|exact Hact]. }
  destruct (left_join_keeps_left
              (fun (de : Department.t * option Employee.t) s =>
                 match snd de with
                 | Some e => (Employee.emp_id e =? Sale.emp_id s)%Z
                             && Sale.completed s
                 | None => false
                 end)
              _ (sales db) _ Hde) as [os Hos].
  unfold Main.department_groups in Hg. apply group_by_In in Hg.
  destruct Hg as [_ Hrows].
  assert (Hrow : In ((d, Some e), os) rows) by (apply Hrows; split; auto).
  unfold Main.employee_count. apply count_distinct_pos.
  assert (Hin : In e (Main.group_employees rows)).
  { unfold Main.group_employees. apply matched_In. exists d.
    apply in_map_iff. now exists ((d, Some e), os). }
  destruct (Main.group_employees rows); [destruct Hin|discriminate].
Qed.

End DepartmentFacts.

(* ================================================================== *)
(** * execute_query *)
(* ================================================================== *)

Module UtilsFacts.
Import Utils.

(** The body of the [try] raises when [execute], [fetchall] or [keys]
    raises. *)
Lemma run_raises_iff {Query Value} (session : Session Query Value)
      (query : Query) (e : exception) :
  run session query = Raised e
  <-> execute session query = Raised e
      \/ exists result,
           execute session query = Returned result
           /\ (fetchall result = Raised e
               \/ exists rows, fetchall result = Returned rows
                               /\ keys result = Raised e).
Proof.
  unfold run, bind.
  destruct (execute session query) as [result|e0].
  - destruct (fetchall result) as [rows|e1] eqn:Ef.
    + destruct (keys result) as [columns|e2] eqn:Ek.
      * split; [discriminate|].
        intros [H|[r [Hr [H|[rows' [_ H]]]]]]; [discriminate| |];
          injection Hr as <-; rewrite H in *; discriminate.
      * split.
        -- intro H. injection H as <-. right. exists result.
           split; [reflexivity|]. right. exists rows. auto.
        -- intros [H|[r [Hr [H|[rows' [_ H]]]]]]; [discriminate| |];
             injection Hr as <-; rewrite H in *;
             [discriminate|now injection Ek as ->].
    + split.
      * intro H. injection H as <-. right. exists result.
        split; [reflexivity|]. left. exact Ef.
      * intros [H|[r [Hr [H|[rows' [H _]]]]]]; [discriminate| |];
          injection Hr as <-; rewrite H in *;
          [now injection Ef as ->|discriminate].
  - split.
    + intro H. left. now injection H as ->.
    + intros [H|[r [Hr _]]]; [now injection H as ->|discriminate].
Qed.

(** Handled as [execute_query] handles exceptions, a refused statement
    gives no row. *)
Lemma refused_gives_no_row {A} (answer : Sql.checked (list A)) :
  try_except (of_answer answer) (fun _ => []) = Sql.rows_of answer.
Proof. destruct answer; reflexivity. Qed.

(** A failing session and a session without rows get the same answer. *)
Example failing_like_empty :
  respond (fun _ => "SELECT 1 as test"%string) get_department_performance
          Samples.failing_session
  = respond (fun _ => "SELECT 1 as test"%string) get_department_performance
            Samples.empty_session.
Proof. reflexivity. Qed.

End UtilsFacts.

Unset Implicit Arguments.

(* ================================================================== *)
(** * Quantile bins *)
(* ================================================================== *)

(** C7, amended. [NTILE(k)] (k = 4 for the salary quartiles, k = 5 for the
    RFM quintiles) over a window of the rows in the order of its sort key,
    in whichever order the database arranges rows with equal keys: the
    rows that come out are the rows that went in, each once, in window
    order; every bin number lies in 1..k; the sizes of any two bins differ
    by at most one; along the window the bin numbers never decrease, so
    each bin is one contiguous run; a row whose key sorts strictly before
    another's has a bin number at most the other's; and with fewer rows
    than bins the rows take the bins 1, 2, ..., one row each, the later
    bins staying empty.  Which of two rows with equal keys takes the lower
    bin is left to the order of the window.  The windows of the salary
    quartiles and of the three RFM scores are such windows of the rows of
    their queries. *)
Theorem C7_ntile_bins_partition
        (A : Type) (k : nat) (leb : A -> A -> bool) (rows window : list A) :
  0 < k -> Sql.total leb -> Sql.transitive leb ->
  Permutation window rows ->
  StronglySorted (fun a b => leb a b = true) window ->
  let out := Sql.ntile k window in
  let bins := map snd out in
  (map fst out = window /\ Permutation (map fst out) rows)
  /\ (forall p, In p out -> 1 <= snd p <= k)
  /\ (forall b1 b2, 1 <= b1 <= k -> 1 <= b2 <= k ->
         count_occ Nat.eq_dec bins b1 <= count_occ Nat.eq_dec bins b2 + 1)
  /\ StronglySorted le bins
  /\ (forall p q, In p out -> In q out ->
         leb (fst q) (fst p) = false -> snd p <= snd q)
  /\ (length rows < k -> bins = seq 1 (length rows))
  /\ (forall db : Database,
         Permutation (Main.salary_window db) (Main.active_employees db)
         /\ StronglySorted
              (fun a b => Qle_bool (Main.joined_salary a)
                                   (Main.joined_salary b) = true)
              (Main.salary_window db)
         /\ Main.salary_stats db
            = map (Main.salary_stat (Main.salary_window db))
                  (Sql.ntile 4 (Main.salary_window db)))
  /\ (forall (today : Sql.date) (db : Database),
         let by_recency :=
           Sql.order_by Main.recency_asc (Main.customer_metrics today db) in
         let by_frequency :=
           Sql.order_by (fun a b => Main.frequency_desc (fst a) (fst b))
                        (Main.with_r_score today db) in
         let by_monetary :=
           Sql.order_by
             (fun a b => Main.monetary_desc (fst (fst a)) (fst (fst b)))
             (Main.with_f_score today db) in
         (Permutation by_recency (Main.customer_metrics today db)
          /\ StronglySorted (fun a b => Main.recency_asc a b = true)
                            by_recency
          /\ Main.with_r_score today db = Sql.ntile 5 by_recency)
         /\ (Permutation by_frequency (Main.with_r_score today db)
             /\ StronglySorted
                  (fun a b => Main.frequency_desc (fst a) (fst b) = true)
                  by_frequency
             /\ Main.with_f_score today db = Sql.ntile 5 by_frequency)
         /\ (Permutation by_monetary (Main.with_f_score today db)
             /\ StronglySorted
                  (fun a b =>
                     Main.monetary_desc (fst (fst a)) (fst (fst b)) = true)
                  by_monetary
             /\ Main.with_m_score today db = Sql.ntile 5 by_monetary)).
Proof.
  intros Hk Htot Htr Hperm Hsorted out bins. subst out bins.
  rewrite (SqlFacts.ntile_fst window Hk), (SqlFacts.ntile_snd window Hk).
  rewrite (Permutation_length Hperm).
  split; [|split; [|split; [|split; [|split; [|split; [|split]]]]]].
  - split; [reflexivity|exact Hperm].
  - intros p Hp. apply (@SqlFacts.ntile_numbers_range k (length rows) Hk).
    rewrite <- (Permutation_length Hperm), <- (SqlFacts.ntile_snd window Hk).
    now apply in_map.
  - intros b1 b2 H1 H2.
    rewrite !SqlFacts.ntile_numbers_count by assumption.
    unfold Sql.bucket_size.
    destruct (b1 <=? length rows mod k), (b2 <=? length rows mod k); lia.
  - apply SqlFacts.ntile_numbers_sorted.
  - intros p q. now apply SqlFacts.ntile_monotone.
  - intro Hn. now apply SqlFacts.ntile_numbers_sparse.
  - intro db.
    destruct (Keys.by_Q_asc Main.joined_salary) as [Ht Hr].
    split; [apply Permutation_sym, SqlFacts.order_by_perm|].
    split; [apply (SqlFacts.order_by_sorted Ht Hr)|reflexivity].
  - intros today db by_recency by_frequency by_monetary.
    destruct (Keys.by_Z_asc Main.CustomerMetrics.recency_days) as [Ht1 Hr1].
    destruct (Keys.by_nat_desc
                (fun a : Main.CustomerMetrics.t * nat =>
                   Main.CustomerMetrics.frequency (fst a))) as [Ht2 Hr2].
    destruct (Keys.by_Q_desc
                (fun a : Main.CustomerMetrics.t * nat * nat =>
                   Main.CustomerMetrics.monetary_value (fst (fst a))))
      as [Ht3 Hr3].
    split; [|split].
    + split; [apply Permutation_sym, SqlFacts.order_by_perm|].
      split; [apply (SqlFacts.order_by_sorted Ht1 Hr1)|reflexivity].
    + split; [apply Permutation_sym, SqlFacts.order_by_perm|].
      split; [apply (SqlFacts.order_by_sorted Ht2 Hr2)|reflexivity].
    + split; [apply Permutation_sym, SqlFacts.order_by_perm|].
      split; [apply (SqlFacts.order_by_sorted Ht3 Hr3)|reflexivity].
Qed.

Lemma C7_witness :
  map snd (Sql.ntile 4 [40000%Q; 60000%Q; 80000%Q]) = seq 1 3.
Proof.
  apply (C7_ntile_bins_partition
           Q 4 (fun a b : Q => Qle_bool a b)
           [60000%Q; 40000%Q; 80000%Q] [40000%Q; 60000%Q; 80000%Q]).
  - lia.
  - apply (Keys.by_Q_asc (fun x : Q => x)).
  - apply (Keys.by_Q_asc (fun x : Q => x)).
  - apply perm_swap.
  - repeat constructor.
  - simpl. lia.
Defined.

(** On [Samples.tied_db] Ann and Bob are paid the same and Ann is listed
    first.  The window with Bob before Ann is in salary order as well, and
    with it Bob is in quartile 1 and Ann in quartile 2: rows with equal
    keys are not bound to their first-seen order, which is only the order
    [order_by] picks. *)
Lemma C7_counterexample :
  map (fun r => Employee.first_name (fst r))
      (Main.active_employees Samples.tied_db)
  = ["Ann"; "Bob"; "Cid"]%string
  /\ Permutation Samples.tied_window (Main.active_employees Samples.tied_db)
  /\ StronglySorted
       (fun a b => Qle_bool (Main.joined_salary a) (Main.joined_salary b)
                   = true)
       Samples.tied_window
  /\ map Samples.quartile_view (Sql.ntile 4 Samples.tied_window)
     = [("Bob"%string, 1); ("Ann"%string, 2); ("Cid"%string, 3)]
  /\ map Samples.quartile_view
         (Sql.ntile 4 (Main.salary_window Samples.tied_db))
     = [("Ann"%string, 1); ("Bob"%string, 2); ("Cid"%string, 3)].
Proof.
  split; [vm_compute; reflexivity|].
  split; [vm_compute; apply perm_swap|].
  split; [repeat constructor|].
  split; vm_compute; reflexivity.
Qed.

(* ================================================================== *)
(** * Customer value segmentation *)
(* ================================================================== *)

(** C1. On five customers of whom Ann bought last, most often and for the
    most, and Eve longest ago, least often and for the least, the endpoint
    of [api/main.py] scores Ann 1, 1, 1 ("At Risk") and Eve 5, 5, 5
    ("Champions"): its [NTILE(5)] windows run by ascending recency and by
    descending frequency and monetary value, so score 5 goes to the least
    recent, least frequent and least spending customers.  Query 3 of
    [scripts/run_analytics.py] orders the three windows the other way and
    scores Ann 5, 5, 5 and Eve 1, 1, 1. *)
Theorem C1_main_rfm_polarity_reversed :
  map Samples.rfm_view
      (Main.get_customer_rfm_analysis 50 Samples.rfm_today Samples.rfm_db)
  = [("Ann A"%string, 1, 1, 1, Main.AtRisk);
     ("Bob B"%string, 2, 2, 2, Main.AtRisk);
     ("Cid C"%string, 3, 3, 3, Main.Loyal);
     ("Dan D"%string, 4, 4, 4, Main.Champions);
     ("Eve E"%string, 5, 5, 5, Main.Champions)]
  /\ map Samples.rfm_row_view
         (RunAnalytics.customer_rfm_segments Samples.rfm_today Samples.rfm_db)
     = [("Ann A"%string, 5, 5, 5, RunAnalytics.Champions);
        ("Bob B"%string, 4, 4, 4, RunAnalytics.Champions);
        ("Cid C"%string, 3, 3, 3, RunAnalytics.LoyalCustomers);
        ("Dan D"%string, 2, 2, 2, RunAnalytics.Lost);
        ("Eve E"%string, 1, 1, 1, RunAnalytics.Lost)].
Proof. split; vm_compute; reflexivity. Qed.

(** C9. Every row the RFM endpoint returns is the projection of a row of
    [rfm_scores] whose customer has at least one completed sale: its
    recency is the number of days from the date [d] of such a sale to
    today, no completed sale of that customer being later than [d] (so the
    fallback 999 of the [COALESCE] is not what the row shows), and its
    frequency is at least 1.  A customer id under which no completed sale
    is recorded is the id of no scored row. *)
Theorem C9_rfm_only_purchasers
        (limit_ : nat) (today : Sql.date) (db : Database) :
  (forall out, In out (Main.get_customer_rfm_analysis limit_ today db) ->
     exists x s,
       In x (Main.rfm_scores today db) /\ out = Main.customer_rfm x
       /\ In s (sales db) /\ Sale.completed s = true
       /\ Sale.customer_id s
          = Main.CustomerMetrics.customer_id (Main.RfmScores.metrics x)
       /\ Main.CustomerRFM.recency_days out
          = Sql.date_diff today (Sale.sale_date s)
       /\ (forall s', In s' (sales db) -> Sale.completed s' = true ->
             Sale.customer_id s'
             = Main.CustomerMetrics.customer_id (Main.RfmScores.metrics x) ->
             (Sql.day_number (Sale.sale_date s')
              <= Sql.day_number (Sale.sale_date s))%Z)
       /\ 1 <= Main.CustomerRFM.frequency out)
  /\ (forall id : Z,
        (forall s, In s (sales db) -> Sale.completed s = true ->
                   Sale.customer_id s <> id) ->
        forall x, In x (Main.rfm_scores today db) ->
                  Main.CustomerMetrics.customer_id (Main.RfmScores.metrics x)
                  <> id).
Proof.
  assert (Hscored : forall x, In x (Main.rfm_scores today db) ->
    exists s,
      In s (sales db) /\ Sale.completed s = true
      /\ Sale.customer_id s
         = Main.CustomerMetrics.customer_id (Main.RfmScores.metrics x)
      /\ Main.CustomerMetrics.recency_days (Main.RfmScores.metrics x)
         = Sql.date_diff today (Sale.sale_date s)
      /\ (forall s', In s' (sales db) -> Sale.completed s' = true ->
            Sale.customer_id s'
            = Main.CustomerMetrics.customer_id (Main.RfmScores.metrics x) ->
            (Sql.day_number (Sale.sale_date s')
             <= Sql.day_number (Sale.sale_date s))%Z)
      /\ 1 <= Main.CustomerMetrics.frequency (Main.RfmScores.metrics x)).
  { intros x Hx. apply RfmFacts.main_scored_metrics in Hx.
    apply RfmFacts.main_customer_metrics_spec in Hx.
    destruct Hx as [ss [d [Hne [Hss [Hmax [Hrec [_ Hfreq]]]]]]].
    assert (Hdates : map Sale.sale_date ss <> [])
      by (destruct ss; [congruence|discriminate]).
    destruct (SqlFacts.max_date_spec Hdates) as [d' [Hmax' [Hin Hle]]].
    rewrite Hmax in Hmax'. inversion Hmax'; subst d'.
    apply in_map_iff in Hin. destruct Hin as [s [Hd Hs]].
    exists s. apply Hss in Hs as Hs'. destruct Hs' as [H1 [H2 H3]].
    repeat split; try assumption.
    - now rewrite Hd.
    - intros s' Hs1 Hs2 Hs3. rewrite Hd. apply Hle. apply in_map.
      apply Hss. auto. }
  split.
  - intros out Hout. apply RfmFacts.main_rfm_output_In in Hout.
    destruct Hout as [x [Hx Hout]].
    destruct (Hscored x Hx) as [s [H1 [H2 [H3 [H4 [H5 H6]]]]]].
    exists x, s. subst out. simpl. repeat split; assumption.
  - intros id Hnone x Hx Hid.
    destruct (Hscored x Hx) as [s [H1 [H2 [H3 _]]]].
    apply (Hnone s H1 H2). congruence.
Qed.

(* ================================================================== *)
(** * Revenue trend *)
(* ================================================================== *)

(** C2. With completed sales of 1000 in January and 2000 in February and
    a horizon of one month, the CTE [monthly_sales] of [api/main.py]
    holds February alone ([LIMIT {months}] sits inside the CTE), so the
    window of [LAG] sees one of the two months of the history, and the
    endpoint reports February with no growth rate.  Query 2 of
    [scripts/run_analytics.py] runs [LAG] and the three-month average over
    both months and limits afterwards: February has growth 100 and average
    1500. *)
Theorem C2_main_truncates_before_window :
  map (fun m => Sql.month (Main.MonthlySales.month m))
      (Main.sales_by_month Samples.two_months_db) = [1%Z; 2%Z]
  /\ map (fun m => Sql.month (Main.MonthlySales.month m))
         (Main.trend_window 1 Samples.two_months_db) = [2%Z]
  /\ map Samples.trend_view
         (Main.get_monthly_sales_trend 1 Samples.two_months_db)
     = [(2%Z, 2000%Q, None)]
  /\ map Samples.trend_row_view
         (RunAnalytics.monthly_sales_trend Samples.two_months_db)
     = [(2%Z, 2000%Q, Some 100%Q, Some 1500%Q);
        (1%Z, 1000%Q, None, Some 1000%Q)].
Proof. repeat split; vm_compute; reflexivity. Qed.

(** C3. With completed sales of 1000 in January and 2000 in February the
    endpoint of [api/main.py] reports no growth rate for February and -50
    for January: its [LAG] window is ordered by month descending, so the
    lagged revenue of a month is the revenue of the month after it.
    Query 2 of [scripts/run_analytics.py], whose window is ordered by
    month, reports 100 for February and none for January.  On January
    1000, February 0, March 500 query 2 reports -100 for February and none
    for March, and so does the endpoint, which also reports none for
    January. *)
Theorem C3_main_growth_against_next_month :
  map Samples.trend_view
      (Main.get_monthly_sales_trend 12 Samples.two_months_db)
  = [(2%Z, 2000%Q, None); (1%Z, 1000%Q, Some (-50)%Q)]
  /\ map Samples.trend_row_view
         (RunAnalytics.monthly_sales_trend Samples.two_months_db)
     = [(2%Z, 2000%Q, Some 100%Q, Some 1500%Q);
        (1%Z, 1000%Q, None, Some 1000%Q)]
  /\ map Samples.trend_row_view
         (RunAnalytics.monthly_sales_trend Samples.three_months_db)
     = [(3%Z, 500%Q, None, Some 500%Q);
        (2%Z, 0%Q, Some (-100)%Q, Some 500%Q);
        (1%Z, 1000%Q, None, Some 1000%Q)]
  /\ map Samples.trend_view
         (Main.get_monthly_sales_trend 12 Samples.three_months_db)
     = [(3%Z, 500%Q, None); (2%Z, 0%Q, Some (-100)%Q);
        (1%Z, 1000%Q, None)].
Proof. repeat split; vm_compute; reflexivity. Qed.

(* ================================================================== *)
(** * Compensation analysis *)
(* ================================================================== *)

(** C4, amended. Every row of the CTE [salary_stats] is the row of a
    joined row [r] (an active employee with its department), and its
    percentile is [(rank - 1) / (n - 1)], where [n] is the number of joined
    rows and [rank - 1] the number of joined rows paid strictly less than
    [r] (equal salaries share a rank); the percentile is 0 when [n = 1].
    When the salaries strictly increase along the window, [rank - 1] of
    the row at position [i] (counted from 0) is [i].  Query 1 of
    [scripts/run_analytics.py] reports that percentile scaled by 100 and
    rounded to two decimals.  For salaries 40000, 60000, 80000 the
    percentiles are 0, 1/2, 1 in the CTE and 0, 50, 100 in query 1. *)
Theorem C4_percentile_rank :
  (forall (db : Database) (st : Main.SalaryStats.t),
      In st (Main.salary_stats db) ->
      exists r,
        In r (Main.active_employees db)
        /\ Main.SalaryStats.salary st = Main.joined_salary r
        /\ Main.SalaryStats.salary_percentile st
           = (if length (Main.active_employees db) <=? 1 then 0
              else inject_Z
                     (Z.of_nat
                        (Sql.rows_before Main.salary_below
                                         (Main.active_employees db) r))
                   / inject_Z
                       (Z.of_nat (length (Main.active_employees db) - 1)))%Q)
  /\ (forall (db : Database) (i : nat) (r : Employee.t * Department.t),
         nth_error (Main.salary_window db) i = Some r ->
         StronglySorted (fun a b => Main.salary_below a b = true)
                        (Main.salary_window db) ->
         Sql.rows_before Main.salary_below (Main.active_employees db) r = i)
  /\ (forall db : Database,
         exists rows,
           RunAnalytics.employee_salary_analysis db = Sql.Accepted rows
           /\ forall out, In out rows ->
                exists st,
                  In st (Main.salary_stats db)
                  /\ RunAnalytics.SalaryRow.salary out
                     = Main.SalaryStats.salary st
                  /\ RunAnalytics.SalaryRow.percentile_rank out
                     = Sql.round
                         (Main.SalaryStats.salary_percentile st * 100) 2)
  /\ map Samples.salary_stat_view (Main.salary_stats Samples.eng_db)
     = [(40000%Q, 1, 0%Q); (60000%Q, 2, (1 # 2)%Q); (80000%Q, 3, 1%Q)]
  /\ map Samples.salary_row_view
         (Sql.rows_of (RunAnalytics.employee_salary_analysis Samples.eng_db))
     = [(80000%Q, 3, 100%Q); (60000%Q, 2, 50%Q); (40000%Q, 1, 0%Q)].
Proof.
  split; [|split; [|split; [|split]]].
  - intros db st Hst. apply SalaryFacts.salary_stats_In in Hst.
    destruct Hst as [r [q [Hr [_ [Hst Hp]]]]]. exists r.
    split; [exact Hr|]. split; [subst st; reflexivity|exact Hp].
  - intros db i r Hnth Hsorted.
    unfold Sql.rows_before.
    rewrite (SalaryFacts.filter_length_perm
               _ (SalaryFacts.salary_window_perm db)).
    apply (@SalaryFacts.rows_before_position
             _ Main.salary_below (Main.salary_window db) i r
             SalaryFacts.salary_below_asym
             (SalaryFacts.salary_below_irrefl r) Hsorted Hnth).
  - intro db. destruct (SalaryFacts.run_salary_rows_In db) as [rows [Hrows H]].
    exists rows. split; [exact Hrows|]. intros out Hout.
    destruct (H out Hout) as [st [Hst [_ [_ [Hsal Hp]]]]].
    exists st. auto.
  - vm_compute. reflexivity.
  - vm_compute. reflexivity.
Qed.

Lemma C4_witness :
  Sql.rows_before Main.salary_below (Main.active_employees Samples.eng_db)
                  Samples.ann_joined = 1.
Proof.
  apply (proj1 (proj2 C4_percentile_rank) Samples.eng_db 1 Samples.ann_joined).
  - vm_compute. reflexivity.
  - vm_compute. repeat constructor.
Defined.

(** With one active employee the percentile is 0, not 100; with salaries
    50000, 50000, 70000 both employees paid 50000 are at 0, whichever of
    them comes second. *)
Lemma C4_counterexample :
  map Samples.salary_stat_view (Main.salary_stats Samples.single_db)
  = [(60000%Q, 1, 0%Q)]
  /\ map Samples.salary_row_view
         (Sql.rows_of (RunAnalytics.employee_salary_analysis Samples.single_db))
     = [(60000%Q, 1, 0%Q)]
  /\ map Samples.salary_row_view
         (Sql.rows_of (RunAnalytics.employee_salary_analysis Samples.tied_db))
     = [(70000%Q, 3, 100%Q); (50000%Q, 1, 0%Q); (50000%Q, 2, 0%Q)].
Proof. repeat split; vm_compute; reflexivity. Qed.

(** C5, amended. The salary analysis joins employees to departments with
    an inner join: every row of the CTE [salary_stats], and so every row
    query 1 of [scripts/run_analytics.py] returns, shows an active employee
    and the name of the existing department of its [dept_id]; an employee
    whose [dept_id] is the id of no department is the employee of no
    joined row, and every pair of an active employee and its department
    has its row in [salary_stats].  A sale whose customer id is the id of
    no customer changes no row of the RFM analysis, a sale whose product
    id is the id of no product changes no row of the product ranking, and
    a sale whose employee id is the id of no employee changes no row of
    the department roll-up.  The queries are total functions of the
    tables: no unresolved reference makes one fail. *)
Theorem C5_unresolved_references_are_left_out :
  (forall (db : Database) (st : Main.SalaryStats.t),
      In st (Main.salary_stats db) ->
      exists e d,
        In e (employees db) /\ In d (departments db)
        /\ Employee.is_active e = true
        /\ Employee.dept_id e = Department.dept_id d
        /\ Main.SalaryStats.employee_name st
           = full_name (Employee.first_name e) (Employee.last_name e)
        /\ Main.SalaryStats.dept_name st = Department.dept_name d)
  /\ (forall db : Database,
         exists rows,
           RunAnalytics.employee_salary_analysis db = Sql.Accepted rows
           /\ forall out, In out rows ->
                exists st,
                  In st (Main.salary_stats db)
                  /\ RunAnalytics.SalaryRow.employee_name out
                     = Main.SalaryStats.employee_name st
                  /\ RunAnalytics.SalaryRow.dept_name out
                     = Main.SalaryStats.dept_name st)
  /\ (forall (db : Database) (e : Employee.t),
         (forall d, In d (departments db) ->
                    Department.dept_id d <> Employee.dept_id e) ->
         forall r, In r (Main.active_employees db) -> fst r <> e)
  /\ (forall (db : Database) (e : Employee.t) (d : Department.t),
         In e (employees db) -> In d (departments db) ->
         Employee.is_active e = true ->
         Employee.dept_id e = Department.dept_id d ->
         exists q, In (Main.salary_stat (Main.salary_window db) (e, d, q))
                      (Main.salary_stats db))
  /\ (forall (db : Database) (before after : list Sale.t) (s : Sale.t)
             (limit_ : nat) (today : Sql.date),
         (forall c, In c (customers db) ->
                    Customer.customer_id c <> Sale.customer_id s) ->
         Main.get_customer_rfm_analysis
           limit_ today (with_sales (before ++ s :: after) db)
         = Main.get_customer_rfm_analysis
             limit_ today (with_sales (before ++ after) db))
  /\ (forall (db : Database) (before after : list Sale.t) (s : Sale.t)
             (limit_ : nat),
         (forall p, In p (products db) ->
                    Product.product_id p <> Sale.product_id s) ->
         Main.get_top_products limit_ (with_sales (before ++ s :: after) db)
         = Main.get_top_products limit_ (with_sales (before ++ after) db))
  /\ (forall (db : Database) (before after : list Sale.t) (s : Sale.t),
         (forall e, In e (employees db) ->
                    Employee.emp_id e <> Sale.emp_id s) ->
         Main.get_department_performance
           (with_sales (before ++ s :: after) db)
         = Main.get_department_performance
             (with_sales (before ++ after) db)).
Proof.
  split; [|split; [|split; [|split; [|split; [|split]]]]].
  - intros db st Hst. apply SalaryFacts.salary_stats_In in Hst.
    destruct Hst as [[e d] [q [Hr [_ [-> _]]]]].
    apply SalaryFacts.active_employees_In in Hr.
    exists e, d. simpl. tauto.
  - intro db. destruct (SalaryFacts.run_salary_rows_In db) as [rows [Hrows H]].
    exists rows. split; [exact Hrows|]. intros out Hout.
    destruct (H out Hout) as [st [Hst [Hname [Hdept _]]]].
    exists st. auto.
  - intros db e Hnone [e' d] Hr Heq. simpl in Heq. subst e'.
    apply SalaryFacts.active_employees_In in Hr.
    destruct Hr as [_ [Hd [Hid _]]]. apply (Hnone d Hd). congruence.
  - intros db e d He Hd Hact Hid.
    apply SalaryFacts.salary_stats_covers.
    apply SalaryFacts.active_employees_In. tauto.
  - intros db before after s limit_ today Hnone.
    unfold Main.get_customer_rfm_analysis, Main.rfm_scores,
      Main.with_m_score, Main.with_f_score, Main.with_r_score,
      Main.customer_metrics.
    rewrite SaleFacts.customer_groups_ignores; [reflexivity|].
    intros c Hc. apply andb_false_iff. left. apply Z.eqb_neq. now apply Hnone.
  - intros db before after s limit_ Hnone.
    unfold Main.get_top_products.
    rewrite SaleFacts.product_groups_ignores; [reflexivity|].
    intros p0 Hp. apply andb_false_iff. left. apply Z.eqb_neq. now apply Hnone.
  - intros db before after s Hnone.
    unfold Main.get_department_performance.
    rewrite SaleFacts.department_groups_ignores; [reflexivity|].
    intros e He _. apply andb_false_iff. left. apply Z.eqb_neq.
    now apply Hnone.
Qed.

Lemma C5_witness :
  exists d, In d (departments Samples.eng_db)
            /\ Main.SalaryStats.dept_name Samples.cid_stats
               = Department.dept_name d.
Proof.
  assert (Hin : In Samples.cid_stats (Main.salary_stats Samples.eng_db))
    by (vm_compute; right; right; left; reflexivity).
  destruct (proj1 C5_unresolved_references_are_left_out
                  Samples.eng_db Samples.cid_stats Hin)
    as [e [d [_ [Hd [_ [_ [_ Hname]]]]]]].
  exists d. split; [exact Hd|exact Hname].
Defined.

(** An active employee of department 9, which does not exist, is in no
    row of the CTE and in no row query 1 returns. *)
Lemma C5_counterexample :
  map Employee.is_active (employees Samples.orphan_db) = [true]
  /\ Main.salary_stats Samples.orphan_db = []
  /\ RunAnalytics.employee_salary_analysis Samples.orphan_db = Sql.Accepted [].
Proof. repeat split; vm_compute; reflexivity. Qed.

(* ================================================================== *)
(** * Department roll-up *)
(* ================================================================== *)

(** C6, amended. In the department roll-up every department has its
    group and its row.  For a department without active employee the
    employee count is 0 and revenue-per-employee is [NULL]: the divisor
    goes through [NULLIF(..., 0)], so nothing is divided by zero and the
    ratio is absent, not zero.  For a department with at least one active
    employee the ratio is the total revenue of its group (0 without
    completed sale) divided by the number of its active employees,
    rounded to an integer; the sales a group totals are completed sales
    of active employees of the department. *)
Theorem C6_revenue_per_employee (db : Database) :
  (forall d, In d (departments db) ->
     exists rows, In (Main.department_key d, rows) (Main.department_groups db))
  /\ Permutation (Main.get_department_performance db)
                 (map Main.department_performance (Main.department_groups db))
  /\ (forall g, In g (Main.department_groups db) ->
        (forall e, In e (employees db) ->
                   Employee.dept_id e = fst (fst (fst g)) ->
                   Employee.is_active e = false) ->
        Main.DepartmentPerformance.employee_count
          (Main.department_performance g) = 0
        /\ Main.DepartmentPerformance.revenue_per_employee
             (Main.department_performance g) = None)
  /\ (forall d e rows,
        In (Main.department_key d, rows) (Main.department_groups db) ->
        In d (departments db) -> In e (employees db) ->
        Employee.is_active e = true ->
        Employee.dept_id e = Department.dept_id d ->
        1 <= Main.employee_count rows
        /\ Main.DepartmentPerformance.revenue_per_employee
             (Main.department_performance (Main.department_key d, rows))
           = Some (Sql.round
                     (Main.total_revenue rows
                      / inject_Z (Z.of_nat (Main.employee_count rows))) 0))
  /\ (forall g s,
        In g (Main.department_groups db) -> In s (Sql.matched (snd g)) ->
        In s (sales db) /\ Sale.completed s = true
        /\ exists e, In e (employees db) /\ Employee.is_active e = true
                     /\ Employee.dept_id e = fst (fst (fst g))
                     /\ Employee.emp_id e = Sale.emp_id s).
Proof.
  split; [|split; [|split; [|split]]].
  - intros d Hd. now apply DepartmentFacts.department_group_exists.
  - unfold Main.get_department_performance. apply Permutation_map.
    apply Permutation_sym, SqlFacts.order_by_perm.
  - intros g Hg Hnone.
    pose proof (DepartmentFacts.department_group_empty db g Hg Hnone) as H0.
    simpl. split; [exact H0|].
    rewrite DepartmentFacts.revenue_per_employee_spec, H0. reflexivity.
  - intros d e rows Hg Hd He Hact Hid.
    pose proof (@DepartmentFacts.department_group_counts
                  db d e rows Hg Hd He Hact Hid) as Hc.
    split; [exact Hc|]. simpl.
    rewrite DepartmentFacts.revenue_per_employee_spec.
    destruct (Nat.eqb_spec (Main.employee_count rows) 0); [lia|reflexivity].
  - intros g s. apply DepartmentFacts.department_group_sale.
Qed.

Lemma C6_witness :
  Main.DepartmentPerformance.employee_count
    (Main.department_performance Samples.ops_group) = 0
  /\ Main.DepartmentPerformance.revenue_per_employee
       (Main.department_performance Samples.ops_group) = None.
Proof.
  apply (proj1 (proj2 (proj2 (C6_revenue_per_employee
                                Samples.two_departments_db)))
               Samples.ops_group).
  - vm_compute. right. left. reflexivity.
  - intros e [<-|[]]. vm_compute. discriminate.
Defined.

(** Department "Ops" has no employee: its revenue-per-employee is [NULL]
    in both scripts, not 0. *)
Lemma C6_counterexample :
  map Samples.department_view
      (Main.get_department_performance Samples.two_departments_db)
  = [("Eng"%string, 1, 1000%Q, Some 1000%Q); ("Ops"%string, 0, 0%Q, None)]
  /\ map Samples.department_row_view
         (RunAnalytics.department_performance Samples.two_departments_db)
     = [("Eng"%string, 1, Some 1000%Q, Some 1000%Q);
        ("Ops"%string, 0, None, None)].
Proof. split; vm_compute; reflexivity. Qed.

(* ================================================================== *)
(** * Completed sales only *)
(* ================================================================== *)

(** C8. A sale whose status is not "completed" (a pending or cancelled
    sale), added anywhere in the [sales] table, changes no row of the
    monthly trend, the RFM analysis, the product ranking or the department
    roll-up of [api/main.py], nor of queries 2, 3 and 7 of
    [scripts/run_analytics.py]. *)
Theorem C8_only_completed_sales_count
        (db : Database) (before after : list Sale.t) (s : Sale.t)
        (months limit_ : nat) (today : Sql.date) :
  Sale.status s <> "completed"%string ->
  let db1 := with_sales (before ++ s :: after) db in
  let db0 := with_sales (before ++ after) db in
  Main.get_monthly_sales_trend months db1
  = Main.get_monthly_sales_trend months db0
  /\ Main.get_customer_rfm_analysis limit_ today db1
     = Main.get_customer_rfm_analysis limit_ today db0
  /\ Main.get_top_products limit_ db1 = Main.get_top_products limit_ db0
  /\ Main.get_department_performance db1
     = Main.get_department_performance db0
  /\ RunAnalytics.monthly_sales_trend db1 = RunAnalytics.monthly_sales_trend db0
  /\ RunAnalytics.customer_rfm_segments today db1
     = RunAnalytics.customer_rfm_segments today db0
  /\ RunAnalytics.department_performance db1
     = RunAnalytics.department_performance db0.
Proof.
  intros Hstatus db1 db0. apply SaleFacts.not_completed in Hstatus.
  assert (Hmonths : Main.sales_by_month db1 = Main.sales_by_month db0)
    by (apply SaleFacts.sales_by_month_ignores; exact Hstatus).
  assert (Hcustomers : Main.customer_groups db1 = Main.customer_groups db0).
  { apply SaleFacts.customer_groups_ignores. intros c _.
    rewrite Hstatus. apply andb_false_r. }
  assert (Hproducts : Main.product_groups db1 = Main.product_groups db0).
  { apply SaleFacts.product_groups_ignores. intros p _.
    rewrite Hstatus. apply andb_false_r. }
  assert (Hdepartments :
            Main.department_groups db1 = Main.department_groups db0).
  { apply SaleFacts.department_groups_ignores. intros e _ _.
    rewrite Hstatus. apply andb_false_r. }
  repeat split.
  - unfold Main.get_monthly_sales_trend, Main.trend_window, Main.monthly_sales.
    now rewrite Hmonths.
  - unfold Main.get_customer_rfm_analysis, Main.rfm_scores,
      Main.with_m_score, Main.with_f_score, Main.with_r_score,
      Main.customer_metrics.
    now rewrite Hcustomers.
  - unfold Main.get_top_products. now rewrite Hproducts.
  - unfold Main.get_department_performance. now rewrite Hdepartments.
  - unfold RunAnalytics.monthly_sales_trend, RunAnalytics.trend_rows,
      RunAnalytics.trend_window, RunAnalytics.monthly_sales.
    now rewrite Hmonths.
  - unfold RunAnalytics.customer_rfm_segments, RunAnalytics.rfm_scores,
      RunAnalytics.with_m_score, RunAnalytics.with_f_score,
      RunAnalytics.with_r_score, RunAnalytics.customer_metrics.
    now rewrite Hcustomers.
  - unfold RunAnalytics.department_performance. now rewrite Hdepartments.
Qed.

Lemma C8_witness :
  Main.get_department_performance
    (with_sales (sales Samples.two_departments_db ++ [Samples.pending_sale])
                Samples.two_departments_db)
  = Main.get_department_performance
      (with_sales (sales Samples.two_departments_db ++ [])
                  Samples.two_departments_db).
Proof.
  apply (C8_only_completed_sales_count
           Samples.two_departments_db (sales Samples.two_departments_db) []
           Samples.pending_sale 12 50 Samples.rfm_today).
  vm_compute. discriminate.
Defined.

Lemma C9_witness :
  exists s, In s (sales Samples.rfm_db) /\ Sale.completed s = true
            /\ Main.CustomerRFM.recency_days Samples.ann_rfm
               = Sql.date_diff Samples.rfm_today (Sale.sale_date s).
Proof.
  assert (Hin : In Samples.ann_rfm
                   (Main.get_customer_rfm_analysis 50 Samples.rfm_today
                                                   Samples.rfm_db))
    by (vm_compute; left; reflexivity).
  destruct (proj1 (C9_rfm_only_purchasers 50 Samples.rfm_today Samples.rfm_db)
                  Samples.ann_rfm Hin)
    as [x [s [_ [_ [Hs [Hc [_ [Hr _]]]]]]]].
  exists s. split; [exact Hs|]. split; [exact Hc|exact Hr].
Defined.

(* ================================================================== *)
(** * Errors of a query *)
(* ================================================================== *)

(** C10. Whatever the query, when [session.execute], [fetchall] or [keys]
    raises an exception, [execute_query] returns the empty list; so every
    endpoint that sends this query answers with its key and an empty
    collection, the same answer as on a session that returns no row. *)
Theorem C10_execute_query_masks_errors
        (Query Value : Type) (session : Utils.Session Query Value)
        (query : Query) (e : Utils.exception) :
  (Utils.execute session query = Utils.Raised e
   \/ exists result,
        Utils.execute session query = Utils.Returned result
        /\ (Utils.fetchall result = Utils.Raised e
            \/ exists rows, Utils.fetchall result = Utils.Returned rows
                            /\ Utils.keys result = Utils.Raised e)) ->
  Utils.execute_query session query = []
  /\ (forall (query_of : Utils.Endpoint -> Query) (endpoint : Utils.Endpoint),
         query_of endpoint = query ->
         Utils.respond query_of endpoint session
         = (Utils.response_key endpoint, []))
  /\ (forall (session' : Utils.Session Query Value)
             (result : Utils.Result Value) (columns : list string),
         Utils.execute session' query = Utils.Returned result ->
         Utils.fetchall result = Utils.Returned [] ->
         Utils.keys result = Utils.Returned columns ->
         Utils.execute_query session' query
         = Utils.execute_query session query).
Proof.
  intro Hraise. apply UtilsFacts.run_raises_iff in Hraise.
  assert (Hempty : Utils.execute_query session query = []).
  { unfold Utils.execute_query. rewrite Hraise. reflexivity. }
  split; [exact Hempty|]. split.
  - intros query_of endpoint Hq. unfold Utils.respond.
    rewrite Hq, Hempty. reflexivity.
  - intros session' result columns Hexec Hrows Hkeys.
    rewrite Hempty. unfold Utils.execute_query, Utils.run, Utils.bind.
    rewrite Hexec, Hrows, Hkeys. reflexivity.
Qed.

Lemma C10_witness :
  Utils.execute_query Samples.failing_session "SELECT 1 as test"%string = [].
Proof.
  apply (C10_execute_query_masks_errors
           string Z Samples.failing_session "SELECT 1 as test"%string
           (Utils.Exception "connection lost")).
  left. reflexivity.
Defined.

(* ================================================================== *)
(** * Aggregates, groups and ranks *)
(* ================================================================== *)

Module AggregateFacts.
Import Sql.

Lemma sum_q_from (l : list Q) (acc : Q) :
  (fold_left Qplus l acc == acc + sum_q l)%Q.
Proof.
  unfold sum_q. revert acc.
  induction l as [|a l IH]; intro acc; simpl.
  - ring.
  - rewrite IH, (IH (0 + a)%Q). ring.
Qed.

Lemma sum_q_cons (a : Q) (l : list Q) : (sum_q (a :: l) == a + sum_q l)%Q.
Proof.
  unfold sum_q at 1. simpl. rewrite sum_q_from. ring.
Qed.

Lemma sum_q_app (l1 l2 : list Q) :
  (sum_q (l1 ++ l2) == sum_q l1 + sum_q l2)%Q.
Proof.
  induction l1 as [|a l1 IH]; simpl.
  - unfold sum_q at 2. simpl. ring.
  - rewrite !sum_q_cons, IH. ring.
Qed.

Lemma sum_q_map_ext {K} (F G : K -> Q) (ks : list K) :
  (forall k, In k ks -> (F k == G k)%Q) ->
  (sum_q (map F ks) == sum_q (map G ks))%Q.
Proof.
  induction ks as [|k ks IH]; intro H; simpl.
  - reflexivity.
  - rewrite !sum_q_cons, IH, (H k).
    + reflexivity.
    + left. reflexivity.
    + intros k' Hk'. apply H. right. assumption.
Qed.

Lemma sum_q_map_plus {K} (F G : K -> Q) (ks : list K) :
  (sum_q (map (fun k => F k + G k)%Q ks)
   == sum_q (map F ks) + sum_q (map G ks))%Q.
Proof.
  induction ks as [|k ks IH]; simpl.
  - unfold sum_q. simpl. ring.
  - rewrite !sum_q_cons, IH. ring.
Qed.

Lemma list_sum_map_plus {K} (F G : K -> nat) (ks : list K) :
  list_sum (map (fun k => F k + G k) ks)
  = list_sum (map F ks) + list_sum (map G ks).
Proof.
  induction ks as [|k ks IH]; simpl; [reflexivity|]. rewrite IH. lia.
Qed.

Section GroupPartition.
Variables A K : Type.
Variable eq_dec : forall x y : K, {x = y} + {x <> y}.
Variable key : A -> K.

Let has_key (k : K) (x : A) : bool :=
  if eq_dec (key x) k then true else false.

Lemma group_by_keys (rows : list A) :
  map fst (group_by eq_dec key rows) = nodup eq_dec (map key rows).
Proof.
  unfold group_by. rewrite map_map. simpl. apply map_id.
Qed.

Lemma group_by_keys_NoDup (rows : list A) :
  NoDup (map fst (group_by eq_dec key rows)).
Proof. rewrite group_by_keys. apply NoDup_nodup. Qed.

Lemma group_by_nonempty (rows : list A) (k : K) (g : list A) :
  In (k, g) (group_by eq_dec key rows) -> g <> [].
Proof.
  intro H. destruct (SqlFacts.group_by_In eq_dec key rows k g H) as [[x [Hx Hk]] Hg].
  intro E. subst g. apply (proj2 (Hg x)). split; assumption.
Qed.

Lemma indicator_count (x : K) (ks : list K) :
  list_sum (map (fun k => if eq_dec x k then 1 else 0) ks)
  = count_occ eq_dec ks x.
Proof.
  induction ks as [|k ks IH]; simpl; [reflexivity|].
  rewrite IH. destruct (eq_dec x k) as [E|E], (eq_dec k x) as [E'|E'];
    try reflexivity; congruence.
Qed.

Lemma partition_sizes (ks : list K) (rows : list A) :
  NoDup ks -> (forall x, In x rows -> In (key x) ks) ->
  list_sum (map (fun k => length (filter (has_key k) rows)) ks) = length rows.
Proof.
  intros Hnd. induction rows as [|x t IH]; intro Hin.
  - simpl. clear Hin Hnd. induction ks as [|k ks IHk]; simpl; auto.
  - transitivity
      (list_sum (map (fun k => (if eq_dec (key x) k then 1 else 0)
                               + length (filter (has_key k) t)) ks)).
    + f_equal. apply map_ext. intro k. simpl. unfold has_key at 1.
      destruct (eq_dec (key x) k); reflexivity.
    + rewrite list_sum_map_plus, indicator_count, IH.
      * rewrite (proj1 (NoDup_count_occ' eq_dec ks) Hnd).
        -- reflexivity.
        -- apply Hin. left. reflexivity.
      * intros y Hy. apply Hin. right. assumption.
Qed.

Lemma group_by_sizes (rows : list A) :
  list_sum (map (fun g => length (snd g)) (group_by eq_dec key rows))
  = length rows.
Proof.
  unfold group_by. rewrite map_map. simpl.
  apply partition_sizes.
  - apply NoDup_nodup.
  - intros x Hx. apply nodup_In, in_map. assumption.
Qed.

Lemma indicator_sum (x : K) (v : Q) (ks : list K) :
  (sum_q (map (fun k => if eq_dec x k then v else 0) ks)
   == inject_Z (Z.of_nat (count_occ eq_dec ks x)) * v)%Q.
Proof.
  induction ks as [|k ks IH]; simpl.
  - unfold sum_q. simpl. ring.
  - rewrite sum_q_cons, IH.
    destruct (eq_dec x k) as [E|E], (eq_dec k x) as [E'|E'];
      try congruence.
    + rewrite Nat2Z.inj_succ. unfold Z.succ. rewrite inject_Z_plus. ring.
    + ring.
Qed.

Lemma partition_sums (f : A -> Q) (ks : list K) (rows : list A) :
  NoDup ks -> (forall x, In x rows -> In (key x) ks) ->
  (sum_q (map (fun k => sum_q (map f (filter (has_key k) rows))) ks)
   == sum_q (map f rows))%Q.
Proof.
  intros Hnd. induction rows as [|x t IH]; intro Hin.
  - clear Hin Hnd. induction ks as [|k ks IHk].
    + reflexivity.
    + cbn [map filter] in *. rewrite sum_q_cons, IHk. unfold sum_q. simpl. ring.
  - change (map f (x :: t)) with (f x :: map f t). rewrite sum_q_cons, <- IH.
    2:{ intros y Hy. apply Hin. right. assumption. }
    rewrite (sum_q_map_ext
               (fun k => sum_q (map f (filter (has_key k) (x :: t))))
               (fun k => (if eq_dec (key x) k then f x else 0)
                         + sum_q (map f (filter (has_key k) t)))%Q).
    + rewrite sum_q_map_plus, indicator_sum.
      rewrite (proj1 (NoDup_count_occ' eq_dec ks) Hnd).
      * simpl. ring.
      * apply Hin. left. reflexivity.
    + intros k _. simpl. unfold has_key at 1.
      destruct (eq_dec (key x) k).
      * simpl. rewrite sum_q_cons. reflexivity.
      * ring.
Qed.

Lemma group_by_sums (f : A -> Q) (rows : list A) :
  (sum_q (map (fun g => sum_q (map f (snd g))) (group_by eq_dec key rows))
   == sum_q (map f rows))%Q.
Proof.
  unfold group_by. rewrite map_map. simpl.
  apply partition_sums.
  - apply NoDup_nodup.
  - intros x Hx. apply nodup_In, in_map. assumption.
Qed.

End GroupPartition.

End AggregateFacts.

Module RankFacts.
Import Sql.

Lemma dense_rank_from_fst {A} (same : A -> A -> bool) (l : list A)
      (prev : A) (r : nat) :
  map fst (dense_rank_from same prev r l) = l.
Proof.
  revert prev r. induction l as [|x t IH]; intros prev r; simpl.
  - reflexivity.
  - rewrite IH. reflexivity.
Qed.

Lemma dense_rank_fst {A} (same : A -> A -> bool) (window : list A) :
  map fst (dense_rank same window) = window.
Proof.
  destruct window as [|x t]; simpl; [reflexivity|].
  rewrite dense_rank_from_fst. reflexivity.
Qed.

Lemma dense_rank_from_head {A} (same : A -> A -> bool) (l : list A)
      (prev : A) (r : nat) (b : A) (rb : nat) :
  nth_error (dense_rank_from same prev r l) 0 = Some (b, rb) ->
  rb = if same prev b then r else S r.
Proof.
  destruct l as [|x t]; simpl; [discriminate|].
  intro H. injection H as <- <-. reflexivity.
Qed.

Lemma dense_rank_from_step {A} (same : A -> A -> bool) (l : list A)
      (prev : A) (r i : nat) (a b : A) (ra rb : nat) :
  nth_error (dense_rank_from same prev r l) i = Some (a, ra) ->
  nth_error (dense_rank_from same prev r l) (S i) = Some (b, rb) ->
  rb = if same a b then ra else S ra.
Proof.
  revert prev r i. induction l as [|x t IH]; intros prev r i; simpl.
  - destruct i; discriminate.
  - destruct i as [|i]; simpl.
    + intros H1 H2. injection H1 as <- <-.
      apply (dense_rank_from_head same t _ _ _ _ H2).
    + apply IH.
Qed.

(** Along a [DENSE_RANK] the first row has rank 1 and the rank of a row is
    the rank of the row before it, plus one when the key changes. *)
Lemma dense_rank_step {A} (same : A -> A -> bool) (window : list A)
      (i : nat) (a b : A) (ra rb : nat) :
  nth_error (dense_rank same window) i = Some (a, ra) ->
  nth_error (dense_rank same window) (S i) = Some (b, rb) ->
  rb = if same a b then ra else S ra.
Proof.
  destruct window as [|x t]; simpl.
  - destruct i; discriminate.
  - destruct i as [|i]; simpl.
    + intros H1 H2. injection H1 as <- <-.
      apply (dense_rank_from_head same t _ _ _ _ H2).
    + apply dense_rank_from_step.
Qed.

Lemma dense_rank_first {A} (same : A -> A -> bool) (window : list A)
      (a : A) (ra : nat) :
  nth_error (dense_rank same window) 0 = Some (a, ra) -> ra = 1.
Proof.
  destruct window as [|x t]; simpl; [discriminate|].
  intro H. injection H as _ <-. reflexivity.
Qed.

Lemma row_number_snd {A} (window : list A) :
  map snd (row_number window) = seq 1 (length window).
Proof.
  unfold row_number. apply SqlFacts.map_snd_combine.
  rewrite length_seq. reflexivity.
Qed.

Lemma row_number_nth {A} (window : list A) (i : nat) (p : A * nat) :
  nth_error (row_number window) i = Some p ->
  nth_error window i = Some (fst p) /\ snd p = S i.
Proof.
  unfold row_number. rewrite TrendFacts.nth_error_combine.
  destruct (nth_error window i) as [a|] eqn:Ha; [|discriminate].
  destruct (nth_error (seq 1 (length window)) i) as [n|] eqn:Hn;
    [|discriminate].
  intro H. injection H as <-. simpl. split; [reflexivity|].
  assert (Hi : i < length window).
  { apply nth_error_Some. rewrite Ha. discriminate. }
  rewrite (nth_error_nth' _ 0) in Hn by (rewrite length_seq; exact Hi).
  rewrite seq_nth in Hn by exact Hi. injection Hn as <-. reflexivity.
Qed.

Lemma filter_length_le {A} (f g : A -> bool) (l : list A) :
  (forall y, In y l -> f y = true -> g y = true) ->
  length (filter f l) <= length (filter g l).
Proof.
  induction l as [|x t IH]; intro H; simpl; [lia|].
  assert (IH' : length (filter f t) <= length (filter g t)).
  { apply IH. intros y Hy. apply H. right. exact Hy. }
  destruct (f x) eqn:Ef.
  - rewrite (H x (or_introl eq_refl) Ef). simpl. lia.
  - destruct (g x); simpl; lia.
Qed.

Lemma filter_length_lt {A} (f g : A -> bool) (l : list A) (x : A) :
  (forall y, In y l -> f y = true -> g y = true) ->
  In x l -> f x = false -> g x = true ->
  length (filter f l) < length (filter g l).
Proof.
  induction l as [|a t IH]; intros H Hx Ef Eg; [destruct Hx|].
  simpl. destruct Hx as [->|Hx].
  - rewrite Ef, Eg. simpl.
    assert (length (filter f t) <= length (filter g t)).
    { apply filter_length_le. intros y Hy. apply H. right. exact Hy. }
    lia.
  - assert (IH' : length (filter f t) < length (filter g t)).
    { apply IH; try assumption. intros y Hy. apply H. right. exact Hy. }
    destruct (f a) eqn:Efa.
    + rewrite (H a (or_introl eq_refl) Efa). simpl. lia.
    + destruct (g a); simpl; lia.
Qed.

End RankFacts.

Module RoundFacts.
Import Sql.

Lemma round_half_away_comp (x y : Q) :
  (x == y)%Q -> round_half_away x = round_half_away y.
Proof.
  intro E. unfold round_half_away.
  assert (Hb : Qle_bool 0 x = Qle_bool 0 y).
  { destruct (Qle_bool 0 x) eqn:Ex, (Qle_bool 0 y) eqn:Ey; try reflexivity.
    - apply Qle_bool_iff in Ex. rewrite E in Ex. apply Qle_bool_iff in Ex.
      congruence.
    - apply Qle_bool_iff in Ey. rewrite <- E in Ey. apply Qle_bool_iff in Ey.
      congruence. }
  rewrite Hb. destruct (Qle_bool 0 y).
  - apply Qfloor_comp. rewrite E. reflexivity.
  - apply Qceiling_comp. rewrite E. reflexivity.
Qed.

Lemma round_comp (x y : Q) (d : nat) : (x == y)%Q -> round x d = round y d.
Proof.
  intro E. unfold round. apply Qred_complete.
  set (m := Z.to_pos (10 ^ Z.of_nat d)).
  rewrite (round_half_away_comp (x * (Z.pos m # 1)) (y * (Z.pos m # 1)));
    [reflexivity|].
  rewrite E. reflexivity.
Qed.

Lemma round_half_away_monotone (x y : Q) :
  (x <= y)%Q -> (round_half_away x <= round_half_away y)%Z.
Proof.
  intro H. unfold round_half_away.
  destruct (Qle_bool 0 x) eqn:Ex, (Qle_bool 0 y) eqn:Ey.
  - apply Qfloor_resp_le. lra.
  - apply Qle_bool_iff in Ex.
    assert (~ (0 <= y)%Q) by (rewrite <- Qle_bool_iff; congruence). lra.
  - assert (Hx : ~ (0 <= x)%Q) by (rewrite <- Qle_bool_iff; congruence).
    apply Qle_bool_iff in Ey.
    transitivity 0%Z.
    + change 0%Z with (Qceiling (inject_Z 0)). apply Qceiling_resp_le.
      change (inject_Z 0) with 0%Q. lra.
    + change 0%Z with (Qfloor (inject_Z 0)). apply Qfloor_resp_le.
      change (inject_Z 0) with 0%Q. lra.
  - apply Qceiling_resp_le. lra.
Qed.

Lemma round_monotone (x y : Q) (d : nat) :
  (x <= y)%Q -> (round x d <= round y d)%Q.
Proof.
  intro H. unfold round. apply Qred_le.
  set (m := Z.to_pos (10 ^ Z.of_nat d)).
  assert (Hm : (round_half_away (x * (Z.pos m # 1))
                <= round_half_away (y * (Z.pos m # 1)))%Z).
  { apply round_half_away_monotone.
    apply Qmult_le_compat_r; [exact H|]. unfold Qle. simpl. lia. }
  unfold Qle. simpl. nia.
Qed.

(** A rate between 0 and 100 stays there when rounded to two places. *)
Lemma round_percent (x : Q) :
  (0 <= x)%Q -> (x <= 100)%Q -> (0 <= round x 2 /\ round x 2 <= 100)%Q.
Proof.
  intros H0 H1. split.
  - change 0%Q with (round 0 2). apply round_monotone. exact H0.
  - change 100%Q with (round 100 2). apply round_monotone. exact H1.
Qed.

End RoundFacts.

(* ================================================================== *)
(** * The top products of api/main.py *)
(* ================================================================== *)

Module ProductFacts.
Import Sql.

Lemma nullable_desc_order {A} (key : A -> option Q) :
  total (fun a b => Main.nullable_desc (key a) (key b))
  /\ transitive (fun a b => Main.nullable_desc (key a) (key b)).
Proof.
  split.
  - intros a b. unfold Main.nullable_desc.
    destruct (key a) as [x|], (key b) as [y|]; auto.
    destruct (Keys.Qle_bool_total x y); auto.
  - intros a b c. unfold Main.nullable_desc.
    destruct (key a) as [x|], (key b) as [y|], (key c) as [z|];
      try discriminate; auto.
    intros H1 H2. apply (Keys.Qle_bool_trans z y x); assumption.
Qed.

Lemma sorted_unmap {A B} (R : B -> B -> Prop) (f : A -> B) (l : list A) :
  StronglySorted R (map f l) ->
  StronglySorted (fun a b => R (f a) (f b)) l.
Proof.
  induction l as [|x t IH]; intro H; simpl in H.
  - constructor.
  - inversion H as [|? ? Ht Hx]; subst. constructor.
    + apply IH. exact Ht.
    + rewrite Forall_forall in *. intros y Hy. apply Hx, in_map. exact Hy.
Qed.

Lemma positive_spec (x : option Q) :
  Main.positive x = true <-> exists v, x = Some v /\ (0 < v)%Q.
Proof.
  unfold Main.positive. split.
  - destruct x as [v|]; [|discriminate]. intro H. exists v. split; [reflexivity|].
    apply negb_true_iff in H.
    destruct (Qlt_le_dec 0 v) as [L|L]; [exact L|].
    apply Qle_bool_iff in L. congruence.
  - intros [v [-> Hv]]. apply negb_true_iff.
    destruct (Qle_bool v 0) eqn:E; [|reflexivity].
    apply Qle_bool_iff in E. lra.
Qed.

Lemma product_window_sorted (db : Database) :
  StronglySorted
    (fun a b => Main.nullable_desc (Main.group_revenue a)
                                   (Main.group_revenue b) = true)
    (Main.product_window db).
Proof.
  unfold Main.product_window.
  destruct (nullable_desc_order
              (@Main.group_revenue (Z * string * string))) as [Ht Hr].
  apply (SqlFacts.order_by_sorted Ht Hr).
Qed.

(** The final [ORDER BY] finds the rows already in its order. *)
Lemma top_products_normal_form (limit_ : nat) (db : Database) :
  Main.get_top_products limit_ db
  = firstn limit_ (map Main.top_product (Main.ranked_products db)).
Proof.
  unfold Main.get_top_products, limit.
  fold (Main.product_window db). fold (Main.ranked_products db).
  change (fun gr : (Z * string * string) * list (Product.t * option Sale.t) * nat
          => _) with Main.top_product.
  f_equal. apply SqlFacts.order_by_sorted_id.
  apply (@SqlFacts.sorted_map _ _
           (fun p q => Main.nullable_desc (Main.group_revenue (fst p))
                                          (Main.group_revenue (fst q)) = true)).
  - intros a b H. exact H.
  - apply (sorted_unmap
             (fun a b => Main.nullable_desc (Main.group_revenue a)
                                            (Main.group_revenue b) = true) fst).
    unfold Main.ranked_products. rewrite RankFacts.dense_rank_fst.
    apply product_window_sorted.
Qed.

Lemma product_window_In (db : Database)
      (g : (Z * string * string) * list (Product.t * option Sale.t)) :
  In g (Main.product_window db) ->
  In g (Main.product_groups db)
  /\ exists v, Main.group_revenue g = Some v /\ (0 < v)%Q.
Proof.
  unfold Main.product_window. rewrite SqlFacts.order_by_In, filter_In.
  intros [Hg Hp]. split; [exact Hg|]. apply positive_spec. exact Hp.
Qed.

Lemma ranked_products_nth (db : Database) (i : nat)
      (g : (Z * string * string) * list (Product.t * option Sale.t))
      (r : nat) :
  nth_error (Main.ranked_products db) i = Some (g, r) ->
  nth_error (Main.product_window db) i = Some g.
Proof.
  intro H.
  rewrite <- (RankFacts.dense_rank_fst
                (fun a b => Main.nullable_same (Main.group_revenue a)
                                               (Main.group_revenue b))
                (Main.product_window db)).
  rewrite nth_error_map. fold (Main.ranked_products db). rewrite H. reflexivity.
Qed.

Lemma ranked_products_In (db : Database)
      (g : (Z * string * string) * list (Product.t * option Sale.t))
      (r : nat) :
  In (g, r) (Main.ranked_products db) -> In g (Main.product_window db).
Proof.
  intro H. apply In_nth_error in H. destruct H as [i Hi].
  apply ranked_products_nth in Hi. eapply nth_error_In. exact Hi.
Qed.

Lemma sum_agg_some (l : list Q) (v : Q) : sum_agg l = Some v -> l <> [].
Proof. destruct l; [discriminate|]. intros _. discriminate. Qed.

Lemma product_group_product (db : Database)
      (g : (Z * string * string) * list (Product.t * option Sale.t)) :
  In g (Main.product_groups db) ->
  exists p, In p (products db)
            /\ fst g = (Product.product_id p, Product.product_name p,
                        Product.category p).
Proof.
  destruct g as [k rows]. intro H.
  apply SqlFacts.group_by_In in H. destruct H as [[x [Hx Hk]] _].
  destruct x as [p os]. exists p. split.
  - apply (SqlFacts.left_join_In_left _ _ _ _ _ Hx).
  - simpl in *. symmetry. exact Hk.
Qed.

Lemma nth_error_firstn_Some {A} (n i : nat) (l : list A) (x : A) :
  nth_error (firstn n l) i = Some x -> nth_error l i = Some x /\ i < n.
Proof.
  rewrite nth_error_firstn. destruct (i <? n) eqn:E; [|discriminate].
  intro H. split; [exact H|]. apply Nat.ltb_lt. exact E.
Qed.

End ProductFacts.

Import ProductFacts.

(** X1. Every product the top-products endpoint returns has a positive
    revenue from at least one completed sale and is a row of [products];
    the answer has at most [limit] rows. *)
Theorem X1_top_products_have_sold
        (limit_ : nat) (db : Database) (out : Main.TopProduct.t) :
  In out (Main.get_top_products limit_ db) ->
  (exists v, Main.TopProduct.revenue out = Some v /\ (0 < v)%Q)
  /\ 1 <= Main.TopProduct.times_sold out
  /\ (exists p, In p (products db)
                /\ Product.product_name p = Main.TopProduct.product_name out
                /\ Product.category p = Main.TopProduct.category out)
  /\ length (Main.get_top_products limit_ db) <= limit_.
Proof.
  intro H.
  assert (Hlen : length (Main.get_top_products limit_ db) <= limit_).
  { rewrite top_products_normal_form. apply firstn_le_length. }
  rewrite top_products_normal_form in H.
  apply (SqlFacts.limit_In limit_) in H.
  apply in_map_iff in H. destruct H as [[g r] [<- Hgr]].
  apply ranked_products_In in Hgr.
  apply product_window_In in Hgr. destruct Hgr as [Hg [v [Hv Hpos]]].
  split; [|split; [|split]].
  - exists v. split; [exact Hv|exact Hpos].
  - simpl. unfold Main.group_revenue in Hv. apply sum_agg_some in Hv.
    destruct (Sql.matched (snd g)); [simpl in Hv; congruence|]. simpl. lia.
  - destruct (product_group_product db g Hg) as [p [Hp Hk]].
    exists p. split; [exact Hp|]. simpl. rewrite Hk. simpl. split; reflexivity.
  - exact Hlen.
Qed.

Lemma X1_witness :
  exists out,
    nth_error (Main.get_top_products 10 Samples.products_db) 0 = Some out
    /\ 1 <= Main.TopProduct.times_sold out.
Proof.
  eexists. split; [reflexivity|].
  apply (X1_top_products_have_sold 10 Samples.products_db).
  left. reflexivity.
Defined.

(** X2. In the answer of the top-products endpoint the revenue never
    goes up from a row to the next; the next row has the same rank when
    its revenue is the same and the rank plus one when it is lower. *)
Theorem X2_top_products_dense_rank
        (limit_ : nat) (db : Database) (i : nat) (a b : Main.TopProduct.t) :
  nth_error (Main.get_top_products limit_ db) i = Some a ->
  nth_error (Main.get_top_products limit_ db) (S i) = Some b ->
  exists va vb,
    Main.TopProduct.revenue a = Some va
    /\ Main.TopProduct.revenue b = Some vb
    /\ (vb <= va)%Q
    /\ ((va == vb)%Q -> Main.TopProduct.rank b = Main.TopProduct.rank a)
    /\ ((vb < va)%Q -> Main.TopProduct.rank b = S (Main.TopProduct.rank a)).
Proof.
  rewrite top_products_normal_form. intros Ha Hb.
  apply nth_error_firstn_Some in Ha. destruct Ha as [Ha _].
  apply nth_error_firstn_Some in Hb. destruct Hb as [Hb _].
  rewrite nth_error_map in Ha, Hb.
  destruct (nth_error (Main.ranked_products db) i) as [[ga ra]|] eqn:Ea;
    [|discriminate].
  destruct (nth_error (Main.ranked_products db) (S i)) as [[gb rb]|] eqn:Eb;
    [|discriminate].
  simpl in Ha, Hb. injection Ha as <-. injection Hb as <-.
  assert (Hwa : In ga (Main.product_window db)).
  { apply (ranked_products_In db ga ra). eapply nth_error_In. exact Ea. }
  assert (Hwb : In gb (Main.product_window db)).
  { apply (ranked_products_In db gb rb). eapply nth_error_In. exact Eb. }
  destruct (product_window_In db ga Hwa) as [_ [va [Hva _]]].
  destruct (product_window_In db gb Hwb) as [_ [vb [Hvb _]]].
  assert (Hstep : rb = if Main.nullable_same (Main.group_revenue ga)
                                             (Main.group_revenue gb)
                       then ra else S ra).
  { unfold Main.ranked_products in Ea, Eb.
    apply (RankFacts.dense_rank_step _ _ _ _ _ _ _ Ea Eb). }
  rewrite Hva, Hvb in Hstep. simpl in Hstep.
  assert (Hle : (vb <= va)%Q).
  { pose proof (product_window_sorted db) as Hs.
    pose proof (ranked_products_nth db i ga ra Ea) as Hwi.
    pose proof (ranked_products_nth db (S i) gb rb Eb) as Hwj.
    apply nth_error_split in Hwi. destruct Hwi as [l1 [l2 [El Hl]]].
    rewrite El in Hs, Hwj.
    apply SalaryFacts.sorted_middle in Hs. destruct Hs as [_ Hs].
    rewrite nth_error_app2 in Hwj by lia.
    replace (S i - length l1) with 1 in Hwj by lia.
    simpl in Hwj. destruct l2 as [|g2 l2]; [discriminate|].
    simpl in Hwj. injection Hwj as ->.
    inversion Hs as [|? ? Hab _]; subst.
    rewrite Hva, Hvb in Hab. simpl in Hab.
    apply Qle_bool_iff. exact Hab. }
  exists va, vb. simpl. split; [exact Hva|]. split; [exact Hvb|].
  split; [exact Hle|]. split.
  - intro E. apply Qeq_bool_iff in E. rewrite E in Hstep. exact Hstep.
  - intro L. destruct (Qeq_bool va vb) eqn:E; [|exact Hstep].
    apply Qeq_bool_iff in E. lra.
Qed.

Lemma X2_witness :
  exists a b,
    nth_error (Main.get_top_products 10 Samples.products_db) 1 = Some a
    /\ nth_error (Main.get_top_products 10 Samples.products_db) 2 = Some b
    /\ Main.TopProduct.rank a = 1
    /\ Main.TopProduct.rank b = 2.
Proof.
  destruct (X2_top_products_dense_rank 10 Samples.products_db 1
              _ _ eq_refl eq_refl) as [va [vb [Ha [Hb [_ [_ Hlt]]]]]].
  eexists. eexists. split; [reflexivity|]. split; [reflexivity|].
  split; [reflexivity|].
  apply Hlt. injection Ha as <-. injection Hb as <-. reflexivity.
Defined.

(** X3. The first row of the top-products answer has rank 1, so the "Top
    Product Rank" figure of the dashboard overview is 1 whenever it shows. *)
Theorem X3_top_product_rank_is_one (limit_ : nat) (db : Database) :
  (forall first, nth_error (Main.get_top_products limit_ db) 0 = Some first ->
                 Main.TopProduct.rank first = 1)
  /\ (Dashboard.top_product_rank (Main.get_top_products limit_ db) = None
      \/ Dashboard.top_product_rank (Main.get_top_products limit_ db) = Some 1).
Proof.
  assert (H : forall first,
             nth_error (Main.get_top_products limit_ db) 0 = Some first ->
             Main.TopProduct.rank first = 1).
  { intros first Hf. rewrite top_products_normal_form in Hf.
    apply nth_error_firstn_Some in Hf. destruct Hf as [Hf _].
    rewrite nth_error_map in Hf.
    destruct (nth_error (Main.ranked_products db) 0) as [[g r]|] eqn:E;
      [|discriminate].
    simpl in Hf. injection Hf as <-. simpl.
    unfold Main.ranked_products in E.
    apply (RankFacts.dense_rank_first _ _ _ _ E). }
  split; [exact H|].
  unfold Dashboard.top_product_rank.
  destruct (Main.get_top_products limit_ db) as [|first rest]; [left; reflexivity|].
  right. f_equal. apply H. reflexivity.
Qed.

(* ================================================================== *)
(** * Months, growth and moving average *)
(* ================================================================== *)

Module MonthFacts.
Import Sql.

Lemma sales_by_month_In (db : Database) (m : Main.MonthlySales.t) :
  In m (Main.sales_by_month db) ->
  exists g,
    In g (group_by date_eq_dec
                   (fun s => date_trunc_month (Sale.sale_date s))
                   (filter Sale.completed (sales db)))
    /\ Main.MonthlySales.month m = fst g
    /\ Main.MonthlySales.transaction_count m = length (snd g)
    /\ Main.MonthlySales.revenue m = sum_q (map Sale.total_amount (snd g)).
Proof.
  unfold Main.sales_by_month. rewrite in_map_iff.
  intros [g [<- Hg]]. exists g. simpl. auto.
Qed.

Lemma lag_nth_inv {A B} (col : A -> B) (window : list A) (i : nat)
      (p : A * option B) :
  nth_error (lag col window) i = Some p ->
  nth_error window i = Some (fst p) /\ snd p = lagged col window i.
Proof.
  intro H.
  assert (Hw : exists m, nth_error window i = Some m).
  { unfold lag in H. rewrite TrendFacts.nth_error_combine in H.
    destruct (nth_error window i) as [m|]; [|discriminate]. exists m.
    reflexivity. }
  destruct Hw as [m Hm].
  rewrite (TrendFacts.lag_nth col window i Hm) in H.
  injection H as <-. simpl. split; [exact Hm|reflexivity].
Qed.

Lemma main_trend_nth (months : nat) (db : Database) (i : nat)
      (row : Main.SalesTrend.t) :
  nth_error (Main.get_monthly_sales_trend months db) i = Some row ->
  exists m,
    nth_error (order_by Main.month_desc (Main.sales_by_month db)) i = Some m
    /\ row = Main.sales_trend
               (m, lagged Main.MonthlySales.revenue
                          (order_by Main.month_desc (Main.sales_by_month db))
                          i).
Proof.
  rewrite TrendFacts.main_trend_normal_form. unfold limit. intro H.
  set (window := order_by Main.month_desc (Main.sales_by_month db)) in *.
  rewrite nth_error_firstn in H. destruct (i <? months); [|discriminate].
  rewrite nth_error_map in H.
  destruct (nth_error (lag Main.MonthlySales.revenue window) i) as [p|] eqn:E;
    [|discriminate].
  simpl in H. injection H as <-.
  destruct (lag_nth_inv _ _ _ _ E) as [Hm Hl]. exists (fst p).
  split; [exact Hm|]. rewrite <- Hl. destruct p; reflexivity.
Qed.

Lemma month_desc_window_sorted (db : Database) :
  StronglySorted
    (fun a b => (day_number (Main.MonthlySales.month b)
                 <= day_number (Main.MonthlySales.month a))%Z)
    (order_by Main.month_desc (Main.sales_by_month db)).
Proof.
  destruct TrendFacts.month_desc_order as [Htot Htr].
  eapply SqlFacts.sorted_impl;
    [|apply (SqlFacts.order_by_sorted Htot Htr (Main.sales_by_month db))].
  intros a b H. unfold Main.month_desc, date_leb in H.
  apply Z.leb_le. exact H.
Qed.

Lemma sorted_adjacent {A} (R : A -> A -> Prop) (l : list A) (i : nat)
      (a b : A) :
  StronglySorted R l ->
  nth_error l i = Some a -> nth_error l (S i) = Some b -> R a b.
Proof.
  intros Hs Ha Hb.
  apply nth_error_split in Ha. destruct Ha as [l1 [l2 [El Hl]]].
  rewrite El in Hs, Hb.
  apply SalaryFacts.sorted_middle in Hs. destruct Hs as [_ Hs].
  rewrite nth_error_app2 in Hb by lia.
  replace (S i - length l1) with 1 in Hb by lia.
  simpl in Hb. destruct l2 as [|x l2]; [discriminate|].
  simpl in Hb. injection Hb as ->.
  inversion Hs; assumption.
Qed.

Lemma run_trend_rows_nth_inv (db : Database) (i : nat)
      (row : RunAnalytics.TrendRow.t) :
  nth_error (RunAnalytics.trend_rows db) i = Some row ->
  exists m,
    nth_error (RunAnalytics.trend_window db) i = Some m
    /\ row = RunAnalytics.trend_row
               m
               (lagged Main.MonthlySales.revenue
                       (RunAnalytics.trend_window db) i)
               (frame 2 (RunAnalytics.trend_window db) i).
Proof.
  intro H.
  assert (Hi : i < length (RunAnalytics.trend_window db)).
  { rewrite <- TrendFacts.run_trend_rows_length. apply nth_error_Some.
    rewrite H. discriminate. }
  destruct (nth_error (RunAnalytics.trend_window db) i) as [m|] eqn:Em.
  - exists m. split; [reflexivity|].
    rewrite (TrendFacts.run_trend_rows_nth db i Em) in H.
    injection H as <-. reflexivity.
  - apply nth_error_None in Em. lia.
Qed.

Lemma run_trend_revenues (db : Database) :
  map RunAnalytics.TrendRow.revenue (RunAnalytics.trend_rows db)
  = map Main.MonthlySales.revenue (RunAnalytics.trend_window db).
Proof.
  apply nth_error_ext. intro i. rewrite !nth_error_map.
  destruct (nth_error (RunAnalytics.trend_window db) i) as [m|] eqn:Em.
  - rewrite (TrendFacts.run_trend_rows_nth db i Em). reflexivity.
  - assert (E : nth_error (RunAnalytics.trend_rows db) i = None).
    { apply nth_error_None. rewrite TrendFacts.run_trend_rows_length.
      apply nth_error_None. exact Em. }
    rewrite E. reflexivity.
Qed.

Lemma frame_map {A B} (f : A -> B) (w : nat) (window : list A) (i : nat) :
  map f (frame w window i) = frame w (map f window) i.
Proof.
  unfold frame. rewrite <- skipn_map, <- firstn_map. reflexivity.
Qed.

End MonthFacts.

Import MonthFacts.

(** X4. The monthly totals split the completed sales: every month that
    appears is the first day of a month, appears once and has at least one
    transaction; the transaction counts add up to the number of completed
    sales and the revenues to their total amount. *)
Theorem X4_months_partition_completed_sales (db : Database) :
  NoDup (map Main.MonthlySales.month (Main.sales_by_month db))
  /\ (forall m, In m (Main.sales_by_month db) ->
        1 <= Main.MonthlySales.transaction_count m
        /\ Sql.day (Main.MonthlySales.month m) = 1%Z)
  /\ list_sum (map Main.MonthlySales.transaction_count
                   (Main.sales_by_month db))
     = length (filter Sale.completed (sales db))
  /\ (Sql.sum_q (map Main.MonthlySales.revenue (Main.sales_by_month db))
      == Sql.sum_q (map Sale.total_amount
                        (filter Sale.completed (sales db))))%Q.
Proof.
  split; [|split; [|split]].
  - unfold Main.sales_by_month. rewrite map_map. simpl.
    apply AggregateFacts.group_by_keys_NoDup.
  - intros m Hm. apply sales_by_month_In in Hm.
    destruct Hm as [[k g] [Hg [Hk [Hc _]]]]. simpl in *.
    rewrite Hc, Hk. split.
    + pose proof (AggregateFacts.group_by_nonempty _ _ _ _ _ _ _ Hg) as Hne.
      destruct g; [congruence|]. simpl. lia.
    + apply SqlFacts.group_by_In in Hg. destruct Hg as [[s [_ Hs]] _].
      rewrite <- Hs. reflexivity.
  - unfold Main.sales_by_month. rewrite map_map. simpl.
    apply AggregateFacts.group_by_sizes.
  - unfold Main.sales_by_month. rewrite map_map. simpl.
    apply (AggregateFacts.group_by_sums _ _ _ _ Sale.total_amount).
Qed.

(** X5. The monthly endpoint with a shorter horizon answers with the
    first rows of its answer for a longer one, and the number of rows is
    the horizon or the number of months with completed sales, whichever
    is smaller. *)
Theorem X5_monthly_trend_horizons (n m : nat) (db : Database) :
  n <= m ->
  Main.get_monthly_sales_trend n db
  = firstn n (Main.get_monthly_sales_trend m db)
  /\ length (Main.get_monthly_sales_trend n db)
     = Nat.min n (length (Main.sales_by_month db)).
Proof.
  intro H. rewrite !TrendFacts.main_trend_normal_form. unfold Sql.limit.
  split.
  - rewrite firstn_firstn. f_equal. lia.
  - rewrite length_firstn, length_map. unfold Sql.lag.
    rewrite length_combine. simpl.
    rewrite length_map, SqlFacts.order_by_length. lia.
Qed.

Lemma X5_witness :
  Main.get_monthly_sales_trend 1 Samples.two_months_db
  = firstn 1 (Main.get_monthly_sales_trend 12 Samples.two_months_db).
Proof.
  apply (X5_monthly_trend_horizons 1 12 Samples.two_months_db). lia.
Defined.

(** X6. In the answer of the monthly endpoint the first row, the latest
    month, has no growth rate, and the growth rate of every other row is
    computed against the row above it, a month that is not earlier. *)
Theorem X6_main_growth_against_row_above (months : nat) (db : Database) :
  (forall a, nth_error (Main.get_monthly_sales_trend months db) 0 = Some a ->
             Main.SalesTrend.growth_rate a = None)
  /\ (forall i a b,
         nth_error (Main.get_monthly_sales_trend months db) i = Some a ->
         nth_error (Main.get_monthly_sales_trend months db) (S i) = Some b ->
         (Sql.day_number (Main.SalesTrend.month b)
          <= Sql.day_number (Main.SalesTrend.month a))%Z
         /\ Main.SalesTrend.growth_rate b
            = if Qeq_bool (Main.SalesTrend.revenue a) 0 then None
              else Some (Sql.round
                           (((Main.SalesTrend.revenue b
                              - Main.SalesTrend.revenue a)
                             / Main.SalesTrend.revenue a) * 100) 2)).
Proof.
  split.
  - intros a Ha. apply main_trend_nth in Ha. destruct Ha as [m [_ ->]].
    reflexivity.
  - intros i a b Ha Hb.
    apply main_trend_nth in Ha. destruct Ha as [ma [Hma ->]].
    apply main_trend_nth in Hb. destruct Hb as [mb [Hmb ->]].
    split.
    + simpl.
      apply (sorted_adjacent _ _ i ma mb (month_desc_window_sorted db) Hma Hmb).
    + unfold Main.sales_trend. simpl. rewrite Hma. simpl.
      unfold Sql.nullif_zero.
      destruct (Qeq_bool (Main.MonthlySales.revenue ma) 0); reflexivity.
Qed.

(** X7. In query 2 of run_analytics.py the earliest month has neither a
    previous revenue nor a growth rate; every other month takes both from
    the month before it in the whole history, and the growth rate is NULL
    when that revenue is zero.  The twelve rows printed are rows of that
    history. *)
Theorem X7_run_growth_against_previous_month (db : Database) :
  (forall a, nth_error (RunAnalytics.trend_rows db) 0 = Some a ->
             RunAnalytics.TrendRow.prev_month a = None
             /\ RunAnalytics.TrendRow.growth_rate a = None)
  /\ (forall i a b,
         nth_error (RunAnalytics.trend_rows db) i = Some a ->
         nth_error (RunAnalytics.trend_rows db) (S i) = Some b ->
         (Sql.day_number (RunAnalytics.TrendRow.month a)
          <= Sql.day_number (RunAnalytics.TrendRow.month b))%Z
         /\ RunAnalytics.TrendRow.prev_month b
            = Some (RunAnalytics.TrendRow.revenue a)
         /\ RunAnalytics.TrendRow.growth_rate b
            = if Qeq_bool (RunAnalytics.TrendRow.revenue a) 0 then None
              else Some (Sql.round
                           (((RunAnalytics.TrendRow.revenue b
                              - RunAnalytics.TrendRow.revenue a)
                             / RunAnalytics.TrendRow.revenue a) * 100) 2))
  /\ (forall row, In row (RunAnalytics.monthly_sales_trend db) ->
                  In row (RunAnalytics.trend_rows db))
  /\ length (RunAnalytics.monthly_sales_trend db) <= 12.
Proof.
  split; [|split; [|split]].
  - intros a Ha. apply run_trend_rows_nth_inv in Ha.
    destruct Ha as [m [_ ->]]. split; reflexivity.
  - intros i a b Ha Hb.
    apply run_trend_rows_nth_inv in Ha. destruct Ha as [ma [Hma ->]].
    apply run_trend_rows_nth_inv in Hb. destruct Hb as [mb [Hmb ->]].
    split; [|split].
    + simpl.
      apply (sorted_adjacent _ _ i ma mb
                             (TrendFacts.run_trend_window_sorted db) Hma Hmb).
    + simpl. rewrite Hma. reflexivity.
    + simpl. rewrite Hma. simpl. unfold Sql.nullif_zero.
      destruct (Qeq_bool (Main.MonthlySales.revenue ma) 0); reflexivity.
  - intros row H. unfold RunAnalytics.monthly_sales_trend in H.
    apply SqlFacts.limit_In in H. apply SqlFacts.order_by_In in H. exact H.
  - unfold RunAnalytics.monthly_sales_trend, Sql.limit.
    apply firstn_le_length.
Qed.

(** X8. The three-month average of query 2 is the mean revenue of the
    month and of the two months before it in the history, of fewer months
    at its start: the frame of month [i] has [min (i + 1) 3] rows, so the
    average is never NULL. *)
Theorem X8_three_month_average
        (db : Database) (i : nat) (row : RunAnalytics.TrendRow.t) :
  nth_error (RunAnalytics.trend_rows db) i = Some row ->
  let months :=
    skipn (i - 2) (firstn (S i) (RunAnalytics.trend_rows db)) in
  length months = Nat.min (S i) 3
  /\ RunAnalytics.TrendRow.three_month_avg row
     = Some (Sql.sum_q (map RunAnalytics.TrendRow.revenue months)
             / inject_Z (Z.of_nat (length months)))%Q.
Proof.
  intros H months.
  assert (Hi : i < length (RunAnalytics.trend_rows db)).
  { apply nth_error_Some. rewrite H. discriminate. }
  assert (Hlen : length months = Nat.min (S i) 3).
  { unfold months. rewrite length_skipn, length_firstn. lia. }
  split; [exact Hlen|].
  apply run_trend_rows_nth_inv in H. destruct H as [m [Hm ->]].
  simpl. rewrite frame_map, <- run_trend_revenues, <- frame_map.
  unfold Sql.frame. fold months.
  unfold Sql.avg_agg. rewrite length_map.
  destruct (map RunAnalytics.TrendRow.revenue months) eqn:E.
  - apply (f_equal (@length Q)) in E. rewrite length_map, Hlen in E.
    simpl in E. lia.
  - reflexivity.
Qed.

Lemma X8_witness :
  exists row,
    nth_error (RunAnalytics.trend_rows Samples.three_months_db) 2 = Some row
    /\ length (skipn (2 - 2)
                     (firstn 3 (RunAnalytics.trend_rows
                                  Samples.three_months_db)))
       = Nat.min 3 3.
Proof.
  eexists. split; [reflexivity|].
  exact (proj1 (X8_three_month_average Samples.three_months_db 2 _ eq_refl)).
Defined.

(* ================================================================== *)
(** * The scored customers *)
(* ================================================================== *)

Module CohortFacts.
Import Sql.

Lemma ntile_over_range {A} (k : nat) (leb : A -> A -> bool) (rows : list A)
      (p : A * nat) :
  0 < k -> In p (ntile_over k leb rows) -> 1 <= snd p <= k.
Proof.
  intros Hk H.
  apply (@SqlFacts.ntile_numbers_range k (length (order_by leb rows)) Hk).
  rewrite <- (@SqlFacts.ntile_snd _ k (order_by leb rows) Hk).
  apply in_map. exact H.
Qed.

Lemma main_scores_range (today : date) (db : Database)
      (x : Main.RfmScores.t) :
  In x (Main.rfm_scores today db) ->
  1 <= Main.RfmScores.r_score x <= 5
  /\ 1 <= Main.RfmScores.f_score x <= 5
  /\ 1 <= Main.RfmScores.m_score x <= 5.
Proof.
  intro H. apply RfmFacts.main_rfm_scores_In in H.
  destruct H as [Hr [Hf Hm]].
  split; [|split].
  - apply (ntile_over_range 5 _ _ _ RfmFacts.five_pos Hr).
  - apply (ntile_over_range 5 _ _ _ RfmFacts.five_pos Hf).
  - apply (ntile_over_range 5 _ _ _ RfmFacts.five_pos Hm).
Qed.

Lemma main_metrics_scored (today : date) (db : Database)
      (c : Main.CustomerMetrics.t) :
  In c (Main.customer_metrics today db) ->
  exists x, In x (Main.rfm_scores today db) /\ Main.RfmScores.metrics x = c.
Proof.
  intro H.
  destruct (@SqlFacts.ntile_over_has_row _ 5 Main.recency_asc
              (Main.customer_metrics today db) c RfmFacts.five_pos H)
    as [r Hr].
  fold (Main.with_r_score today db) in Hr.
  destruct (@SqlFacts.ntile_over_has_row
              _ 5 (fun a b => Main.frequency_desc (fst a) (fst b))
              (Main.with_r_score today db) (c, r) RfmFacts.five_pos Hr)
    as [f Hf].
  fold (Main.with_f_score today db) in Hf.
  destruct (@SqlFacts.ntile_over_has_row
              _ 5 (fun a b => Main.monetary_desc (fst (fst a)) (fst (fst b)))
              (Main.with_f_score today db) (c, r, f) RfmFacts.five_pos Hf)
    as [m Hm].
  fold (Main.with_m_score today db) in Hm.
  exists (Main.RfmScores.Make c r f m). split; [|reflexivity].
  unfold Main.rfm_scores. apply in_map_iff.
  exists (c, r, f, m). split; [reflexivity|exact Hm].
Qed.

Lemma purchaser_has_metrics (today : date) (db : Database)
      (c : Customer.t) (s : Sale.t) :
  In c (customers db) -> In s (sales db) ->
  Sale.completed s = true ->
  Sale.customer_id s = Customer.customer_id c ->
  exists m,
    In m (Main.customer_metrics today db)
    /\ Main.CustomerMetrics.customer_id m = Customer.customer_id c
    /\ Main.CustomerMetrics.customer_name m
       = full_name (Customer.first_name c) (Customer.last_name c).
Proof.
  intros Hc Hs Hcomp Hid.
  assert (Hrow : In (c, Some s) (Main.customer_sales db)).
  { unfold Main.customer_sales. apply SqlFacts.left_join_In.
    split; [exact Hc|]. split; [exact Hs|].
    apply andb_true_iff. split; [apply Z.eqb_eq; congruence|exact Hcomp]. }
  set (key := fun r : Customer.t * option Sale.t =>
                (Customer.customer_id (fst r),
                 full_name (Customer.first_name (fst r))
                           (Customer.last_name (fst r)))).
  destruct (SqlFacts.group_by_covers Main.customer_key_eq_dec key
              (Main.customer_sales db) (c, Some s) Hrow) as [g Hg].
  fold (Main.customer_groups db) in Hg.
  assert (Hin : In (c, Some s) g).
  { apply (proj2 (SqlFacts.group_by_In _ _ _ _ _ Hg)). split; [exact Hrow|].
    reflexivity. }
  assert (Hm : In s (matched g)).
  { apply SqlFacts.matched_In. exists c. exact Hin. }
  eexists. split.
  - unfold Main.customer_metrics. apply in_map. apply filter_In.
    split; [exact Hg|]. simpl. apply Nat.ltb_lt.
    destruct (matched g); [destruct Hm|simpl; lia].
  - simpl. split; reflexivity.
Qed.

Lemma run_recency_known (today : date) (db : Database)
      (c : RunAnalytics.CustomerMetrics.t) :
  In c (RunAnalytics.customer_metrics today db) ->
  exists days, RunAnalytics.CustomerMetrics.recency_days c = Some days.
Proof.
  unfold RunAnalytics.customer_metrics. rewrite in_map_iff.
  intros [g [<- Hg]]. apply filter_In in Hg. destruct Hg as [_ Hh].
  simpl. apply Nat.ltb_lt in Hh. unfold RunAnalytics.recency.
  assert (Hd : map Sale.sale_date (matched (snd g)) <> []).
  { destruct (matched (snd g)); [simpl in Hh; lia|discriminate]. }
  destruct (SqlFacts.max_date_spec Hd) as [d [-> _]].
  eexists. reflexivity.
Qed.

Lemma run_scored_metrics (today : date) (db : Database)
      (x : RunAnalytics.RfmScores.t) :
  In x (RunAnalytics.rfm_scores today db) ->
  In (RunAnalytics.RfmScores.metrics x)
     (RunAnalytics.customer_metrics today db).
Proof.
  intro H. apply RfmFacts.run_rfm_scores_In in H. destruct H as [H _].
  apply (@SqlFacts.ntile_over_In_row _ 5 _ _ _ RfmFacts.five_pos H).
Qed.

End CohortFacts.

(** X9. In the endpoint of api/main.py the scores follow the ascending
    ranks: of two scored customers the one who bought more recently, more
    often or for more never has the higher recency, frequency or monetary
    score.  Every score lies between 1 and 5. *)
Theorem X9_main_scores_ascend_with_rank
        (today : Sql.date) (db : Database) (x y : Main.RfmScores.t) :
  In x (Main.rfm_scores today db) -> In y (Main.rfm_scores today db) ->
  ((Main.CustomerMetrics.recency_days (Main.RfmScores.metrics x)
    < Main.CustomerMetrics.recency_days (Main.RfmScores.metrics y))%Z ->
   Main.RfmScores.r_score x <= Main.RfmScores.r_score y)
  /\ (Main.CustomerMetrics.frequency (Main.RfmScores.metrics y)
      < Main.CustomerMetrics.frequency (Main.RfmScores.metrics x) ->
      Main.RfmScores.f_score x <= Main.RfmScores.f_score y)
  /\ ((Main.CustomerMetrics.monetary_value (Main.RfmScores.metrics y)
       < Main.CustomerMetrics.monetary_value (Main.RfmScores.metrics x))%Q ->
      Main.RfmScores.m_score x <= Main.RfmScores.m_score y)
  /\ (1 <= Main.RfmScores.r_score x <= 5
      /\ 1 <= Main.RfmScores.f_score x <= 5
      /\ 1 <= Main.RfmScores.m_score x <= 5).
Proof.
  intros Hx Hy. split; [|split; [|split]].
  - apply (RfmFacts.main_r_score_order today db x y Hx Hy).
  - apply (RfmFacts.main_f_score_order today db x y Hx Hy).
  - apply (RfmFacts.main_m_score_order today db x y Hx Hy).
  - apply (CohortFacts.main_scores_range today db x Hx).
Qed.

Lemma X9_witness :
  Main.RfmScores.r_score (Samples.main_scores 1 "Ann A" 1 5 2500 1)
  <= Main.RfmScores.r_score (Samples.main_scores 5 "Eve E" 182 1 100 5).
Proof.
  assert (Hx : In (Samples.main_scores 1 "Ann A" 1 5 2500 1)
                  (Main.rfm_scores Samples.rfm_today Samples.rfm_db)).
  { vm_compute. left. reflexivity. }
  assert (Hy : In (Samples.main_scores 5 "Eve E" 182 1 100 5)
                  (Main.rfm_scores Samples.rfm_today Samples.rfm_db)).
  { vm_compute. do 4 right. left. reflexivity. }
  apply (proj1 (X9_main_scores_ascend_with_rank
                  Samples.rfm_today Samples.rfm_db _ _ Hx Hy)).
  vm_compute. reflexivity.
Defined.


(** X10. In query 3 of run_analytics.py the scores follow the descending
    ranks: of two scored customers the one who bought more recently, more
    often or for more never has the lower score; the recency of a scored
    customer is never NULL. *)
Theorem X10_run_scores_descend_with_rank
        (today : Sql.date) (db : Database) (x y : RunAnalytics.RfmScores.t) :
  In x (RunAnalytics.rfm_scores today db) ->
  In y (RunAnalytics.rfm_scores today db) ->
  exists rx ry,
    RunAnalytics.CustomerMetrics.recency_days (RunAnalytics.RfmScores.metrics x)
    = Some rx
    /\ RunAnalytics.CustomerMetrics.recency_days
         (RunAnalytics.RfmScores.metrics y) = Some ry
    /\ ((rx < ry)%Z ->
        RunAnalytics.RfmScores.r_score y <= RunAnalytics.RfmScores.r_score x)
    /\ (RunAnalytics.CustomerMetrics.frequency (RunAnalytics.RfmScores.metrics y)
        < RunAnalytics.CustomerMetrics.frequency
            (RunAnalytics.RfmScores.metrics x) ->
        RunAnalytics.RfmScores.f_score y <= RunAnalytics.RfmScores.f_score x)
    /\ ((RunAnalytics.CustomerMetrics.monetary_value
           (RunAnalytics.RfmScores.metrics y)
         < RunAnalytics.CustomerMetrics.monetary_value
             (RunAnalytics.RfmScores.metrics x))%Q ->
        RunAnalytics.RfmScores.m_score y <= RunAnalytics.RfmScores.m_score x).
Proof.
  intros Hx Hy.
  destruct (CohortFacts.run_recency_known
              today db _ (CohortFacts.run_scored_metrics today db x Hx))
    as [rx Hrx].
  destruct (CohortFacts.run_recency_known
              today db _ (CohortFacts.run_scored_metrics today db y Hy))
    as [ry Hry].
  exists rx, ry. split; [exact Hrx|]. split; [exact Hry|].
  split; [|split].
  - intro Hlt.
    apply (RfmFacts.run_r_score_order today db x y Hx Hy Hrx Hry Hlt).
  - apply (RfmFacts.run_f_score_order today db x y Hx Hy).
  - apply (RfmFacts.run_m_score_order today db x y Hx Hy).
Qed.

Lemma X10_witness :
  RunAnalytics.RfmScores.f_score (Samples.run_scores 5 "Eve E" 182 1 100 1)
  <= RunAnalytics.RfmScores.f_score (Samples.run_scores 1 "Ann A" 1 5 2500 5).
Proof.
  assert (Hx : In (Samples.run_scores 1 "Ann A" 1 5 2500 5)
                  (RunAnalytics.rfm_scores Samples.rfm_today Samples.rfm_db)).
  { vm_compute. do 4 right. left. reflexivity. }
  assert (Hy : In (Samples.run_scores 5 "Eve E" 182 1 100 1)
                  (RunAnalytics.rfm_scores Samples.rfm_today Samples.rfm_db)).
  { vm_compute. left. reflexivity. }
  destruct (X10_run_scores_descend_with_rank
              Samples.rfm_today Samples.rfm_db _ _ Hx Hy)
    as [rx [ry [_ [_ [_ [Hf _]]]]]].
  apply Hf. vm_compute. lia.
Defined.


(** X11. The CASE of api/main.py, read as a partition of the score
    triples: At Risk is every triple with a recency score of 2 or less,
    Potential only those with recency score 3 and frequency score at most
    2, whatever the monetary score. *)
Theorem X11_main_segments (r f m : nat) :
  (Main.segment_of r f m = Main.Champions <-> 4 <= r /\ 4 <= f /\ 4 <= m)
  /\ (Main.segment_of r f m = Main.Loyal
      <-> 3 <= r /\ 3 <= f /\ ~ (4 <= r /\ 4 <= f /\ 4 <= m))
  /\ (Main.segment_of r f m = Main.New <-> 4 <= r /\ f <= 2)
  /\ (Main.segment_of r f m = Main.AtRisk <-> r <= 2)
  /\ (Main.segment_of r f m = Main.Potential <-> r = 3 /\ f <= 2).
Proof.
  unfold Main.segment_of.
  destruct (Nat.leb_spec 4 r), (Nat.leb_spec 4 f), (Nat.leb_spec 4 m),
    (Nat.leb_spec 3 r), (Nat.leb_spec 3 f), (Nat.leb_spec f 2),
    (Nat.leb_spec r 2); simpl;
    repeat split; intros; try discriminate; try reflexivity; try lia.
Qed.

(** X12. The two CASEs compared on every score triple: they agree on
    Champions and on New; At Risk of api/main.py is At Risk or Lost in
    run_analytics.py; a triple is Loyal in both when its monetary score is
    at least 3, and Loyal in api/main.py but Potential in run_analytics.py
    when it is lower. *)
Theorem X12_segments_compared (r f m : nat) :
  (RunAnalytics.segment_of r f m = RunAnalytics.Champions
   <-> Main.segment_of r f m = Main.Champions)
  /\ (RunAnalytics.segment_of r f m = RunAnalytics.NewCustomers
      <-> Main.segment_of r f m = Main.New)
  /\ (RunAnalytics.segment_of r f m = RunAnalytics.AtRisk
      \/ RunAnalytics.segment_of r f m = RunAnalytics.Lost
      <-> Main.segment_of r f m = Main.AtRisk)
  /\ (RunAnalytics.segment_of r f m = RunAnalytics.LoyalCustomers
      <-> Main.segment_of r f m = Main.Loyal /\ 3 <= m)
  /\ (RunAnalytics.segment_of r f m = RunAnalytics.Potential
      <-> Main.segment_of r f m = Main.Potential
          \/ (Main.segment_of r f m = Main.Loyal /\ m <= 2)).
Proof.
  unfold Main.segment_of, RunAnalytics.segment_of.
  destruct (Nat.leb_spec 4 r), (Nat.leb_spec 4 f), (Nat.leb_spec 4 m),
    (Nat.leb_spec 3 r), (Nat.leb_spec 3 f), (Nat.leb_spec 3 m),
    (Nat.leb_spec f 2), (Nat.leb_spec r 2); simpl;
    try lia;
    repeat split; intros;
    repeat match goal with
           | H : _ \/ _ |- _ => destruct H
           | H : _ /\ _ |- _ => destruct H
           end;
    try discriminate; try lia; auto;
    try (right; split; [reflexivity|lia]).
Qed.

(** X13. Every customer with a completed sale is scored by the RFM
    endpoint's CTEs, under the customer's id and full name, and the
    answer has at most [limit] rows. *)
Theorem X13_purchasers_are_scored
        (limit_ : nat) (today : Sql.date) (db : Database)
        (c : Customer.t) (s : Sale.t) :
  In c (customers db) -> In s (sales db) ->
  Sale.completed s = true ->
  Sale.customer_id s = Customer.customer_id c ->
  (exists x,
      In x (Main.rfm_scores today db)
      /\ Main.CustomerMetrics.customer_id (Main.RfmScores.metrics x)
         = Customer.customer_id c
      /\ Main.CustomerMetrics.customer_name (Main.RfmScores.metrics x)
         = full_name (Customer.first_name c) (Customer.last_name c))
  /\ length (Main.get_customer_rfm_analysis limit_ today db) <= limit_.
Proof.
  intros Hc Hs Hcomp Hid. split.
  - destruct (CohortFacts.purchaser_has_metrics today db c s Hc Hs Hcomp Hid)
      as [m [Hm [Hmid Hname]]].
    destruct (CohortFacts.main_metrics_scored today db m Hm) as [x [Hx Hxm]].
    exists x. rewrite Hxm. auto.
  - unfold Main.get_customer_rfm_analysis, Sql.limit.
    rewrite length_map. apply firstn_le_length.
Qed.

Lemma X13_witness :
  exists x,
    In x (Main.rfm_scores Samples.rfm_today Samples.rfm_db)
    /\ Main.CustomerMetrics.customer_id (Main.RfmScores.metrics x) = 1%Z.
Proof.
  destruct (X13_purchasers_are_scored
              50 Samples.rfm_today Samples.rfm_db
              (Customer.Make 1 "Ann" "A")
              (Samples.sale 1 1 1 1 500 (Sql.Date 2024 6 30) "completed"))
    as [[x [Hx [Hid _]]] _].
  - left. reflexivity.
  - left. reflexivity.
  - reflexivity.
  - reflexivity.
  - exists x. split; [exact Hx|exact Hid].
Defined.

(* ================================================================== *)
(** * Departments without sales, and salary ranks *)
(* ================================================================== *)

Module RollupFacts.
Import Sql.

Lemma no_sale_no_match (db : Database)
      (g : (Z * string * string) * list Main.DepartmentRow) :
  In g (Main.department_groups db) ->
  (forall e s, In e (employees db) -> Employee.is_active e = true ->
               Employee.dept_id e = fst (fst (fst g)) ->
               In s (sales db) -> Sale.completed s = true ->
               Employee.emp_id e <> Sale.emp_id s) ->
  matched (snd g) = [].
Proof.
  intros Hg Hno. destruct (matched (snd g)) as [|s t] eqn:E; [reflexivity|].
  exfalso.
  assert (Hs : In s (matched (snd g))) by (rewrite E; left; reflexivity).
  destruct (DepartmentFacts.department_group_sale db g s Hg Hs)
    as [Hin [Hc [e [He [Ha [Hd Hid]]]]]].
  apply (Hno e s He Ha Hd Hin Hc Hid).
Qed.

Lemma round_of_zero (c : Q) : round (0 / c) 0 = 0%Q.
Proof.
  rewrite (RoundFacts.round_comp (0 / c) 0 0).
  - reflexivity.
  - unfold Qdiv. ring.
Qed.

Lemma department_keys (db : Database) (k : Z * string * string) :
  In k (map fst (Main.department_groups db))
  <-> exists d, In d (departments db) /\ Main.department_key d = k.
Proof.
  split.
  - rewrite in_map_iff. intros [[k' rows] [Hk Hg]]. simpl in Hk. subst k'.
    apply SqlFacts.group_by_In in Hg. destruct Hg as [[x [Hx Hkey]] _].
    destruct x as [[d oe] os]. exists d. split; [|exact Hkey].
    unfold Main.department_rows in Hx.
    apply SqlFacts.left_join_In_left in Hx.
    apply SqlFacts.left_join_In_left in Hx. exact Hx.
  - intros [d [Hd <-]].
    destruct (DepartmentFacts.department_group_exists db d Hd) as [rows Hr].
    apply in_map_iff. exists (Main.department_key d, rows).
    split; [reflexivity|exact Hr].
Qed.

Lemma rank_ratio_le (a b n : nat) :
  a <= b -> 0 < n ->
  (inject_Z (Z.of_nat a) / inject_Z (Z.of_nat n)
   <= inject_Z (Z.of_nat b) / inject_Z (Z.of_nat n))%Q.
Proof.
  intros Hab Hn. unfold Qdiv. apply Qmult_le_compat_r.
  - rewrite <- Zle_Qle. lia.
  - apply Qinv_le_0_compat. change 0%Q with (inject_Z 0).
    rewrite <- Zle_Qle. lia.
Qed.

Lemma rank_ratio_bounds (a n : nat) :
  a <= n -> 0 < n ->
  (0 <= inject_Z (Z.of_nat a) / inject_Z (Z.of_nat n)
   /\ inject_Z (Z.of_nat a) / inject_Z (Z.of_nat n) <= 1)%Q.
Proof.
  intros Han Hn.
  assert (Hpos : (0 < inject_Z (Z.of_nat n))%Q).
  { change 0%Q with (inject_Z 0). rewrite <- Zlt_Qlt. lia. }
  split.
  - apply Qle_shift_div_l; [exact Hpos|].
    rewrite Qmult_0_l. change 0%Q with (inject_Z 0). rewrite <- Zle_Qle. lia.
  - apply Qle_shift_div_r; [exact Hpos|].
    rewrite Qmult_1_l. rewrite <- Zle_Qle. lia.
Qed.

Lemma salary_below_spec (y x : Employee.t * Department.t) :
  Main.salary_below y x = true
  <-> (Main.joined_salary y < Main.joined_salary x)%Q.
Proof.
  unfold Main.salary_below. rewrite negb_true_iff. split.
  - intro H. apply Qnot_le_lt. intro L. apply Qle_bool_iff in L. congruence.
  - intro H. destruct (Qle_bool _ _) eqn:E; [|reflexivity].
    apply Qle_bool_iff in E. lra.
Qed.

Lemma rows_before_monotone (rows : list (Employee.t * Department.t))
      (x y : Employee.t * Department.t) :
  (Main.joined_salary x <= Main.joined_salary y)%Q ->
  rows_before Main.salary_below rows x <= rows_before Main.salary_below rows y.
Proof.
  intro H. unfold rows_before. apply RankFacts.filter_length_le.
  intros z _ Hz. apply salary_below_spec. apply salary_below_spec in Hz. lra.
Qed.

Lemma rows_before_bound (rows : list (Employee.t * Department.t))
      (x : Employee.t * Department.t) :
  In x rows -> rows_before Main.salary_below rows x <= length rows - 1.
Proof.
  intro H. unfold rows_before.
  assert (L : length (filter (fun y => Main.salary_below y x) rows)
              < length (filter (fun _ => true) rows)).
  { apply (RankFacts.filter_length_lt _ _ rows x).
    - intros; reflexivity.
    - exact H.
    - apply SalaryFacts.salary_below_irrefl.
    - reflexivity. }
  rewrite (@SalaryFacts.filter_all _ (fun _ => true) rows) in L.
  - lia.
  - apply Forall_forall. intros; reflexivity.
Qed.

Lemma salary_window_sorted (db : Database) :
  StronglySorted
    (fun a b => Qle_bool (Main.joined_salary a) (Main.joined_salary b) = true)
    (Main.salary_window db).
Proof.
  destruct (Keys.by_Q_asc Main.joined_salary) as [Ht Hr].
  apply (SqlFacts.order_by_sorted Ht Hr).
Qed.

(** In the CTE [salary_stats] the percentile and the quartile follow the
    salary. *)
Lemma salary_ranks (db : Database) (a b : Main.SalaryStats.t) :
  In a (Main.salary_stats db) -> In b (Main.salary_stats db) ->
  (Main.SalaryStats.salary a <= Main.SalaryStats.salary b)%Q ->
  (Main.SalaryStats.salary_percentile a
   <= Main.SalaryStats.salary_percentile b)%Q
  /\ ((Main.SalaryStats.salary a < Main.SalaryStats.salary b)%Q ->
      Main.SalaryStats.salary_quartile a <= Main.SalaryStats.salary_quartile b)
  /\ (0 <= Main.SalaryStats.salary_percentile a
      /\ Main.SalaryStats.salary_percentile a <= 1)%Q
  /\ 1 <= Main.SalaryStats.salary_quartile a <= 4.
Proof.
  intros Ha Hb Hle.
  destruct (SalaryFacts.salary_stats_In db a Ha)
    as [ra [qa [Hra [Hqa [Ea Hpa]]]]].
  destruct (SalaryFacts.salary_stats_In db b Hb)
    as [rb [qb [Hrb [Hqb [Eb Hpb]]]]].
  assert (Hsa : Main.SalaryStats.salary a = Main.joined_salary ra)
    by (rewrite Ea; reflexivity).
  assert (Hsb : Main.SalaryStats.salary b = Main.joined_salary rb)
    by (rewrite Eb; reflexivity).
  rewrite Hsa, Hsb in *. rewrite Hpa, Hpb.
  set (n := length (Main.active_employees db)) in *.
  assert (Hn : 1 <= n).
  { unfold n. destruct (Main.active_employees db); [destruct Hra|simpl; lia]. }
  pose proof (rows_before_bound _ _ Hra) as Hbound. fold n in Hbound.
  split; [|split; [|split]].
  - destruct (n <=? 1) eqn:E; [apply Qle_refl|].
    apply Nat.leb_gt in E.
    apply rank_ratio_le; [|lia].
    apply rows_before_monotone. exact Hle.
  - intro Hlt.
    assert (Hq : Main.SalaryStats.salary_quartile a = qa)
      by (rewrite Ea; reflexivity).
    assert (Hq' : Main.SalaryStats.salary_quartile b = qb)
      by (rewrite Eb; reflexivity).
    rewrite Hq, Hq'.
    destruct (Keys.by_Q_asc Main.joined_salary) as [Ht _].
    apply (@SqlFacts.ntile_monotone _ 4 _ _ (ra, qa) (rb, qb) Ht
             (salary_window_sorted db) Hqa Hqb).
    simpl. destruct (Qle_bool _ _) eqn:E; [|reflexivity].
    apply Qle_bool_iff in E. lra.
  - destruct (n <=? 1) eqn:E; [split; [apply Qle_refl|discriminate]|].
    apply Nat.leb_gt in E.
    apply rank_ratio_bounds; lia.
  - assert (Hq : Main.SalaryStats.salary_quartile a = qa)
      by (rewrite Ea; reflexivity).
    rewrite Hq.
    assert (H4 : 0 < 4) by lia.
    apply (@SqlFacts.ntile_numbers_range
             4 (length (Main.salary_window db)) H4 qa).
    rewrite <- (@SqlFacts.ntile_snd _ 4 (Main.salary_window db) H4).
    apply (in_map snd _ _ Hqa).
Qed.

Lemma run_salary_row_In (db : Database) (row : RunAnalytics.SalaryRow.t) :
  In row (map RunAnalytics.salary_row (RunAnalytics.salary_stats db)) ->
  exists st,
    In st (Main.salary_stats db)
    /\ RunAnalytics.SalaryRow.salary row = Main.SalaryStats.salary st
    /\ RunAnalytics.SalaryRow.salary_quartile row
       = Main.SalaryStats.salary_quartile st
    /\ RunAnalytics.SalaryRow.percentile_rank row
       = round (Main.SalaryStats.salary_percentile st * 100) 2.
Proof.
  rewrite in_map_iff. intros [s [<- Hs]].
  unfold RunAnalytics.salary_stats in Hs. apply in_map_iff in Hs.
  destruct Hs as [rq [<- Hrq]].
  exists (Main.salary_stat (Main.salary_window db) rq).
  split; [|simpl; auto].
  unfold Main.salary_stats. apply in_map. exact Hrq.
Qed.

End RollupFacts.


(** X14. A department none of whose active employees has a completed
    sale: api/main.py reports 0 sales, a revenue of 0 and, when it has an
    active employee, a revenue per employee of 0; query 7 of
    run_analytics.py reports NULL for the revenue and for the revenue per
    employee. *)
Theorem X14_department_without_sales
        (db : Database)
        (g : (Z * string * string) * list Main.DepartmentRow) :
  In g (Main.department_groups db) ->
  (forall e s, In e (employees db) -> Employee.is_active e = true ->
               Employee.dept_id e = fst (fst (fst g)) ->
               In s (sales db) -> Sale.completed s = true ->
               Employee.emp_id e <> Sale.emp_id s) ->
  (Main.DepartmentPerformance.total_sales (Main.department_performance g) = 0
   /\ Main.DepartmentPerformance.total_revenue (Main.department_performance g)
      = 0%Q
   /\ Main.DepartmentPerformance.revenue_per_employee
        (Main.department_performance g)
      = if Main.DepartmentPerformance.employee_count
             (Main.department_performance g) =? 0
        then None else Some 0%Q)
  /\ (RunAnalytics.DepartmentRow.total_sales (RunAnalytics.department_row g)
      = 0
      /\ RunAnalytics.DepartmentRow.total_revenue
           (RunAnalytics.department_row g) = None
      /\ RunAnalytics.DepartmentRow.revenue_per_employee
           (RunAnalytics.department_row g) = None).
Proof.
  intros Hg Hno.
  pose proof (RollupFacts.no_sale_no_match db g Hg Hno) as Hm.
  split.
  - simpl. rewrite DepartmentFacts.revenue_per_employee_spec.
    unfold Main.total_revenue. rewrite Hm. simpl.
    split; [reflexivity|]. split; [reflexivity|].
    destruct (Main.employee_count (snd g) =? 0); [reflexivity|].
    rewrite RollupFacts.round_of_zero. reflexivity.
  - simpl. unfold RunAnalytics.revenue_per_employee,
             RunAnalytics.total_revenue.
    rewrite Hm. simpl. auto.
Qed.

Lemma X14_witness :
  Main.DepartmentPerformance.revenue_per_employee
    (Main.department_performance Samples.eng_group) = Some 0%Q
  /\ RunAnalytics.DepartmentRow.revenue_per_employee
       (RunAnalytics.department_row Samples.eng_group) = None.
Proof.
  destruct (X14_department_without_sales Samples.eng_db Samples.eng_group)
    as [[_ [_ Hmain]] [_ [_ Hrun]]].
  - vm_compute. left. reflexivity.
  - intros e s _ _ _ Hs. destruct Hs.
  - split; [exact Hmain|exact Hrun].
Defined.

(** X15. The department report has exactly one row for each distinct
    (dept_id, dept_name, location) of the departments table, and no other
    row, in both scripts. *)
Theorem X15_one_row_per_department (db : Database) :
  NoDup (map fst (Main.department_groups db))
  /\ (forall k, In k (map fst (Main.department_groups db))
                <-> exists d, In d (departments db)
                              /\ Main.department_key d = k)
  /\ length (Main.get_department_performance db)
     = length (Main.department_groups db)
  /\ length (RunAnalytics.department_performance db)
     = length (Main.department_groups db).
Proof.
  split; [|split; [|split]].
  - apply AggregateFacts.group_by_keys_NoDup.
  - apply RollupFacts.department_keys.
  - unfold Main.get_department_performance.
    rewrite length_map. apply SqlFacts.order_by_length.
  - unfold RunAnalytics.department_performance.
    rewrite length_map. apply SqlFacts.order_by_length.
Qed.

(** X16. In query 1 of run_analytics.py (its CTE has the text of the CTE
    of api/main.py) an active employee who is not paid more than another
    has neither the higher percentile rank nor, when paid less, the higher
    quartile; every percentile rank lies between 0 and 100 and every
    quartile between 1 and 4. *)
Theorem X16_salary_ranks_follow_salary
        (db : Database) (a b : RunAnalytics.SalaryRow.t) :
  In a (map RunAnalytics.salary_row (RunAnalytics.salary_stats db)) ->
  In b (map RunAnalytics.salary_row (RunAnalytics.salary_stats db)) ->
  (RunAnalytics.SalaryRow.salary a <= RunAnalytics.SalaryRow.salary b)%Q ->
  (RunAnalytics.SalaryRow.percentile_rank a
   <= RunAnalytics.SalaryRow.percentile_rank b)%Q
  /\ ((RunAnalytics.SalaryRow.salary a < RunAnalytics.SalaryRow.salary b)%Q ->
      RunAnalytics.SalaryRow.salary_quartile a
      <= RunAnalytics.SalaryRow.salary_quartile b)
  /\ (0 <= RunAnalytics.SalaryRow.percentile_rank a
      /\ RunAnalytics.SalaryRow.percentile_rank a <= 100)%Q
  /\ 1 <= RunAnalytics.SalaryRow.salary_quartile a <= 4.
Proof.
  intros Ha Hb Hle.
  destruct (RollupFacts.run_salary_row_In db a Ha)
    as [sa [Hsa [Ea [Eqa Epa]]]].
  destruct (RollupFacts.run_salary_row_In db b Hb)
    as [sb [Hsb [Eb [Eqb Epb]]]].
  rewrite Ea, Eb in *. rewrite Eqa, Eqb, Epa, Epb.
  destruct (RollupFacts.salary_ranks db sa sb Hsa Hsb Hle)
    as [Hp [Hq [[H0 H1] Hr]]].
  split; [|split; [|split]].
  - apply RoundFacts.round_monotone. lra.
  - exact Hq.
  - apply RoundFacts.round_percent; lra.
  - exact Hr.
Qed.

Lemma X16_witness :
  exists a b,
    nth_error (map RunAnalytics.salary_row
                   (RunAnalytics.salary_stats Samples.eng_db)) 1 = Some a
    /\ nth_error (map RunAnalytics.salary_row
                      (RunAnalytics.salary_stats Samples.eng_db)) 2 = Some b
    /\ (RunAnalytics.SalaryRow.percentile_rank a
        <= RunAnalytics.SalaryRow.percentile_rank b)%Q.
Proof.
  eexists. eexists. split; [reflexivity|]. split; [reflexivity|].
  apply (X16_salary_ranks_follow_salary Samples.eng_db).
  - apply (nth_error_In _ 1). reflexivity.
  - apply (nth_error_In _ 2). reflexivity.
  - vm_compute. discriminate.
Defined.

(* ================================================================== *)
(** * The summary, the rows of a query and the dashboard client *)
(* ================================================================== *)

Module ClientFacts.
Import Sql.
Import Ascii.

Lemma coalesce_sum (l : list Q) : coalesce (sum_agg l) 0%Q = sum_q l.
Proof. destruct l; reflexivity. Qed.

Lemma summary_In (db : Database) (row : Main.Summary.t) :
  In row (Main.summary_rows db) -> In row (Main.database_summary db).
Proof.
  intro H. unfold Main.database_summary. apply SqlFacts.order_by_In. exact H.
Qed.

Section DictFacts.
Variable Value : Type.

Let step (key : string) (found : option Value) (kv : string * Value)
  : option Value :=
  if String.eqb (fst kv) key then Some (snd kv) else found.

Lemma dict_get_other (key : string) (row : Utils.Row Value)
      (found : option Value) :
  (forall kv, In kv row -> fst kv <> key) ->
  fold_left (step key) row found = found.
Proof.
  revert found. induction row as [|kv row IH]; intros found H; simpl.
  - reflexivity.
  - rewrite IH.
    + unfold step. destruct (String.eqb_spec (fst kv) key) as [E|E].
      * exfalso. apply (H kv); [left; reflexivity|exact E].
      * reflexivity.
    + intros kv' Hkv'. apply H. right. exact Hkv'.
Qed.

Lemma dict_get_from (key : string) (columns : list string)
      (row : list Value) (j : nat) (v : Value) (found : option Value) :
  NoDup columns ->
  nth_error columns j = Some key -> nth_error row j = Some v ->
  fold_left (step key) (combine columns row) found = Some v.
Proof.
  revert row j found.
  induction columns as [|c cs IH]; intros row j found Hnd Hc Hv.
  - destruct j; discriminate.
  - destruct row as [|v0 vs]; [destruct j; discriminate|].
    inversion Hnd as [|? ? Hnotin Hnd']; subst.
    destruct j as [|j]; simpl in Hc, Hv.
    + injection Hc as ->. injection Hv as ->. simpl.
      rewrite dict_get_other.
      * unfold step. simpl. rewrite String.eqb_refl. reflexivity.
      * intros kv Hkv E. apply Hnotin. rewrite <- E.
        destruct kv as [k w]. apply (in_combine_l _ _ _ _ Hkv).
    + simpl. apply (IH vs j _ Hnd' Hc Hv).
Qed.

Lemma dict_get_combine (key : string) (columns : list string)
      (row : list Value) (j : nat) (v : Value) :
  NoDup columns ->
  nth_error columns j = Some key -> nth_error row j = Some v ->
  Utils.dict_get key (combine columns row) = Some v.
Proof. apply dict_get_from. Qed.

Lemma dict_get_missing (key : string) (columns : list string)
      (row : list Value) :
  ~ In key columns -> Utils.dict_get key (combine columns row) = None.
Proof.
  intro H. unfold Utils.dict_get. apply (dict_get_other key).
  intros [k w] Hkv E. apply H. simpl in E. subst k.
  apply (in_combine_l _ _ _ _ Hkv).
Qed.

End DictFacts.

Lemma find_first {A} (f : A -> bool) (before : list A) (x : A)
      (after : list A) :
  (forall y, In y before -> f y = false) -> f x = true ->
  find f (before ++ x :: after) = Some x.
Proof.
  intros H Hx. induction before as [|y before IH]; simpl.
  - rewrite Hx. reflexivity.
  - rewrite (H y (or_introl eq_refl)). apply IH.
    intros z Hz. apply H. right. exact Hz.
Qed.

Lemma remove_char_filter (c : ascii) (s : string) :
  Dashboard.remove_char c s
  = string_of_list_ascii
      (filter (fun a => negb (Ascii.eqb a c)) (list_ascii_of_string s)).
Proof.
  induction s as [|a t IH]; simpl.
  - reflexivity.
  - destruct (Ascii.eqb a c); simpl; rewrite IH; reflexivity.
Qed.

Lemma filter_filter {A} (f g : A -> bool) (l : list A) :
  filter f (filter g l) = filter (fun x => g x && f x) l.
Proof.
  induction l as [|x t IH]; simpl; [reflexivity|].
  destruct (g x); simpl; [destruct (f x)|]; rewrite IH; reflexivity.
Qed.

Lemma strip_symbols (s : string) :
  Dashboard.remove_char "%" (Dashboard.remove_char ","
                                                   (Dashboard.remove_char "$" s))
  = string_of_list_ascii
      (filter (fun a => negb (Ascii.eqb a "$")
                        && (negb (Ascii.eqb a ",") && negb (Ascii.eqb a "%")))
              (list_ascii_of_string s)).
Proof.
  rewrite !remove_char_filter, !list_ascii_of_string_of_list_ascii.
  rewrite !filter_filter. reflexivity.
Qed.

End ClientFacts.

Import Ascii.

(** X17. The total revenue of /summary adds up the amount of every sale,
    whatever its status: one more sale raises it by the amount of that
    sale and the count of sales by one. *)
Theorem X17_summary_revenue_counts_every_sale
        (db : Database) (before after : list Sale.t) (s : Sale.t) :
  exists old new,
    In (Main.Summary.Make "total_revenue" (Main.Amount old))
       (Main.database_summary (with_sales (before ++ after) db))
    /\ In (Main.Summary.Make "total_revenue" (Main.Amount new))
          (Main.database_summary (with_sales (before ++ s :: after) db))
    /\ (new == old + Sale.total_amount s)%Q
    /\ In (Main.Summary.Make "sales"
                             (Main.Count (S (length (before ++ after)))))
          (Main.database_summary (with_sales (before ++ s :: after) db)).
Proof.
  exists (Sql.sum_q (map Sale.total_amount (before ++ after))),
         (Sql.sum_q (map Sale.total_amount (before ++ s :: after))).
  split; [|split; [|split]].
  - apply ClientFacts.summary_In. unfold Main.summary_rows.
    rewrite ClientFacts.coalesce_sum. simpl. auto 10.
  - apply ClientFacts.summary_In. unfold Main.summary_rows.
    rewrite ClientFacts.coalesce_sum. simpl. auto 10.
  - rewrite !map_app. simpl.
    rewrite !AggregateFacts.sum_q_app, AggregateFacts.sum_q_cons. ring.
  - apply ClientFacts.summary_In. unfold Main.summary_rows. simpl.
    rewrite !length_app. simpl. rewrite Nat.add_succ_r. auto 10.
Qed.

(** X18. The rows of /summary come in the alphabetical order of their
    metric, and the figures the dashboard overview looks up in them are
    the counts of the tables and the total revenue: its defaults '0' and
    '$0' are never shown. *)
Theorem X18_dashboard_figures (db : Database) :
  map Main.Summary.metric (Main.database_summary db)
  = ["customers"; "departments"; "employees"; "products"; "sales";
     "total_revenue"]%string
  /\ Dashboard.kpi "departments" (Main.Count 0) (Main.database_summary db)
     = Some (Main.Count (length (departments db)))
  /\ Dashboard.kpi "employees" (Main.Count 0) (Main.database_summary db)
     = Some (Main.Count (length (employees db)))
  /\ Dashboard.kpi "sales" (Main.Count 0) (Main.database_summary db)
     = Some (Main.Count (length (sales db)))
  /\ Dashboard.kpi "total_revenue" (Main.Amount 0) (Main.database_summary db)
     = Some (Main.Amount
               (Sql.coalesce
                  (Sql.sum_agg (map Sale.total_amount (sales db))) 0%Q)).
Proof.
  repeat split; reflexivity.
Qed.

(** X19. When the statement succeeds [execute_query] returns one
    dictionary for each fetched row; with distinct column names the
    dictionary of a row gives, under the name of column [j], the value
    the row has at position [j], and nothing under a name that is not a
    column. *)
Theorem X19_execute_query_rows
        (Query Value : Type) (session : Utils.Session Query Value)
        (query : Query) (result : Utils.Result Value)
        (rows : list (list Value)) (columns : list string) :
  Utils.execute session query = Utils.Returned result ->
  Utils.fetchall result = Utils.Returned rows ->
  Utils.keys result = Utils.Returned columns ->
  length (Utils.execute_query session query) = length rows
  /\ (forall i row,
         nth_error rows i = Some row ->
         exists d,
           nth_error (Utils.execute_query session query) i = Some d
           /\ (forall key, ~ In key columns -> Utils.dict_get key d = None)
           /\ (NoDup columns ->
               forall j key v,
                 nth_error columns j = Some key ->
                 nth_error row j = Some v ->
                 Utils.dict_get key d = Some v)).
Proof.
  intros He Hf Hk.
  assert (E : Utils.execute_query session query
              = map (fun row => combine columns row) rows).
  { unfold Utils.execute_query, Utils.run. rewrite He. simpl.
    rewrite Hf. simpl. rewrite Hk. reflexivity. }
  rewrite E. split; [apply length_map|].
  intros i row Hrow. exists (combine columns row). split; [|split].
  - rewrite nth_error_map, Hrow. reflexivity.
  - intros key Hkey. apply ClientFacts.dict_get_missing. exact Hkey.
  - intros Hnd j key v Hc Hv.
    apply (ClientFacts.dict_get_combine Value key columns row j v Hnd Hc Hv).
Qed.

Lemma X19_witness :
  length (Utils.execute_query Samples.two_rows_session "SELECT 1"%string) = 2.
Proof.
  exact (proj1 (X19_execute_query_rows
                  string Z Samples.two_rows_session "SELECT 1"%string
                  _ _ _ eq_refl eq_refl eq_refl)).
Defined.

(** X20. What the dashboard client makes of the answer of an endpoint is
    the list of the rows [execute_query] returned; when the statement
    fails in the database that is the empty list, and the client shows no
    message. *)
Theorem X20_client_sees_the_rows
        (Query Value : Type) (value_json : Value -> Dashboard.json)
        (query_of : Utils.Endpoint -> Query) (endpoint : Utils.Endpoint)
        (session : Utils.Session Query Value) :
  Dashboard.get
    (inr (Dashboard.response_json
            value_json (Utils.respond query_of endpoint session)))
  = (Dashboard.JList
       (map (Dashboard.row_json value_json)
            (Utils.execute_query session (query_of endpoint))), [])
  /\ (forall e,
         Utils.execute session (query_of endpoint) = Utils.Raised e ->
         Dashboard.get
           (inr (Dashboard.response_json
                   value_json (Utils.respond query_of endpoint session)))
         = (Dashboard.JList [], [])).
Proof.
  split.
  - reflexivity.
  - intros e He. unfold Utils.respond, Utils.execute_query, Utils.run.
    rewrite He. reflexivity.
Qed.

(** X21. [BIApiClient.get] returns the first list held by the decoded
    dictionary, skipping the entries before it, and the document itself
    when it is not a dictionary or holds no list; when the request fails
    it returns the empty list and shows a message. *)
Theorem X21_get_unwraps_first_list :
  (forall before key items after,
      (forall kv, In kv before -> Dashboard.is_list (snd kv) = false) ->
      Dashboard.get
        (inr (Dashboard.JDict (before ++ (key, Dashboard.JList items) :: after)))
      = (Dashboard.JList items, []))
  /\ (forall entries,
         (forall kv, In kv entries -> Dashboard.is_list (snd kv) = false) ->
         Dashboard.get (inr (Dashboard.JDict entries))
         = (Dashboard.JDict entries, []))
  /\ (forall data,
         (forall entries, data <> Dashboard.JDict entries) ->
         Dashboard.get (inr data) = (data, []))
  /\ (forall failure,
         fst (Dashboard.get (inl failure)) = Dashboard.JList []
         /\ snd (Dashboard.get (inl failure)) <> []).
Proof.
  split; [|split; [|split]].
  - intros before key items after H. simpl.
    rewrite (ClientFacts.find_first
               (fun kv => Dashboard.is_list (snd kv))
               before (key, Dashboard.JList items) after H eq_refl).
    reflexivity.
  - intros entries H. simpl. f_equal.
    destruct (find (fun kv => Dashboard.is_list (snd kv)) entries)
      as [kv|] eqn:E; [|reflexivity].
    apply find_some in E. destruct E as [Hin Hl].
    rewrite (H kv Hin) in Hl. discriminate.
  - intros data H. destruct data; try reflexivity.
    exfalso. apply (H entries). reflexivity.
  - intros [|message]; simpl; split; try reflexivity; discriminate.
Qed.

(** X22. [format_currency] never returns the empty text nor 'None'; it
    returns a text that is neither unchanged, and applying it twice is
    applying it once. *)
Theorem X22_format_currency (value : option string) :
  Dashboard.format_currency value <> ""%string
  /\ Dashboard.format_currency value <> "None"%string
  /\ Dashboard.format_currency (Some (Dashboard.format_currency value))
     = Dashboard.format_currency value
  /\ (forall v, value = Some v -> v <> ""%string -> v <> "None"%string ->
                Dashboard.format_currency value = v).
Proof.
  unfold Dashboard.format_currency.
  destruct value as [v|].
  - destruct (String.eqb_spec v "") as [E1|E1]; simpl.
    + split; [discriminate|]. split; [discriminate|]. split; [reflexivity|].
      intros w Hw Hw1 _. injection Hw as <-. contradiction.
    + destruct (String.eqb_spec v "None") as [E2|E2]; simpl.
      * split; [discriminate|]. split; [discriminate|].
        split; [reflexivity|].
        intros w Hw _ Hw2. injection Hw as <-. contradiction.
      * split; [exact E1|]. split; [exact E2|]. split.
        -- destruct (String.eqb_spec v "") as [E3|E3]; [contradiction|].
           destruct (String.eqb_spec v "None") as [E4|E4]; [contradiction|].
           reflexivity.
        -- intros w Hw _ _. injection Hw as <-. reflexivity.
  - split; [discriminate|]. split; [discriminate|]. split; [reflexivity|].
    intros v Hv. discriminate.
Qed.

(** X23. [parse_numeric] hands [float] the characters of a text other
    than 'None' in their order, without any '$', ',' or '%', and returns 0
    when [float] refuses them. *)
Theorem X23_parse_numeric_strips_symbols
        (Float : Type) (float : string -> option Float) (zero : Float)
        (s : string) :
  s <> "None"%string ->
  Dashboard.parse_numeric float zero (Dashboard.Str s)
  = match float
            (string_of_list_ascii
               (filter (fun a => negb (Ascii.eqb a "$")
                                 && (negb (Ascii.eqb a ",")
                                     && negb (Ascii.eqb a "%")))
                       (list_ascii_of_string s))) with
    | Some x => x
    | None => zero
    end.
Proof.
  intro H. unfold Dashboard.parse_numeric.
  destruct (String.eqb_spec s "None") as [E|E]; [contradiction|]. simpl.
  rewrite ClientFacts.strip_symbols. reflexivity.
Qed.

Lemma X23_witness :
  Dashboard.parse_numeric (fun s => Some s) ""%string
                          (Dashboard.Str "$1,234.50")
  = "1234.50"%string.
Proof.
  rewrite (X23_parse_numeric_strips_symbols
             string (fun s => Some s) ""%string "$1,234.50"%string).
  - reflexivity.
  - discriminate.
Defined.

(* ================================================================== *)
(** * run_query, the loop of main, regions and employees *)
(* ================================================================== *)

Module RunnerFacts.
Import Sql.

Lemma disjoint_counts {A} (f g h : A -> bool) (l : list A) :
  (forall x, f x = true -> g x = false /\ h x = false) ->
  (forall x, g x = true -> h x = false) ->
  length (filter f l) + length (filter g l) + length (filter h l)
  <= length l.
Proof.
  intros Hf Hg. induction l as [|x t IH]; simpl; [lia|].
  destruct (f x) eqn:Ef.
  - destruct (Hf x Ef) as [-> ->]. simpl. lia.
  - destruct (g x) eqn:Eg.
    + rewrite (Hg x Eg). simpl. lia.
    + destruct (h x); simpl; lia.
Qed.

Lemma filter_le {A} (f : A -> bool) (l : list A) :
  length (filter f l) <= length l.
Proof.
  induction l as [|x t IH]; simpl; [lia|]. destruct (f x); simpl; lia.
Qed.

Lemma list_sum_perm (l l' : list nat) :
  Permutation l l' -> list_sum l = list_sum l'.
Proof.
  induction 1; simpl; lia.
Qed.

Lemma count_distinct_le (l : list Z) : count_distinct l <= length l.
Proof.
  unfold count_distinct. apply NoDup_incl_length.
  - apply NoDup_nodup.
  - intros x Hx. apply nodup_In in Hx. exact Hx.
Qed.

Lemma sorted_nth {A} (R : A -> A -> Prop) (l : list A) (i j : nat) (a b : A) :
  StronglySorted R l -> i < j ->
  nth_error l i = Some a -> nth_error l j = Some b -> R a b.
Proof.
  intro Hs. revert i j. induction Hs as [|x t Hs IH Hx]; intros i j Hij Ha Hb.
  - destruct i; discriminate.
  - destruct j as [|j]; [lia|]. simpl in Hb.
    destruct i as [|i]; simpl in Ha.
    + injection Ha as ->. rewrite Forall_forall in Hx. apply Hx.
      eapply nth_error_In. exact Hb.
    + apply (IH i j); [lia|exact Ha|exact Hb].
Qed.

Lemma region_groups_In (rows : list RunAnalytics.RegionSale)
      (r : RunAnalytics.RegionRow.t) :
  In r (RunAnalytics.sales_by_region rows) ->
  exists g, In g (group_by string_dec fst rows)
            /\ r = RunAnalytics.region_row g.
Proof.
  unfold RunAnalytics.sales_by_region. rewrite in_map_iff.
  intros [g [<- Hg]]. apply SqlFacts.order_by_In in Hg.
  exists g. split; [exact Hg|reflexivity].
Qed.

Lemma employee_window_sorted (db : Database) :
  StronglySorted
    (fun a b => Main.nullable_desc (RunAnalytics.employee_revenue a)
                                   (RunAnalytics.employee_revenue b) = true)
    (RunAnalytics.employee_window db).
Proof.
  destruct (ProductFacts.nullable_desc_order RunAnalytics.employee_revenue)
    as [Ht Hr].
  apply (SqlFacts.order_by_sorted Ht Hr).
Qed.

Lemma ranked_employees_nth (db : Database) (i : nat)
      (r : RunAnalytics.EmployeeRank.t) :
  nth_error (RunAnalytics.ranked_employees db) i = Some r ->
  exists g, nth_error (RunAnalytics.employee_window db) i = Some g
            /\ r = RunAnalytics.employee_rank (g, S i).
Proof.
  unfold RunAnalytics.ranked_employees. rewrite nth_error_map.
  destruct (nth_error (row_number (RunAnalytics.employee_window db)) i)
    as [[g n]|] eqn:E; [|discriminate].
  intro H. injection H as <-.
  apply RankFacts.row_number_nth in E. simpl in E. destruct E as [Hg ->].
  exists g. split; [exact Hg|reflexivity].
Qed.

Lemma employee_window_In (db : Database)
      (g : (Z * string * string * string) * list RunAnalytics.EmployeeSale) :
  In g (RunAnalytics.employee_window db) -> matched (snd g) <> [].
Proof.
  unfold RunAnalytics.employee_window, RunAnalytics.emp_performance.
  rewrite SqlFacts.order_by_In, filter_In. intros [_ H].
  cbv beta in H. apply Nat.ltb_lt in H.
  unfold RunAnalytics.EmployeeSale in *.
  destruct (matched (snd g)); [simpl in H; lia|]. discriminate.
Qed.

End RunnerFacts.

(** X24. [run_query] shows the first rows of the result in their order,
    all of them when [limit] is None or 0 or not below their number, and
    all but the last [-limit] when [limit] is negative; the closing count
    is the number of rows of the whole result.  An exception of the
    database is printed, not raised. *)
Theorem X24_run_query_display (A : Type) (df : list A) (limit : option Z) :
  (exists rest, df = Runner.shown (Runner.display limit df) ++ rest)
  /\ Runner.returned (Runner.display limit df) = length df
  /\ (limit = None \/ limit = Some 0%Z ->
      Runner.shown (Runner.display limit df) = df
      /\ Runner.announced (Runner.display limit df) = None)
  /\ (forall n, limit = Some n -> (0 < n)%Z ->
        length (Runner.shown (Runner.display limit df))
        = Nat.min (Z.to_nat n) (length df))
  /\ (forall n, limit = Some n -> (n < 0)%Z ->
        length (Runner.shown (Runner.display limit df))
        = length df - Z.to_nat (- n))
  /\ Runner.run_query (Utils.Returned df) limit
     = Runner.Results (Runner.display limit df)
  /\ (forall e, Runner.run_query (@Utils.Raised (list A) e) limit
                = Runner.ErrorExecutingQuery e).
Proof.
  split; [|split; [|split; [|split; [|split; [|split]]]]].
  - unfold Runner.display, Runner.head. destruct limit as [n|].
    + destruct (negb (n =? 0)%Z && (n <? Z.of_nat (length df))%Z); simpl.
      * destruct (0 <=? n)%Z; eexists; symmetry; apply firstn_skipn.
      * exists []. symmetry. apply app_nil_r.
    + exists []. symmetry. apply app_nil_r.
  - unfold Runner.display. destruct limit as [n|]; [|reflexivity].
    destruct (negb (n =? 0)%Z && (n <? Z.of_nat (length df))%Z); reflexivity.
  - intros [->| ->]; split; reflexivity.
  - intros n -> Hn. unfold Runner.display, Runner.head.
    destruct (Z.eqb_spec n 0) as [E|E]; [lia|]. simpl.
    destruct (Z.ltb_spec n (Z.of_nat (length df))) as [L|L]; simpl.
    + destruct (Z.leb_spec 0 n); [|lia]. rewrite length_firstn. lia.
    + lia.
  - intros n -> Hn. unfold Runner.display, Runner.head.
    destruct (Z.eqb_spec n 0) as [E|E]; [lia|]. simpl.
    destruct (Z.ltb_spec n (Z.of_nat (length df))) as [L|L]; [|lia]. simpl.
    destruct (Z.leb_spec 0 n); [lia|]. rewrite length_firstn. lia.
  - reflexivity.
  - reflexivity.
Qed.

(** X25. The loop of [main] runs the queries in their order and stops
    after the query that is followed by an answer whose lower case is
    'skip': the first query always runs, and with no such answer every
    query runs as long as there is an answer to read after it. *)
Theorem X25_main_loop_stops_at_skip
        (Query : Type) (lower : string -> string) :
  (forall (queries : list Query) typed,
      exists rest,
        queries = fst (Runner.main_loop lower queries typed) ++ rest)
  /\ (forall (queries : list Query) typed,
         queries <> [] -> fst (Runner.main_loop lower queries typed) <> [])
  /\ (forall before line after (queries : list Query),
         lower line = "skip"%string ->
         (forall l, In l before -> lower l <> "skip"%string) ->
         length before < length queries ->
         Runner.main_loop lower queries (before ++ line :: after)
         = (firstn (S (length before)) queries, true))
  /\ (forall (queries : list Query) typed,
         (forall l, In l typed -> lower l <> "skip"%string) ->
         Runner.main_loop lower queries typed
         = (firstn (S (length typed)) queries,
            length queries <=? length typed)).
Proof.
  split; [|split; [|split]].
  - induction queries as [|q rest IH]; intro typed; simpl.
    + exists []. reflexivity.
    + destruct typed as [|line more]; simpl.
      * exists rest. reflexivity.
      * destruct (String.eqb (lower line) "skip"); simpl.
        -- exists rest. reflexivity.
        -- destruct (IH more) as [r Hr]. exists r. f_equal. exact Hr.
  - intros [|q rest] typed H; [congruence|]. simpl.
    destruct typed as [|line more]; simpl; [discriminate|].
    destruct (String.eqb (lower line) "skip"); simpl; discriminate.
  - induction before as [|l before IH];
      intros line after queries Hline Hno Hlen.
    + destruct queries as [|q rest]; [simpl in Hlen; lia|]. simpl.
      rewrite Hline. reflexivity.
    + destruct queries as [|q rest]; [simpl in Hlen; lia|].
      simpl in Hlen. simpl app. cbn [Runner.main_loop].
      destruct (String.eqb_spec (lower l) "skip") as [E|E].
      * exfalso. apply (Hno l); [left; reflexivity|exact E].
      * rewrite (IH line after rest Hline).
        -- reflexivity.
        -- intros l' Hl'. apply Hno. right. exact Hl'.
        -- lia.
  - induction queries as [|q rest IH]; intros typed Hno.
    + reflexivity.
    + destruct typed as [|line more]; cbn [Runner.main_loop].
      * reflexivity.
      * destruct (String.eqb_spec (lower line) "skip") as [E|E].
        -- exfalso. apply (Hno line); [left; reflexivity|exact E].
        -- rewrite IH by (intros l Hl; apply Hno; right; exact Hl).
           reflexivity.
Qed.

(** X26. In query 5 every region that is listed has at least one sale,
    so the completion rate never divides by zero; the counts by status do
    not exceed the number of transactions, the rate lies between 0 and
    100, no region is listed twice and the transactions of the regions add
    up to the number of sales. *)
Theorem X26_sales_by_region (rows : list RunAnalytics.RegionSale) :
  (forall r, In r (RunAnalytics.sales_by_region rows) ->
     1 <= RunAnalytics.RegionRow.total_transactions r
     /\ RunAnalytics.RegionRow.completed r + RunAnalytics.RegionRow.pending r
        + RunAnalytics.RegionRow.cancelled r
        <= RunAnalytics.RegionRow.total_transactions r
     /\ (0 <= RunAnalytics.RegionRow.completion_rate r
         /\ RunAnalytics.RegionRow.completion_rate r <= 100)%Q)
  /\ NoDup (map RunAnalytics.RegionRow.region
                (RunAnalytics.sales_by_region rows))
  /\ list_sum (map RunAnalytics.RegionRow.total_transactions
                   (RunAnalytics.sales_by_region rows))
     = length rows.
Proof.
  assert (Hperm :
            Permutation (map RunAnalytics.region_row
                             (Sql.group_by string_dec fst rows))
                        (RunAnalytics.sales_by_region rows)).
  { unfold RunAnalytics.sales_by_region. apply Permutation_map.
    apply SqlFacts.order_by_perm. }
  split; [|split].
  - intros r Hr. apply RunnerFacts.region_groups_In in Hr.
    destruct Hr as [[k g] [Hg ->]]. simpl.
    pose proof (AggregateFacts.group_by_nonempty _ _ _ _ _ _ _ Hg) as Hne.
    assert (Hlen : 1 <= length g) by (destruct g; [congruence|simpl; lia]).
    assert (Hc : RunAnalytics.count_status "completed" g <= length g).
    { unfold RunAnalytics.count_status. apply RunnerFacts.filter_le. }
    split; [exact Hlen|]. split.
    + unfold RunAnalytics.count_status. apply RunnerFacts.disjoint_counts.
      * intros x Hx. apply String.eqb_eq in Hx. rewrite Hx. split; reflexivity.
      * intros x Hx. apply String.eqb_eq in Hx. rewrite Hx. reflexivity.
    + unfold RunAnalytics.completion_rate, RunAnalytics.RegionSale in *.
      destruct (RollupFacts.rank_ratio_bounds
                  (RunAnalytics.count_status "completed" g) (length g) Hc Hlen)
        as [H0 H1].
      revert H0 H1.
      generalize (inject_Z (Z.of_nat (RunAnalytics.count_status "completed" g))
                  / inject_Z (Z.of_nat (length g)))%Q.
      intros x H0 H1. apply RoundFacts.round_percent; lra.
  - apply (Permutation_NoDup
             (Permutation_map RunAnalytics.RegionRow.region Hperm)).
    rewrite map_map. simpl.
    apply (AggregateFacts.group_by_keys_NoDup _ _ string_dec fst rows).
  - rewrite <- (RunnerFacts.list_sum_perm _ _
                  (Permutation_map RunAnalytics.RegionRow.total_transactions
                                   Hperm)).
    rewrite map_map. simpl.
    apply (AggregateFacts.group_by_sizes _ _ string_dec fst rows).
Qed.

(** X27. In query 6 every listed employee has at least one completed
    sale, between one and that many distinct customers, and an average
    sale that is the revenue divided by the number of sales; the ranks of
    the window are 1, 2, 3, ... without gap, an employee with a strictly
    higher revenue has the smaller rank, and at most 15 rows are listed. *)
Theorem X27_top_employees (db : Database) :
  (forall r, In r (RunAnalytics.ranked_employees db) ->
     1 <= RunAnalytics.EmployeeRank.total_sales r
     /\ 1 <= RunAnalytics.EmployeeRank.unique_customers r
        <= RunAnalytics.EmployeeRank.total_sales r
     /\ exists v,
          RunAnalytics.EmployeeRank.revenue r = Some v
          /\ RunAnalytics.EmployeeRank.avg_sale r
             = Some (v / inject_Z
                           (Z.of_nat (RunAnalytics.EmployeeRank.total_sales r)))%Q)
  /\ map RunAnalytics.EmployeeRank.rank (RunAnalytics.ranked_employees db)
     = seq 1 (length (RunAnalytics.emp_performance db))
  /\ (forall a b va vb,
         In a (RunAnalytics.ranked_employees db) ->
         In b (RunAnalytics.ranked_employees db) ->
         RunAnalytics.EmployeeRank.revenue a = Some va ->
         RunAnalytics.EmployeeRank.revenue b = Some vb ->
         (vb < va)%Q ->
         RunAnalytics.EmployeeRank.rank a < RunAnalytics.EmployeeRank.rank b)
  /\ (forall r, In r (RunAnalytics.top_employees db) ->
                In r (RunAnalytics.ranked_employees db))
  /\ length (RunAnalytics.top_employees db) <= 15.
Proof.
  split; [|split; [|split; [|split]]].
  - intros r Hr. apply In_nth_error in Hr. destruct Hr as [i Hi].
    apply RunnerFacts.ranked_employees_nth in Hi.
    destruct Hi as [g [Hg ->]]. apply nth_error_In in Hg.
    apply RunnerFacts.employee_window_In in Hg. simpl.
    unfold RunAnalytics.employee_revenue, RunAnalytics.EmployeeSale in *.
    destruct (Sql.matched (snd g)) as [|s ss] eqn:E; [congruence|].
    split; [simpl; lia|]. split; [split|].
    + apply SqlFacts.count_distinct_pos. discriminate.
    + rewrite <- (length_map Sale.customer_id (s :: ss)).
      apply RunnerFacts.count_distinct_le.
    + exists (Sql.sum_q (map Sale.total_amount (s :: ss))).
      split; [reflexivity|].
      rewrite <- (length_map Sale.total_amount (s :: ss)). reflexivity.
  - unfold RunAnalytics.ranked_employees. rewrite map_map. simpl.
    rewrite RankFacts.row_number_snd.
    unfold RunAnalytics.employee_window.
    rewrite SqlFacts.order_by_length. reflexivity.
  - intros a b va vb Ha Hb Hva Hvb Hlt.
    apply In_nth_error in Ha. destruct Ha as [i Hi].
    apply In_nth_error in Hb. destruct Hb as [j Hj].
    apply RunnerFacts.ranked_employees_nth in Hi.
    destruct Hi as [ga [Hga ->]].
    apply RunnerFacts.ranked_employees_nth in Hj.
    destruct Hj as [gb [Hgb ->]].
    simpl in *.
    destruct (Nat.lt_trichotomy i j) as [L|[E|L]].
    + lia.
    + subst j. rewrite Hga in Hgb. injection Hgb as <-.
      rewrite Hva in Hvb. injection Hvb as <-. lra.
    + pose proof (RunnerFacts.sorted_nth _ _ j i gb ga
                    (RunnerFacts.employee_window_sorted db) L Hgb Hga) as H.
      simpl in H. rewrite Hva, Hvb in H. simpl in H.
      apply Qle_bool_iff in H. lra.
  - intros r Hr. unfold RunAnalytics.top_employees in Hr.
    apply SqlFacts.limit_In in Hr. apply SqlFacts.order_by_In in Hr. exact Hr.
  - unfold RunAnalytics.top_employees, Sql.limit. apply firstn_le_length.
Qed.

(* ================================================================== *)
(** * The customers an answer keeps *)
(* ================================================================== *)

Module TopFacts.
Import Sql.

Lemma sorted_app_inv {A} (R : A -> A -> Prop) (l1 l2 : list A) (x y : A) :
  StronglySorted R (l1 ++ l2) -> In x l1 -> In y l2 -> R x y.
Proof.
  induction l1 as [|a l1 IH]; intros Hs Hx Hy; [destruct Hx|].
  simpl in Hs. inversion Hs as [|? ? Hs' Ha]; subst.
  destruct Hx as [->|Hx].
  - rewrite Forall_forall in Ha. apply Ha. apply in_or_app. right. exact Hy.
  - apply IH; assumption.
Qed.

(** [ORDER BY ... LIMIT n] keeps rows that sort before every row it
    drops. *)
Lemma limit_keeps_first {A} (leb : A -> A -> bool) (n : nat) (l : list A)
      (x y : A) :
  total leb -> transitive leb ->
  In x (limit n (order_by leb l)) -> In y l ->
  In y (limit n (order_by leb l)) \/ leb x y = true.
Proof.
  intros Ht Hr Hx Hy. unfold limit in *.
  apply (SqlFacts.order_by_In leb) in Hy.
  rewrite <- (firstn_skipn n (order_by leb l)) in Hy.
  apply in_app_or in Hy. destruct Hy as [Hy|Hy]; [left; exact Hy|right].
  pose proof (SqlFacts.order_by_sorted Ht Hr l) as Hs.
  rewrite <- (firstn_skipn n (order_by leb l)) in Hs.
  apply (sorted_app_inv _ _ _ x y Hs Hx Hy).
Qed.

End TopFacts.

(** X28. The RFM endpoint keeps the customers who spent most: a scored
    customer it leaves out has not spent more than any customer it
    returns.  The rows come in the order of the value spent, highest
    first, and their number is [limit] or the number of scored customers,
    whichever is smaller. *)
Theorem X28_rfm_answer_keeps_top_spenders
        (limit_ : nat) (today : Sql.date) (db : Database) :
  (forall out y,
      In out (Main.get_customer_rfm_analysis limit_ today db) ->
      In y (Main.rfm_scores today db) ->
      In (Main.customer_rfm y) (Main.get_customer_rfm_analysis limit_ today db)
      \/ (Main.CustomerMetrics.monetary_value (Main.RfmScores.metrics y)
          <= Main.CustomerRFM.lifetime_value out)%Q)
  /\ StronglySorted
       (fun a b => (Main.CustomerRFM.lifetime_value b
                    <= Main.CustomerRFM.lifetime_value a)%Q)
       (Main.get_customer_rfm_analysis limit_ today db)
  /\ length (Main.get_customer_rfm_analysis limit_ today db)
     = Nat.min limit_ (length (Main.customer_metrics today db)).
Proof.
  destruct (Keys.by_Q_desc
              (fun x => Main.CustomerMetrics.monetary_value
                          (Main.RfmScores.metrics x))) as [Ht Hr].
  split; [|split].
  - intros out y Hout Hy. unfold Main.get_customer_rfm_analysis in *.
    apply in_map_iff in Hout. destruct Hout as [x [<- Hx]].
    destruct (TopFacts.limit_keeps_first _ limit_ _ x y Ht Hr Hx Hy)
      as [H|H].
    + left. apply in_map. exact H.
    + right. simpl. apply Qle_bool_iff. exact H.
  - unfold Main.get_customer_rfm_analysis, Sql.limit.
    apply (@SqlFacts.sorted_map
             _ _ (fun a b => Main.monetary_desc (Main.RfmScores.metrics a)
                                                (Main.RfmScores.metrics b)
                             = true)).
    + intros a b H. simpl. apply Qle_bool_iff. exact H.
    + apply SqlFacts.sorted_firstn.
      apply (SqlFacts.order_by_sorted Ht Hr).
  - unfold Main.get_customer_rfm_analysis, Sql.limit.
    rewrite length_map, length_firstn, SqlFacts.order_by_length.
    rewrite RfmFacts.main_scores_lengths. reflexivity.
Qed.
